(** * WhisperCore_Android: the JNI bridge [lib/src/main/cpp/jni.c]

    A shallow embedding of the stream adapter ([inputStreamRead],
    [inputStreamEof], [inputStreamClose]), of the two loader based
    initializers and of the transcription entry point, as functions in a
    state and fault monad over an explicit world: the native heap, the
    Java side seen through JNI (arrays behind local references, global
    references, the pending exception), the Java VM binding of the
    current thread, the file-level globals of [jni.c] and a trace of the
    calls that leave the translation unit.  The library hooks
    [JNI_OnLoad] and [JNI_OnUnload] act on the same world; the entry
    points that pass paths, handles and text act on a process that adds
    the Java strings to it. *)

From Stdlib Require Import ZArith String List Lia.
From Stdlib.Strings Require Import Byte.
From stdpp Require Import gmap strings list.

Local Open Scope string_scope.
Local Open Scope Z_scope.

(** ** Machine integers *)

(** [size_t] on the LP64 ABIs of Android (arm64-v8a, x86_64). *)
Definition SIZE_BITS : Z := 64.
Definition SIZE_MODULUS : Z := 2 ^ SIZE_BITS.

(** Unsigned arithmetic on [size_t] wraps. *)
Definition wrap_size (n : Z) : Z := n mod SIZE_MODULUS.

(** The conversion [(jint)x]: reduction to 32 bits, two's complement. *)
Definition to_jint (n : Z) : Z := (n + 2 ^ 31) mod 2 ^ 32 - 2 ^ 31.

(** Constants of [jni.h]. *)
Definition JNI_OK : Z := 0.
Definition JNI_ERR : Z := -1.
Definition JNI_EDETACHED : Z := -2.
Definition JNI_EVERSION : Z := -3.
Definition JNI_COMMIT : Z := 1.
Definition JNI_ABORT : Z := 2.
Definition JNI_VERSION_1_6 : Z := 65542.

(** Pointers and JNI references are machine words; [NULL] is 0. *)
Definition NULL : Z := 0.

(** ** Data of [jni.c] *)

(** The two method handles that [JNI_OnLoad] looks up, or no handle. *)
Inductive jmethodID : Type :=
| MID_NULL
| MID_InputStream_available
| MID_InputStream_read.

(** [struct input_stream_context]. *)
Record input_stream_context : Type := mk_input_stream_context {
  offset : Z;
  env : Z;
  input_stream : Z;
  mid_available : jmethodID;
  mid_read : jmethodID
}.

Definition set_offset (n : Z) (c : input_stream_context) : input_stream_context :=
  mk_input_stream_context n (env c) (input_stream c) (mid_available c) (mid_read c).

Definition set_env (e : Z) (c : input_stream_context) : input_stream_context :=
  mk_input_stream_context (offset c) e (input_stream c) (mid_available c) (mid_read c).

Definition set_input_stream (r : Z) (c : input_stream_context) : input_stream_context :=
  mk_input_stream_context (offset c) (env c) r (mid_available c) (mid_read c).

Definition set_mid_available (m : jmethodID) (c : input_stream_context) : input_stream_context :=
  mk_input_stream_context (offset c) (env c) (input_stream c) m (mid_read c).

Definition set_mid_read (m : jmethodID) (c : input_stream_context) : input_stream_context :=
  mk_input_stream_context (offset c) (env c) (input_stream c) (mid_available c) m.

(** What [memset(p, 0, sizeof *p)] leaves in the struct. *)
Definition zero_context : input_stream_context :=
  mk_input_stream_context 0 0 0 MID_NULL MID_NULL.

Definition is_null_mid (m : jmethodID) : bool :=
  match m with MID_NULL => true | _ => false end.

(** What lives in a block of the native heap. *)
Inductive block : Type :=
| Bcontext (c : input_stream_context)
| Btimings.

(** Arguments of a JNI method call. *)
Inductive jvalue : Type :=
| JRef (r : Z)
| JInt (n : Z).

(** What a Java method call hands back through JNI: the [jint] in the
    return register and whether an exception was raised. *)
Record jcall : Type := mk_jcall { retval : Z; threw : bool }.

(** What the Java VM answers the current thread: [GetEnv] finds the
    thread bound, unbound, or the requested JNI version unsupported, and
    [AttachCurrentThread] would succeed or not. *)
Inductive thread_binding : Type :=
| Bound
| Unbound
| UnsupportedVersion.

Record JavaVM : Type := mk_JavaVM {
  vm_binding : thread_binding;
  vm_can_attach : bool
}.

Definition is_unbound (v : JavaVM) : bool :=
  match vm_binding v with Unbound => true | _ => false end.

Inductive log_level : Type := LOG_INFO | LOG_WARN | LOG_ERROR.

Inductive whisper_sampling_strategy : Type :=
| WHISPER_SAMPLING_GREEDY
| WHISPER_SAMPLING_BEAM_SEARCH.

(** The fields of [struct whisper_full_params] that [jni.c] assigns. *)
Record whisper_full_params : Type := mk_whisper_full_params {
  strategy : whisper_sampling_strategy;
  print_realtime : bool;
  print_progress : bool;
  print_timestamps : bool;
  print_special : bool;
  translate : bool;
  language : string;
  n_threads : Z;
  offset_ms : Z;
  no_context : bool;
  single_segment : bool
}.

(** Calls that leave [jni.c], in program order. *)
Inductive event : Type :=
| Elog (lvl : log_level) (msg : string)
| Emalloc (p : Z)
| Efree (p : Z)
| ENewByteArray (len : Z) (r : Z)
| ECallRead (obj : Z) (arr : Z) (off : Z) (len : Z)
| ECallAvailable (obj : Z)
| EExceptionDescribe
| EExceptionClear
| EGetByteArrayRegion (arr : Z) (start : Z) (len : Z)
| EDeleteLocalRef (r : Z)
| ENewGlobalRef (obj : Z) (r : Z)
| EDeleteGlobalRef (r : Z)
| EFindClass (name : string) (r : Z)
| EGetMethodID (name : string) (sig : string)
| EGetEnv (stat : Z)
| EAttachCurrentThread (rc : Z)
| EDetachCurrentThread
| EAssetOpen (path : string) (asset : Z)
| EGetFloatArrayElements (arr : Z) (elems : Z)
| EReleaseFloatArrayElements (arr : Z) (elems : Z) (mode : Z)
| Ewhisper_init_with_params (loader_context : Z)
| Ewhisper_reset_timings (context : Z)
| Ewhisper_full (context : Z) (params : whisper_full_params) (samples : Z) (n_samples : Z)
| Ewhisper_get_timings (context : Z) (timings : Z).

Inductive fault : Type :=
| NullPointer
| UseAfterFree
| DoubleFree
| BadPointer
| BadJNICall.

(** ** Observations on traces *)

Fixpoint count_events (p : event -> bool) (evs : list event) : nat :=
  match evs with
  | [] => 0%nat
  | e :: rest => ((if p e then 1 else 0) + count_events p rest)%nat
  end.

Definition is_free_of (ptr : Z) (e : event) : bool :=
  match e with Efree q => q =? ptr | _ => false end.

Definition is_free (e : event) : bool :=
  match e with Efree _ => true | _ => false end.

Definition is_DeleteGlobalRef (e : event) : bool :=
  match e with EDeleteGlobalRef _ => true | _ => false end.

Definition is_attach (e : event) : bool :=
  match e with EAttachCurrentThread _ => true | _ => false end.

Definition is_attach_ok (e : event) : bool :=
  match e with EAttachCurrentThread rc => rc =? 0 | _ => false end.

Definition is_detach (e : event) : bool :=
  match e with EDetachCurrentThread => true | _ => false end.

Definition is_stream_call (e : event) : bool :=
  match e with ECallRead _ _ _ _ | ECallAvailable _ => true | _ => false end.

Definition is_engine_call (e : event) : bool :=
  match e with
  | Ewhisper_init_with_params _ | Ewhisper_reset_timings _
  | Ewhisper_full _ _ _ _ | Ewhisper_get_timings _ _ => true
  | _ => false
  end.

Definition is_whisper_full (e : event) : bool :=
  match e with Ewhisper_full _ _ _ _ => true | _ => false end.

Definition is_release (e : event) : bool :=
  match e with EReleaseFloatArrayElements _ _ _ => true | _ => false end.

Definition is_release_with (mode : Z) (e : event) : bool :=
  match e with EReleaseFloatArrayElements _ _ m => m =? mode | _ => false end.

Definition is_warning (e : event) : bool :=
  match e with Elog LOG_WARN _ => true | _ => false end.

Definition is_log (e : event) : bool :=
  match e with Elog _ _ => true | _ => false end.

Section Bridge.

(** The state of the Java [InputStream] object behind the adapter. *)
Variable JStream : Type.

Record World : Type := mk_World {
  heap : gmap Z block;
  next_block : positive;
  arrays : gmap Z (list byte);
  float_arrays : gmap Z (list Z);
  borrowed : gmap Z (Z * list Z);
  next_ref : positive;
  globals : gset Z;
  pending : bool;
  stream : JStream;
  vm : JavaVM;
  assets : gmap Z (list byte);
  g_vm : Z;
  g_inputStreamClass : Z;
  g_midInputStreamAvailable : jmethodID;
  g_midInputStreamRead : jmethodID;
  trace : list event
}.

Definition set_heap (h : gmap Z block) (w : World) : World :=
  mk_World h (next_block w) (arrays w) (float_arrays w) (borrowed w)
    (next_ref w) (globals w) (pending w) (stream w) (vm w) (assets w)
    (g_vm w) (g_inputStreamClass w) (g_midInputStreamAvailable w)
    (g_midInputStreamRead w) (trace w).

Definition set_next_block (n : positive) (w : World) : World :=
  mk_World (heap w) n (arrays w) (float_arrays w) (borrowed w) (next_ref w)
    (globals w) (pending w) (stream w) (vm w) (assets w) (g_vm w)
    (g_inputStreamClass w) (g_midInputStreamAvailable w)
    (g_midInputStreamRead w) (trace w).

Definition set_arrays (a : gmap Z (list byte)) (w : World) : World :=
  mk_World (heap w) (next_block w) a (float_arrays w) (borrowed w)
    (next_ref w) (globals w) (pending w) (stream w) (vm w) (assets w)
    (g_vm w) (g_inputStreamClass w) (g_midInputStreamAvailable w)
    (g_midInputStreamRead w) (trace w).

Definition set_float_arrays (a : gmap Z (list Z)) (w : World) : World :=
  mk_World (heap w) (next_block w) (arrays w) a (borrowed w) (next_ref w)
    (globals w) (pending w) (stream w) (vm w) (assets w) (g_vm w)
    (g_inputStreamClass w) (g_midInputStreamAvailable w)
    (g_midInputStreamRead w) (trace w).

Definition set_borrowed (b : gmap Z (Z * list Z)) (w : World) : World :=
  mk_World (heap w) (next_block w) (arrays w) (float_arrays w) b
    (next_ref w) (globals w) (pending w) (stream w) (vm w) (assets w)
    (g_vm w) (g_inputStreamClass w) (g_midInputStreamAvailable w)
    (g_midInputStreamRead w) (trace w).

Definition set_next_ref (n : positive) (w : World) : World :=
  mk_World (heap w) (next_block w) (arrays w) (float_arrays w) (borrowed w)
    n (globals w) (pending w) (stream w) (vm w) (assets w) (g_vm w)
    (g_inputStreamClass w) (g_midInputStreamAvailable w)
    (g_midInputStreamRead w) (trace w).

Definition set_globals (g : gset Z) (w : World) : World :=
  mk_World (heap w) (next_block w) (arrays w) (float_arrays w) (borrowed w)
    (next_ref w) g (pending w) (stream w) (vm w) (assets w) (g_vm w)
    (g_inputStreamClass w) (g_midInputStreamAvailable w)
    (g_midInputStreamRead w) (trace w).

Definition set_pending (b : bool) (w : World) : World :=
  mk_World (heap w) (next_block w) (arrays w) (float_arrays w) (borrowed w)
    (next_ref w) (globals w) b (stream w) (vm w) (assets w) (g_vm w)
    (g_inputStreamClass w) (g_midInputStreamAvailable w)
    (g_midInputStreamRead w) (trace w).

Definition set_stream (s : JStream) (w : World) : World :=
  mk_World (heap w) (next_block w) (arrays w) (float_arrays w) (borrowed w)
    (next_ref w) (globals w) (pending w) s (vm w) (assets w) (g_vm w)
    (g_inputStreamClass w) (g_midInputStreamAvailable w)
    (g_midInputStreamRead w) (trace w).

Definition set_vm (v : JavaVM) (w : World) : World :=
  mk_World (heap w) (next_block w) (arrays w) (float_arrays w) (borrowed w)
    (next_ref w) (globals w) (pending w) (stream w) v (assets w) (g_vm w)
    (g_inputStreamClass w) (g_midInputStreamAvailable w)
    (g_midInputStreamRead w) (trace w).

Definition set_assets (a : gmap Z (list byte)) (w : World) : World :=
  mk_World (heap w) (next_block w) (arrays w) (float_arrays w) (borrowed w)
    (next_ref w) (globals w) (pending w) (stream w) (vm w) a (g_vm w)
    (g_inputStreamClass w) (g_midInputStreamAvailable w)
    (g_midInputStreamRead w) (trace w).

Definition set_g_vm (p : Z) (w : World) : World :=
  mk_World (heap w) (next_block w) (arrays w) (float_arrays w) (borrowed w)
    (next_ref w) (globals w) (pending w) (stream w) (vm w) (assets w) p
    (g_inputStreamClass w) (g_midInputStreamAvailable w)
    (g_midInputStreamRead w) (trace w).

Definition set_g_inputStreamClass (p : Z) (w : World) : World :=
  mk_World (heap w) (next_block w) (arrays w) (float_arrays w) (borrowed w)
    (next_ref w) (globals w) (pending w) (stream w) (vm w) (assets w)
    (g_vm w) p (g_midInputStreamAvailable w) (g_midInputStreamRead w)
    (trace w).

Definition set_g_midInputStreamAvailable (m : jmethodID) (w : World) : World :=
  mk_World (heap w) (next_block w) (arrays w) (float_arrays w) (borrowed w)
    (next_ref w) (globals w) (pending w) (stream w) (vm w) (assets w)
    (g_vm w) (g_inputStreamClass w) m (g_midInputStreamRead w) (trace w).

Definition set_g_midInputStreamRead (m : jmethodID) (w : World) : World :=
  mk_World (heap w) (next_block w) (arrays w) (float_arrays w) (borrowed w)
    (next_ref w) (globals w) (pending w) (stream w) (vm w) (assets w)
    (g_vm w) (g_inputStreamClass w) (g_midInputStreamAvailable w) m
    (trace w).

Definition emit (e : event) (w : World) : World :=
  mk_World (heap w) (next_block w) (arrays w) (float_arrays w) (borrowed w)
    (next_ref w) (globals w) (pending w) (stream w) (vm w) (assets w)
    (g_vm w) (g_inputStreamClass w) (g_midInputStreamAvailable w)
    (g_midInputStreamRead w) (trace w ++ [e]).

(** ** The monad: a world threaded through, or a fault that ends the run *)

Inductive outcome (A : Type) : Type :=
| Ok (a : A) (w : World)
| Crash (f : fault) (w : World).

Arguments Ok {A} a w.
Arguments Crash {A} f w.

Definition M (A : Type) : Type := World -> outcome A.

Definition ret {A : Type} (a : A) : M A := fun w => Ok a w.

Definition bind {A B : Type} (m : M A) (k : A -> M B) : M B :=
  fun w => match m w with
           | Ok a w' => k a w'
           | Crash f w' => Crash f w'
           end.

Definition crash {A : Type} (f : fault) : M A := fun w => Crash f w.

Definition modify (f : World -> World) : M unit := fun w => Ok tt (f w).

Definition gets {A : Type} (f : World -> A) : M A := fun w => Ok (f w) w.

Local Notation "x <- m ;; k" := (bind m (fun x => k))
  (at level 100, m at next level, k at level 200, right associativity).
Local Notation "m ;; k" := (bind m (fun _ => k))
  (at level 100, k at level 200, right associativity).

(** [struct whisper_model_loader] of [whisper.h]: an opaque context and
    three callbacks, each of which may be a null function pointer.  [read]
    also yields the bytes it stored through its [output] argument. *)
Record whisper_model_loader : Type := mk_whisper_model_loader {
  context : Z;
  read : option (Z -> Z -> M (Z * list byte));
  eof : option (Z -> M bool);
  close : option (Z -> M unit)
}.

(** Everything outside [jni.c] whose answer the file cannot predict: the
    Java class of the stream, the allocators, the asset manager and the
    inference engine.  Allocation answers may depend on the whole world,
    the trace included. *)
Record Host : Type := mk_Host {
  stream_read : JStream -> Z -> Z -> Z -> jcall * list byte * JStream;
  stream_available : JStream -> jcall * JStream;
  java_alloc_fails : World -> bool;
  class_missing : string -> World -> bool;
  method_missing : string -> string -> World -> bool;
  malloc_fails : World -> bool;
  asset_open : string -> World -> option (list byte);
  float_elements_fail : World -> bool;
  whisper_init_with_params : whisper_model_loader -> M Z;
  whisper_full : World -> Z;
  whisper_get_timings_fails : World -> bool
}.

Variable host : Host.

(** ** [android/log.h] *)

Definition LOGI (msg : string) : M unit := modify (emit (Elog LOG_INFO msg)).
Definition LOGW (msg : string) : M unit := modify (emit (Elog LOG_WARN msg)).
Definition LOGE (msg : string) : M unit := modify (emit (Elog LOG_ERROR msg)).

(** ** [stdlib.h] and access to a context through its pointer *)

Definition fresh_block (w : World) : Z := Z.pos (next_block w).

Definition malloc (b : block) : M Z :=
  fun w =>
    if malloc_fails host w then Ok NULL (emit (Emalloc NULL) w)
    else
      let p := fresh_block w in
      Ok p (emit (Emalloc p)
              (set_next_block (Pos.succ (next_block w))
                 (set_heap (<[p := b]> (heap w)) w))).

Definition free (p : Z) : M unit :=
  fun w =>
    if p =? NULL then Ok tt (emit (Efree p) w)
    else match heap w !! p with
         | Some _ => Ok tt (emit (Efree p) (set_heap (delete p (heap w)) w))
         | None => Crash DoubleFree w
         end.

(** Reading [*is]: a null pointer and a pointer to a released block are
    both undefined behaviour; the run ends there. *)
Definition load_context (p : Z) : M input_stream_context :=
  fun w =>
    if p =? NULL then Crash NullPointer w
    else match heap w !! p with
         | Some (Bcontext c) => Ok c w
         | Some Btimings => Crash BadPointer w
         | None => Crash UseAfterFree w
         end.

Definition store_context (p : Z) (c : input_stream_context) : M unit :=
  fun w =>
    if p =? NULL then Crash NullPointer w
    else match heap w !! p with
         | Some _ => Ok tt (set_heap (<[p := Bcontext c]> (heap w)) w)
         | None => Crash UseAfterFree w
         end.

(** ** The [JNIEnv] function table

    Every function is reached by dereferencing [env], so a null [env]
    ends the run. *)

Definition through_env {A : Type} (e : Z) (m : M A) : M A :=
  if e =? NULL then crash NullPointer else m.

Definition fresh_ref (w : World) : Z := Z.pos (next_ref w).

(** [NewByteArray]: a zero-filled array behind a new local reference, or
    [NULL] with an exception pending (OutOfMemoryError, or
    NegativeArraySizeException for a negative length). *)
Definition NewByteArray (e : Z) (len : Z) : M Z :=
  through_env e (fun w =>
    if (len <? 0) || java_alloc_fails host w then
      Ok NULL (emit (ENewByteArray len NULL) (set_pending true w))
    else
      let r := fresh_ref w in
      Ok r (emit (ENewByteArray len r)
              (set_next_ref (Pos.succ (next_ref w))
                 (set_arrays (<[r := repeat x00 (Z.to_nat len)]> (arrays w)) w)))).

(** Java stores [data] into the array from index [off]; the array keeps
    its length. *)
Definition array_store (off : Z) (data content : list byte) : list byte :=
  let o := Z.to_nat off in
  take o content ++ take (length content - o)%nat data
    ++ drop (o + length data)%nat content.

(** [CallIntMethod]: dispatch on the method handle.  The value handed
    back is a [jint]; an exception raised by the method stays pending. *)
Definition CallIntMethod (e : Z) (obj : Z) (mid : jmethodID) (args : list jvalue) : M Z :=
  through_env e (fun w =>
    match mid, args with
    | MID_InputStream_read, [JRef arr; JInt off; JInt len] =>
        match arrays w !! arr with
        | Some content =>
            let '(r, data, s') :=
              stream_read host (stream w) (Z.of_nat (length content)) off len in
            Ok (to_jint (retval r))
               (emit (ECallRead obj arr off len)
                  (set_pending (pending w || threw r)
                     (set_stream s'
                        (set_arrays (<[arr := array_store off data content]> (arrays w)) w))))
        | None => Crash BadJNICall w
        end
    | MID_InputStream_available, [] =>
        let '(r, s') := stream_available host (stream w) in
        Ok (to_jint (retval r))
           (emit (ECallAvailable obj)
              (set_pending (pending w || threw r) (set_stream s' w)))
    | _, _ => Crash BadJNICall w
    end).

Definition ExceptionCheck (e : Z) : M bool :=
  through_env e (gets pending).

Definition ExceptionDescribe (e : Z) : M unit :=
  through_env e (modify (emit EExceptionDescribe)).

Definition ExceptionClear (e : Z) : M unit :=
  through_env e (modify (fun w => emit EExceptionClear (set_pending false w))).

(** [GetByteArrayRegion]: the copy of [len] elements from [start], or an
    ArrayIndexOutOfBoundsException and nothing copied. *)
Definition GetByteArrayRegion (e : Z) (arr : Z) (start len : Z) : M (list byte) :=
  through_env e (fun w =>
    match arrays w !! arr with
    | Some content =>
        if (0 <=? start) && (0 <=? len) && (start + len <=? Z.of_nat (length content)) then
          Ok (take (Z.to_nat len) (drop (Z.to_nat start) content))
             (emit (EGetByteArrayRegion arr start len) w)
        else
          Ok [] (emit (EGetByteArrayRegion arr start len) (set_pending true w))
    | None => Crash BadJNICall w
    end).

Definition DeleteLocalRef (e : Z) (r : Z) : M unit :=
  through_env e (modify (fun w => emit (EDeleteLocalRef r) (set_arrays (delete r (arrays w)) w))).

(** ** The stream adapter *)

(** [size_t inputStreamRead(void * ctx, void * output, size_t read_size)].
    The second component of the result is what was stored through
    [output]. *)
Definition inputStreamRead (ctx : Z) (read_size : Z) : M (Z * list byte) :=
  is_ <- load_context ctx ;;
  let env := env is_ in
  if read_size =? 0 then ret (0, [])
  else
    java_byte_array <- NewByteArray env (to_jint read_size) ;;
    if java_byte_array =? NULL then
      LOGW "inputStreamRead: Failed to allocate NewByteArray for reading" ;;
      ret (0, [])
    else
      actual_bytes_read <-
        CallIntMethod env (input_stream is_) (mid_read is_)
          [JRef java_byte_array; JInt 0; JInt (to_jint read_size)] ;;
      exc <- ExceptionCheck env ;;
      if exc : bool then
        LOGW "inputStreamRead: Exception occurred during Java InputStream.read()" ;;
        ExceptionDescribe env ;;
        ExceptionClear env ;;
        DeleteLocalRef env java_byte_array ;;
        ret (0, [])
      else
        res <-
          (if actual_bytes_read >? 0 then
             copied <- GetByteArrayRegion env java_byte_array 0 actual_bytes_read ;;
             exc2 <- ExceptionCheck env ;;
             if exc2 : bool then
               LOGW "inputStreamRead: Exception during GetByteArrayRegion" ;;
               ExceptionDescribe env ;;
               ExceptionClear env ;;
               ret (0, copied)
             else ret (actual_bytes_read, copied)
           else if actual_bytes_read =? -1 then
             LOGI "inputStreamRead: EOF reached by Java InputStream.read()" ;;
             ret (0, [])
           else
             LOGI "inputStreamRead: Java InputStream.read() returned 0 bytes, but not EOF." ;;
             ret (0, [])) ;;
        let result_bytes := fst res in
        DeleteLocalRef env java_byte_array ;;
        is_' <- load_context ctx ;;
        store_context ctx (set_offset (wrap_size (offset is_' + result_bytes)) is_') ;;
        ret (result_bytes, snd res).

(** [bool inputStreamEof(void * ctx)]. *)
Definition inputStreamEof (ctx : Z) : M bool :=
  is_ <- load_context ctx ;;
  result <- CallIntMethod (env is_) (input_stream is_) (mid_available is_) [] ;;
  ret (result <=? 0).

(** ** The [JavaVM] function table

    Every function is reached by dereferencing the [JavaVM] pointer, in
    [jni.c] almost always the global [g_vm]. *)

(** The [JNIEnv] of the current thread, when it has one. *)
Definition thread_env : Z := 1.

Definition through_vm {A : Type} (v : Z) (m : M A) : M A :=
  if v =? NULL then crash NullPointer else m.

(** [GetEnv]: status and the value stored through its [env] argument. *)
Definition GetEnv (v : Z) : M (Z * Z) :=
  through_vm v (fun w =>
    match vm_binding (vm w) with
    | Unbound => Ok (JNI_EDETACHED, NULL) (emit (EGetEnv JNI_EDETACHED) w)
    | UnsupportedVersion => Ok (JNI_EVERSION, NULL) (emit (EGetEnv JNI_EVERSION) w)
    | Bound => Ok (JNI_OK, thread_env) (emit (EGetEnv JNI_OK) w)
    end).

Definition AttachCurrentThread (v : Z) : M (Z * Z) :=
  through_vm v (fun w =>
    if vm_can_attach (vm w) then
      Ok (JNI_OK, thread_env)
         (emit (EAttachCurrentThread JNI_OK)
            (set_vm (mk_JavaVM Bound (vm_can_attach (vm w))) w))
    else Ok (JNI_ERR, NULL) (emit (EAttachCurrentThread JNI_ERR) w)).

Definition DetachCurrentThread (v : Z) : M unit :=
  through_vm v (modify (fun w =>
    emit EDetachCurrentThread
      (set_vm (mk_JavaVM Unbound (vm_can_attach (vm w))) w))).

(** [NewGlobalRef]: [NULL] for a null object or when the VM is out of
    memory. *)
Definition NewGlobalRef (e : Z) (obj : Z) : M Z :=
  through_env e (fun w =>
    if (obj =? NULL) || java_alloc_fails host w then
      Ok NULL (emit (ENewGlobalRef obj NULL) w)
    else
      let r := fresh_ref w in
      Ok r (emit (ENewGlobalRef obj r)
              (set_next_ref (Pos.succ (next_ref w))
                 (set_globals ({[r]} ∪ globals w) w)))).

Definition DeleteGlobalRef (e : Z) (r : Z) : M unit :=
  through_env e (modify (fun w =>
    emit (EDeleteGlobalRef r) (set_globals (globals w ∖ {[r]}) w))).

(** Lines 159 to 175 of [inputStreamClose], reached with the [env] and
    the [attached_here] flag that the first half computed. *)
Definition inputStreamClose_release (ctx : Z) (env : Z) (attached_here : bool) : M unit :=
  is_ <- load_context ctx ;;
  (if negb (input_stream is_ =? NULL) then
     LOGI "JNI: Deleting global ref %p for input_stream in inputStreamClose (context %p)" ;;
     DeleteGlobalRef env (input_stream is_) ;;
     store_context ctx (set_input_stream NULL is_)
   else
     LOGW "JNI: inputStreamClose - input_stream in context %p was already NULL") ;;
  LOGI "JNI: Freeing input_stream_context %p in inputStreamClose" ;;
  free ctx ;;
  if attached_here then
    LOGI "JNI: inputStreamClose - Detaching current thread from JVM." ;;
    gvm <- gets g_vm ;;
    DetachCurrentThread gvm
  else ret tt.

(** The three places where [inputStreamClose] gives up on the foreign
    reference: warn if one is held, release the struct, return. *)
Definition inputStreamClose_leak (ctx : Z) (warning : string) : M unit :=
  is_ <- load_context ctx ;;
  (if negb (input_stream is_ =? NULL) then LOGW warning else ret tt) ;;
  free ctx.

(** [void inputStreamClose(void * ctx)]. *)
Definition inputStreamClose (ctx : Z) : M unit :=
  LOGI "JNI: inputStreamClose called for context %p" ;;
  if ctx =? NULL then
    LOGW "JNI: inputStreamClose called with NULL context"
  else
    gvm <- gets g_vm ;;
    if gvm =? NULL then
      LOGE "JNI: inputStreamClose - g_vm is NULL. Cannot get JNIEnv." ;;
      inputStreamClose_leak ctx
        "JNI: inputStreamClose - Leaking GlobalRef for input_stream %p because g_vm is NULL."
    else
      got <- GetEnv gvm ;;
      let getEnvStat := fst got in
      let env := snd got in
      if getEnvStat =? JNI_EDETACHED then
        LOGI "JNI: inputStreamClose - Thread not attached, attempting to attach." ;;
        att <- AttachCurrentThread gvm ;;
        if negb (fst att =? 0) then
          LOGE "JNI: inputStreamClose - Failed to attach current thread to JVM." ;;
          inputStreamClose_leak ctx
            "JNI: inputStreamClose - Leaking GlobalRef for input_stream %p due to attach failure."
        else inputStreamClose_release ctx (snd att) true
      else if getEnvStat =? JNI_EVERSION then
        LOGE "JNI: inputStreamClose - GetEnv: JNI version not supported." ;;
        inputStreamClose_leak ctx
          "JNI: inputStreamClose - Leaking GlobalRef for input_stream %p due to JNI version error."
      else if getEnvStat =? JNI_OK then
        LOGI "JNI: inputStreamClose - Successfully got JNIEnv for current thread." ;;
        inputStreamClose_release ctx env false
      else inputStreamClose_release ctx env false.

(** ** Library load and unload *)

(** [FindClass]: a local reference to the class, or [NULL] with an
    exception pending. *)
Definition FindClass (e : Z) (name : string) : M Z :=
  through_env e (fun w =>
    if class_missing host name w then
      Ok NULL (emit (EFindClass name NULL) (set_pending true w))
    else
      let r := fresh_ref w in
      Ok r (emit (EFindClass name r) (set_next_ref (Pos.succ (next_ref w)) w))).

(** [GetMethodID] on the [InputStream] class: the handle of the method
    with that name and signature, or no handle with an exception
    pending. *)
Definition GetMethodID (e : Z) (cls : Z) (name sig : string) : M jmethodID :=
  through_env e (fun w =>
    let missing :=
      Ok MID_NULL (emit (EGetMethodID name sig) (set_pending true w)) in
    let found (m : jmethodID) := Ok m (emit (EGetMethodID name sig) w) in
    if cls =? NULL then Crash BadJNICall w
    else if method_missing host name sig w then missing
    else if String.eqb name "available" && String.eqb sig "()I"
         then found MID_InputStream_available
    else if String.eqb name "read" && String.eqb sig "([BII)I"
         then found MID_InputStream_read
    else missing).

(** [JNI_OnLoad]. *)
Definition JNI_OnLoad (vm_ptr : Z) : M Z :=
  LOGI "JNI_OnLoad called" ;;
  modify (set_g_vm vm_ptr) ;;
  got <- GetEnv vm_ptr ;;
  let env := snd got in
  if negb (fst got =? JNI_OK) then
    LOGW "JNI_OnLoad: Failed to get JNIEnv" ;;
    ret JNI_ERR
  else
    localInputStreamClassRef <- FindClass env "java/io/InputStream" ;;
    if localInputStreamClassRef =? NULL then
      LOGW "JNI_OnLoad: Failed to find java/io/InputStream class." ;;
      ret JNI_ERR
    else
      cls <- NewGlobalRef env localInputStreamClassRef ;;
      modify (set_g_inputStreamClass cls) ;;
      DeleteLocalRef env localInputStreamClassRef ;;
      cls1 <- gets g_inputStreamClass ;;
      if cls1 =? NULL then
        LOGW "JNI_OnLoad: Failed to create global ref for InputStream class." ;;
        ret JNI_ERR
      else
        mid_a <- GetMethodID env cls1 "available" "()I" ;;
        modify (set_g_midInputStreamAvailable mid_a) ;;
        if is_null_mid mid_a then
          LOGW "JNI_OnLoad: Failed to get method ID for InputStream.available()" ;;
          DeleteGlobalRef env cls1 ;;
          modify (set_g_inputStreamClass NULL) ;;
          ret JNI_ERR
        else
          mid_r <- GetMethodID env cls1 "read" "([BII)I" ;;
          modify (set_g_midInputStreamRead mid_r) ;;
          if is_null_mid mid_r then
            LOGW "JNI_OnLoad: Failed to get method ID for InputStream.read([BII)I" ;;
            DeleteGlobalRef env cls1 ;;
            modify (set_g_inputStreamClass NULL) ;;
            modify (set_g_midInputStreamAvailable MID_NULL) ;;
            ret JNI_ERR
          else
            LOGI "JNI_OnLoad: InputStream class and method IDs cached successfully." ;;
            ret JNI_VERSION_1_6.

(** [JNI_OnUnload]. *)
Definition JNI_OnUnload : M unit :=
  LOGI "JNI_OnUnload called" ;;
  gvm <- gets g_vm ;;
  got <- GetEnv gvm ;;
  let env := snd got in
  if negb (fst got =? JNI_OK) then
    LOGW "JNI_OnUnload: Failed to get JNIEnv"
  else
    cls <- gets g_inputStreamClass ;;
    (if negb (cls =? NULL) then
       DeleteGlobalRef env cls ;;
       modify (set_g_inputStreamClass NULL)
     else ret tt) ;;
    modify (set_g_midInputStreamAvailable MID_NULL) ;;
    modify (set_g_midInputStreamRead MID_NULL) ;;
    modify (set_g_vm NULL) ;;
    LOGI "JNI_OnUnload: Global resources released.".

(** ** The stream-backed initializer *)

(** Lines 308 to 313: the diagnostic call of [loader.eof] before the
    engine starts, guarded by a test of the function pointer. *)
Definition loader_eof_probe (loader : whisper_model_loader) : M unit :=
  match eof loader with
  | Some f =>
      LOGI "JNI: Calling loader.eof() before whisper_init_with_params for instance %p." ;;
      _ <- f (context loader) ;;
      ret tt
  | None =>
      LOGW "JNI WARNING: loader.eof function pointer was NULL. Cannot call eof. Instance %p"
  end.

(** The engine's initializer, entered with the loader; the call is
    recorded before control leaves the file. *)
Definition call_whisper_init_with_params (loader : whisper_model_loader) : M Z :=
  modify (emit (Ewhisper_init_with_params (context loader))) ;;
  whisper_init_with_params host loader.

(** Lines 265 to 313 of the stream-backed initializer: everything up to
    and including the probe.  [None] stands for the three early returns
    of the null handle.  A block fresh from [malloc] is modelled as
    zeroes. *)
Definition initContextFromInputStream_loader
    (env : Z) (input_stream_param : Z) : M (option whisper_model_loader) :=
  cls <- gets g_inputStreamClass ;;
  mid_a <- gets g_midInputStreamAvailable ;;
  mid_r <- gets g_midInputStreamRead ;;
  if (cls =? NULL) || is_null_mid mid_a || is_null_mid mid_r then
    LOGW "JNI Error: Global InputStream class/method IDs not initialized in initContextFromInputStream. This usually means JNI_OnLoad() failed or was not called correctly." ;;
    ret None
  else
    inp_ctx_ptr <- malloc (Bcontext zero_context) ;;
    if inp_ctx_ptr =? NULL then
      LOGW "Failed to allocate memory for input_stream_context" ;;
      ret None
    else
      store_context inp_ctx_ptr zero_context ;;
      c0 <- load_context inp_ctx_ptr ;;
      store_context inp_ctx_ptr (set_offset 0 c0) ;;
      c1 <- load_context inp_ctx_ptr ;;
      store_context inp_ctx_ptr (set_env env c1) ;;
      gref <- NewGlobalRef env input_stream_param ;;
      c2 <- load_context inp_ctx_ptr ;;
      store_context inp_ctx_ptr (set_input_stream gref c2) ;;
      c3 <- load_context inp_ctx_ptr ;;
      if input_stream c3 =? NULL then
        LOGW "Failed to create global ref for input_stream_param" ;;
        free inp_ctx_ptr ;;
        ret None
      else
        c4 <- load_context inp_ctx_ptr ;;
        store_context inp_ctx_ptr (set_mid_available mid_a c4) ;;
        c5 <- load_context inp_ctx_ptr ;;
        store_context inp_ctx_ptr (set_mid_read mid_r c5) ;;
        LOGI "JNI: Assigned cached method IDs to input_stream_context for instance %p." ;;
        let loader :=
          mk_whisper_model_loader inp_ctx_ptr
            (Some inputStreamRead) (Some inputStreamEof) (Some inputStreamClose) in
        loader_eof_probe loader ;;
        ret (Some loader).

(** [Java_com_whispercpp_whisper_WhisperLib_initContextFromInputStream]:
    the part above, then lines 315 to 333. *)
Definition Java_com_whispercpp_whisper_WhisperLib_initContextFromInputStream
    (env : Z) (input_stream_param : Z) : M Z :=
  prepared <- initContextFromInputStream_loader env input_stream_param ;;
  match prepared with
  | None => ret NULL
  | Some loader =>
      context <- call_whisper_init_with_params loader ;;
      LOGI "JNI: [REGULAR MODE] whisper_init_with_params returned context: %p." ;;
      if context =? NULL then
        LOGW "JNI: [REGULAR MODE] whisper_init_with_params failed for input stream using loader context %p." ;;
        LOGW "JNI: [REGULAR MODE] Assuming loader.close handled cleanup for inp_ctx_ptr %p if init failed." ;;
        ret NULL
      else ret context
  end.

(** ** The asset-backed initializer *)

(** [AAssetManager_open] in streaming mode: a handle on the remaining
    bytes of the asset, or [NULL]. *)
Definition AAssetManager_open (path : string) : M Z :=
  fun w =>
    match asset_open host path w with
    | None => Ok NULL (emit (EAssetOpen path NULL) w)
    | Some data =>
        let a := fresh_ref w in
        Ok a (emit (EAssetOpen path a)
                (set_next_ref (Pos.succ (next_ref w))
                   (set_assets (<[a := data]> (assets w)) w)))
    end.

Definition AAsset_read (asset : Z) (count : Z) : M (Z * list byte) :=
  fun w =>
    match assets w !! asset with
    | Some rest =>
        let n := Z.min count (Z.of_nat (length rest)) in
        Ok (n, take (Z.to_nat n) rest)
           (set_assets (<[asset := drop (Z.to_nat n) rest]> (assets w)) w)
    | None => Crash UseAfterFree w
    end.

Definition AAsset_getRemainingLength64 (asset : Z) : M Z :=
  fun w =>
    match assets w !! asset with
    | Some rest => Ok (Z.of_nat (length rest)) w
    | None => Crash UseAfterFree w
    end.

Definition AAsset_close (asset : Z) : M unit :=
  fun w =>
    match assets w !! asset with
    | Some _ => Ok tt (set_assets (delete asset (assets w)) w)
    | None => Crash UseAfterFree w
    end.

Definition asset_read (ctx : Z) (read_size : Z) : M (Z * list byte) :=
  r <- AAsset_read ctx read_size ;;
  ret (wrap_size (fst r), snd r).

Definition asset_is_eof (ctx : Z) : M bool :=
  r <- AAsset_getRemainingLength64 ctx ;;
  ret (r <=? 0).

Definition asset_close (ctx : Z) : M unit := AAsset_close ctx.

(** [whisper_init_from_asset].  [AAssetManager_fromJava] only converts
    the Java object into the native manager and is left out. *)
Definition whisper_init_from_asset (env : Z) (assetManager : Z) (asset_path : string) : M Z :=
  LOGI "Loading model from asset '%s'\n" ;;
  asset <- AAssetManager_open asset_path ;;
  if asset =? NULL then
    LOGW "Failed to open '%s'\n" ;;
    ret NULL
  else
    let loader :=
      mk_whisper_model_loader asset
        (Some asset_read) (Some asset_is_eof) (Some asset_close) in
    call_whisper_init_with_params loader.

(** ** Transcription *)

(** [GetFloatArrayElements]: a native buffer holding the samples, or
    [NULL]. *)
Definition GetFloatArrayElements (e : Z) (arr : Z) : M Z :=
  through_env e (fun w =>
    match float_arrays w !! arr with
    | Some samples =>
        if float_elements_fail host w then
          Ok NULL (emit (EGetFloatArrayElements arr NULL) w)
        else
          let p := fresh_block w in
          Ok p (emit (EGetFloatArrayElements arr p)
                  (set_next_block (Pos.succ (next_block w))
                     (set_borrowed (<[p := (arr, samples)]> (borrowed w)) w)))
    | None => Crash BadJNICall w
    end).

Definition GetArrayLength (e : Z) (arr : Z) : M Z :=
  through_env e (fun w =>
    match float_arrays w !! arr with
    | Some samples => Ok (Z.of_nat (length samples)) w
    | None => Crash BadJNICall w
    end).

(** [ReleaseFloatArrayElements]: mode 0 copies the buffer back and
    frees it, [JNI_COMMIT] copies back and keeps it, [JNI_ABORT] frees it
    and leaves the Java array as it was. *)
Definition ReleaseFloatArrayElements (e : Z) (arr : Z) (elems : Z) (mode : Z) : M unit :=
  through_env e (fun w =>
    match borrowed w !! elems with
    | Some (_, buffer) =>
        let w1 :=
          if (mode =? 0) || (mode =? JNI_COMMIT)
          then set_float_arrays (<[arr := buffer]> (float_arrays w)) w
          else w in
        let w2 :=
          if (mode =? 0) || (mode =? JNI_ABORT)
          then set_borrowed (delete elems (borrowed w1)) w1
          else w1 in
        Ok tt (emit (EReleaseFloatArrayElements arr elems mode) w2)
    | None => Crash BadJNICall w
    end).

Definition whisper_reset_timings (context : Z) : M unit :=
  modify (emit (Ewhisper_reset_timings context)).

Definition call_whisper_full (context : Z) (params : whisper_full_params)
    (samples : Z) (n_samples : Z) : M Z :=
  fun w => Ok (to_jint (whisper_full host w))
              (emit (Ewhisper_full context params samples n_samples) w).

(** [whisper_get_timings]: a block that the caller owns, or [NULL]. *)
Definition whisper_get_timings (context : Z) : M Z :=
  fun w =>
    if whisper_get_timings_fails host w then
      Ok NULL (emit (Ewhisper_get_timings context NULL) w)
    else
      let p := fresh_block w in
      Ok p (emit (Ewhisper_get_timings context p)
              (set_next_block (Pos.succ (next_block w))
                 (set_heap (<[p := Btimings]> (heap w)) w))).

Definition whisper_full_default_params (s : whisper_sampling_strategy) : whisper_full_params :=
  mk_whisper_full_params s false true true false false "en" 4 0 true false.

Definition log_timings : M unit :=
  LOGI "  Sample ms: %.2f" ;;
  LOGI "  Encode ms: %.2f" ;;
  LOGI "  Decode ms: %.2f" ;;
  LOGI "  BatchD ms: %.2f" ;;
  LOGI "  Prompt ms: %.2f".

(** [Java_com_whispercpp_whisper_WhisperLib_fullTranscribe].  The two
    [clock_gettime] calls only feed the log text and are left out. *)
Definition Java_com_whispercpp_whisper_WhisperLib_fullTranscribe
    (env : Z) (context_ptr : Z) (num_threads : Z) (audio_data : Z) : M unit :=
  let context := context_ptr in
  audio_data_arr <- GetFloatArrayElements env audio_data ;;
  audio_data_length <- GetArrayLength env audio_data ;;
  let d := whisper_full_default_params WHISPER_SAMPLING_GREEDY in
  let params :=
    mk_whisper_full_params (strategy d) false false true false false "en"
      num_threads 0 true false in
  LOGI "WhisperJNI: fullTranscribe called with: n_threads=%d, audio_length=%d, print_realtime=%d" ;;
  if context =? NULL then
    LOGE "WhisperJNI: whisper_context is NULL. Aborting fullTranscribe." ;;
    if negb (audio_data_arr =? NULL) then
      ReleaseFloatArrayElements env audio_data audio_data_arr JNI_ABORT
    else ret tt
  else if audio_data_arr =? NULL then
    LOGE "WhisperJNI: GetFloatArrayElements failed to get audio data. Aborting."
  else
    whisper_reset_timings context ;;
    LOGI "WhisperJNI: Preparing to call whisper_full C function. Context: %p" ;;
    result <- call_whisper_full context params audio_data_arr audio_data_length ;;
    LOGI "WhisperJNI: whisper_full C function returned: %d. Time taken: %.3f seconds." ;;
    (if result =? 0 then
       LOGI "WhisperJNI: whisper_full C function successfully returned: %d. Time taken: %.3f seconds." ;;
       timings <- whisper_get_timings context ;;
       if negb (timings =? NULL) then
         LOGI "WhisperJNI Detailed Timings:" ;;
         log_timings ;;
         free timings
       else
         LOGW "WhisperJNI: Failed to get detailed timings from whisper_get_timings."
     else
       LOGE "WhisperJNI: whisper_full C function FAILED with code: %d. Time taken: %.3f seconds." ;;
       timings <- whisper_get_timings context ;;
       if negb (timings =? NULL) then
         LOGI "WhisperJNI Detailed Timings (on failure):" ;;
         log_timings ;;
         free timings
       else ret tt) ;;
    ReleaseFloatArrayElements env audio_data audio_data_arr JNI_ABORT.

(** ** Well-formed contexts *)

(** [ctx] points to a context struct that has not been released. *)
Definition live_context_at (w : World) (ctx : Z) (c : input_stream_context) : Prop :=
  ctx <> NULL /\ heap w !! ctx = Some (Bcontext c).

(** The context carries an [env] and the two method handles, as every
    context that the stream-backed initializer hands to the engine
    does. *)
Definition bound_context (c : input_stream_context) : Prop :=
  env c <> NULL
  /\ mid_available c = MID_InputStream_available
  /\ mid_read c = MID_InputStream_read.

(** The [jint] that the stream's [read(b, off, len)] returns in state
    [s] for an array of [blen] elements. *)
Definition java_read_result (s : JStream) (blen off len : Z) : Z :=
  to_jint (retval (fst (fst (stream_read host s blen off len)))).

Definition java_read_threw (s : JStream) (blen off len : Z) : bool :=
  threw (fst (fst (stream_read host s blen off len))).

(** The [jint] that the stream's [available()] returns in state [s]. *)
Definition java_available_result (s : JStream) : Z :=
  to_jint (retval (fst (stream_available host s))).

(** Whether [inputStreamClose], entered in world [w], has to attach the
    current thread, and whether it reaches the release of the foreign
    reference held by [c]. *)
Definition close_attaches (w : World) : bool :=
  negb (g_vm w =? NULL) && is_unbound (vm w).

Definition close_releases (w : World) (c : input_stream_context) : bool :=
  negb (g_vm w =? NULL)
  && match vm_binding (vm w) with
     | Bound => true
     | Unbound => vm_can_attach (vm w)
     | UnsupportedVersion => false
     end
  && negb (input_stream c =? NULL).


(** ** Three statements of the specification in their literal reading *)

(** "The counter grows by exactly the returned count", read over the
    integers, for one call in world [w]. *)
Definition read_advances_offset_exactly (w : World) (ctx read_size : Z) : Prop :=
  forall c n out w',
    live_context_at w ctx c ->
    inputStreamRead ctx read_size w = Ok (n, out) w' ->
    exists c', heap w' !! ctx = Some (Bcontext c') /\ offset c' = offset c + n.

(** "Calling close twice is harmless": after a first call that
    returned, a second call on the same pointer returns as well. *)
Definition close_twice_is_safe (w : World) (ctx : Z) : Prop :=
  forall w1,
    inputStreamClose ctx w = Ok tt w1 ->
    exists w2, inputStreamClose ctx w1 = Ok tt w2.

(** "If the binding of the current thread is absent it attaches one":
    a call on a live context in world [w], entered on a thread that the
    VM does not know, asks the VM to attach the thread. *)
Definition close_attaches_unbound_thread (w : World) (ctx : Z) : Prop :=
  forall c w' evs,
    live_context_at w ctx c ->
    vm_binding (vm w) = Unbound ->
    inputStreamClose ctx w = Ok tt w' ->
    trace w' = (trace w ++ evs)%list ->
    (1 <= count_events is_attach evs)%nat.


End Bridge.

Arguments heap {JStream} w.
Arguments next_block {JStream} w.
Arguments arrays {JStream} w.
Arguments float_arrays {JStream} w.
Arguments borrowed {JStream} w.
Arguments next_ref {JStream} w.
Arguments globals {JStream} w.
Arguments pending {JStream} w.
Arguments stream {JStream} w.
Arguments vm {JStream} w.
Arguments assets {JStream} w.
Arguments g_vm {JStream} w.
Arguments g_inputStreamClass {JStream} w.
Arguments g_midInputStreamAvailable {JStream} w.
Arguments g_midInputStreamRead {JStream} w.
Arguments trace {JStream} w.
Arguments set_heap {JStream} _ w.
Arguments set_next_block {JStream} _ w.
Arguments set_arrays {JStream} _ w.
Arguments set_float_arrays {JStream} _ w.
Arguments set_borrowed {JStream} _ w.
Arguments set_next_ref {JStream} _ w.
Arguments set_globals {JStream} _ w.
Arguments set_pending {JStream} _ w.
Arguments set_stream {JStream} _ w.
Arguments set_vm {JStream} _ w.
Arguments set_assets {JStream} _ w.
Arguments set_g_vm {JStream} _ w.
Arguments set_g_inputStreamClass {JStream} _ w.
Arguments set_g_midInputStreamAvailable {JStream} _ w.
Arguments set_g_midInputStreamRead {JStream} _ w.
Arguments context {JStream} w.
Arguments read {JStream} w.
Arguments eof {JStream} w.
Arguments close {JStream} w.
Arguments stream_read {JStream} h.
Arguments stream_available {JStream} h.
Arguments java_alloc_fails {JStream} h.
Arguments class_missing {JStream} h.
Arguments method_missing {JStream} h.
Arguments malloc_fails {JStream} h.
Arguments asset_open {JStream} h.
Arguments float_elements_fail {JStream} h.
Arguments whisper_init_with_params {JStream} h.
Arguments whisper_full {JStream} h.
Arguments whisper_get_timings_fails {JStream} h.
Arguments mk_World {JStream}.
Arguments mk_Host {JStream}.
Arguments mk_whisper_model_loader {JStream}.
Arguments live_context_at {JStream} w ctx c.
Arguments java_read_result {JStream} host s blen off len.
Arguments java_read_threw {JStream} host s blen off len.
Arguments java_available_result {JStream} host s.
Arguments close_attaches {JStream} w.
Arguments close_releases {JStream} w c.
Arguments free {JStream} p _.
Arguments fresh_block {JStream} w.
Arguments fresh_ref {JStream} w.
Arguments AAssetManager_open {JStream} host path _.
Arguments read_advances_offset_exactly {JStream} host w ctx read_size.
Arguments close_twice_is_safe {JStream} w ctx.
Arguments close_attaches_unbound_thread {JStream} w ctx.
Arguments Ok {JStream A} a w.
Arguments Crash {JStream A} f w.
Arguments ret {JStream A} a _.
Arguments bind {JStream A B} m k _.
Arguments emit {JStream} e w.
Arguments JNI_OnLoad {JStream} host vm_ptr _.
Arguments JNI_OnUnload {JStream} _.
Arguments inputStreamRead {JStream} host ctx read_size _.
Arguments inputStreamEof {JStream} host ctx _.
Arguments inputStreamClose {JStream} ctx _.
Arguments inputStreamClose_release {JStream} ctx env attached_here _.
Arguments inputStreamClose_leak {JStream} ctx warning _.
Arguments loader_eof_probe {JStream} loader _.
Arguments initContextFromInputStream_loader {JStream} host env input_stream_param _.
Arguments Java_com_whispercpp_whisper_WhisperLib_initContextFromInputStream
  {JStream} host env input_stream_param _.
Arguments whisper_init_from_asset {JStream} host env assetManager asset_path _.
Arguments Java_com_whispercpp_whisper_WhisperLib_fullTranscribe
  {JStream} host env context_ptr num_threads audio_data _.

(** ** The two integer helpers *)

(** [static inline int min(int a, int b)] and [max], lines 27 to 33. *)
Definition min (a b : Z) : Z := if a <? b then a else b.

Definition max (a b : Z) : Z := if a >? b then a else b.

(** ** Callers of the stream adapter *)

(** The VM hands out references in increasing order: no reference in
    use lies at or above the next one. *)
Definition refs_below_next {JStream : Type} (w : World JStream) : Prop :=
  forall r, r ∈ globals w -> r < fresh_ref w.

(** The allocator hands out native addresses in increasing order: no
    block of the heap and no borrowed buffer lies at or above the next
    one. *)
Definition blocks_below_next {JStream : Type} (w : World JStream) : Prop :=
  (forall p, is_Some (heap w !! p) -> p < fresh_block w)
  /\ (forall p, is_Some (borrowed w !! p) -> p < fresh_block w).

(** A caller that pulls one chunk after the other through the [read]
    callback, as the engine does while it loads a model; the counts
    come back in the order of the requests. *)
Fixpoint read_each {JStream : Type} (host : Host JStream) (ctx : Z) (sizes : list Z)
    : M JStream (list Z) :=
  match sizes with
  | [] => ret []
  | read_size :: rest =>
      bind (inputStreamRead host ctx read_size) (fun r =>
        bind (read_each host ctx rest) (fun counts => ret (fst r :: counts)))
  end.

(** The sum of the counts that came back. *)
Definition total (counts : list Z) : Z := fold_right Z.add 0 counts.

(** ** The entry points that pass strings and handles *)

(** Calls of these entry points, in program order: the ones that leave
    [jni.c], and the one to [whisper_init_from_asset], which works on
    the buffer of its caller. *)
Inductive call : Type :=
| CGetStringUTFChars (str : Z) (chars : Z)
| CReleaseStringUTFChars (str : Z) (chars : Z)
| CNewStringUTF (utf : option string) (r : Z)
| Cwhisper_init_from_asset (assetManager : Z) (asset_path : Z)
| Cwhisper_init_from_file_with_params (path_model : option string)
| Cwhisper_free (context : Z)
| Cwhisper_full_n_segments (context : Z)
| Cwhisper_full_get_segment_text (context : Z) (index : Z)
| Cwhisper_full_get_segment_t0 (context : Z) (index : Z)
| Cwhisper_full_get_segment_t1 (context : Z) (index : Z)
| Cwhisper_print_system_info
| Cwhisper_bench_memcpy_str (n_threads : Z)
| Cwhisper_bench_ggml_mul_mat_str (n_threads : Z).

Definition is_GetStringUTFChars (c : call) : bool :=
  match c with CGetStringUTFChars _ _ => true | _ => false end.

Definition is_ReleaseStringUTFChars (c : call) : bool :=
  match c with CReleaseStringUTFChars _ _ => true | _ => false end.

Definition is_whisper_free (c : call) : bool :=
  match c with Cwhisper_free _ => true | _ => false end.

Definition is_NewStringUTF_null (c : call) : bool :=
  match c with CNewStringUTF None _ => true | _ => false end.

Section EntryPoints.

Variable JStream : Type.
Variable host : Host JStream.

(** The process as these entry points see it: the world of the stream
    adapter, the Java strings behind their references (each held by the
    run of bytes that JNI passes for it), the native buffers that
    [GetStringUTFChars] has handed out and that are not yet released,
    each with the string it belongs to, and the calls made. *)
Record Process : Type := mk_Process {
  world : World JStream;
  jstrings : gmap Z string;
  utf_chars : gmap Z (Z * string);
  next_chars : positive;
  calls : list call
}.

Definition set_world (w : World JStream) (p : Process) : Process :=
  mk_Process w (jstrings p) (utf_chars p) (next_chars p) (calls p).

Definition set_jstrings (s : gmap Z string) (p : Process) : Process :=
  mk_Process (world p) s (utf_chars p) (next_chars p) (calls p).

Definition set_utf_chars (u : gmap Z (Z * string)) (p : Process) : Process :=
  mk_Process (world p) (jstrings p) u (next_chars p) (calls p).

Definition set_next_chars (n : positive) (p : Process) : Process :=
  mk_Process (world p) (jstrings p) (utf_chars p) n (calls p).

Definition record_call (c : call) (p : Process) : Process :=
  mk_Process (world p) (jstrings p) (utf_chars p) (next_chars p) (calls p ++ [c]).

(** The same monad one level up: a process threaded through, or a
    fault. *)
Inductive result (A : Type) : Type :=
| Done (a : A) (p : Process)
| Fault (f : fault) (p : Process).

Arguments Done {A} a p.
Arguments Fault {A} f p.

Definition P (A : Type) : Type := Process -> result A.

Definition pret {A : Type} (a : A) : P A := fun p => Done a p.

Definition pbind {A B : Type} (m : P A) (k : A -> P B) : P B :=
  fun p => match m p with
           | Done a p' => k a p'
           | Fault f p' => Fault f p'
           end.

(** A computation on the world runs on the world of the process. *)
Definition lift {A : Type} (m : M JStream A) : P A :=
  fun p => match m (world p) with
           | Ok a w => Done a (set_world w p)
           | Crash f w => Fault f (set_world w p)
           end.

Local Notation "x <- m ;; k" := (pbind m (fun x => k))
  (at level 100, m at next level, k at level 200, right associativity).
Local Notation "m ;; k" := (pbind m (fun _ => k))
  (at level 100, k at level 200, right associativity).

(** What the remaining functions of [whisper.h] and the VM answer.  The
    engine has no [JNIEnv]: it acts on the world, not on the strings.
    [new_string] is the run of bytes of the Java string that the VM
    builds from a C string. *)
Record Engine : Type := mk_Engine {
  utf_chars_fail : Process -> bool;
  new_string : string -> string;
  whisper_init_from_file_with_params : option string -> M JStream Z;
  whisper_free : Z -> M JStream unit;
  whisper_full_n_segments : Z -> M JStream Z;
  whisper_full_get_segment_text : Z -> Z -> M JStream (option string);
  whisper_full_get_segment_t0 : Z -> Z -> M JStream Z;
  whisper_full_get_segment_t1 : Z -> Z -> M JStream Z;
  whisper_print_system_info : M JStream (option string);
  whisper_bench_memcpy_str : Z -> M JStream (option string);
  whisper_bench_ggml_mul_mat_str : Z -> M JStream (option string)
}.

Variable engine : Engine.

(** A call into the engine, recorded before control leaves the file. *)
Definition call_engine {A : Type} (c : call) (m : M JStream A) : P A :=
  fun p => lift m (record_call c p).

(** ** Strings through JNI *)

Definition fresh_chars (p : Process) : Z := Z.pos (next_chars p).

(** [GetStringUTFChars]: a native buffer with the bytes of the string,
    or [NULL] with an OutOfMemoryError pending. *)
Definition GetStringUTFChars (e : Z) (str : Z) : P Z :=
  fun p =>
    if e =? NULL then Fault NullPointer p
    else match jstrings p !! str with
         | Some s =>
             if utf_chars_fail engine p then
               Done NULL (record_call (CGetStringUTFChars str NULL)
                            (set_world (set_pending true (world p)) p))
             else
               let c := fresh_chars p in
               Done c (record_call (CGetStringUTFChars str c)
                         (set_next_chars (Pos.succ (next_chars p))
                            (set_utf_chars (<[c := (str, s)]> (utf_chars p)) p)))
         | None => Fault BadJNICall p
         end.

(** [ReleaseStringUTFChars]: the buffer must be one that
    [GetStringUTFChars] handed out for that string and that is still
    outstanding. *)
Definition ReleaseStringUTFChars (e : Z) (str : Z) (chars : Z) : P unit :=
  fun p =>
    if e =? NULL then Fault NullPointer p
    else match utf_chars p !! chars with
         | Some (owner, _) =>
             if owner =? str then
               Done tt (record_call (CReleaseStringUTFChars str chars)
                          (set_utf_chars (delete chars (utf_chars p)) p))
             else Fault BadJNICall p
         | None => Fault BadJNICall p
         end.

(** The C string behind a [const char *]: none behind a null pointer. *)
Definition c_string (chars : Z) : P (option string) :=
  fun p =>
    if chars =? NULL then Done None p
    else match utf_chars p !! chars with
         | Some (_, s) => Done (Some s) p
         | None => Fault UseAfterFree p
         end.

(** [NewStringUTF]: a new string behind a local reference, or [NULL]
    with an OutOfMemoryError pending.  The VM of Android answers a null
    pointer with a null reference and raises nothing. *)
Definition NewStringUTF (e : Z) (utf : option string) : P Z :=
  fun p =>
    if e =? NULL then Fault NullPointer p
    else match utf with
         | Some s =>
             if java_alloc_fails host (world p) then
               Done NULL (record_call (CNewStringUTF utf NULL)
                            (set_world (set_pending true (world p)) p))
             else
               let r := fresh_ref (world p) in
               Done r (record_call (CNewStringUTF utf r)
                         (set_world (set_next_ref (Pos.succ (next_ref (world p))) (world p))
                            (set_jstrings (<[r := new_string engine s]> (jstrings p)) p)))
         | None => Done NULL (record_call (CNewStringUTF None NULL) p)
         end.

(** ** The two initializers that take a path *)

(** The call [whisper_init_from_asset(env, assetManager, asset_path)]
    on a pointer.  The function logs its path and hands it to
    [AAssetManager_open]: the bytes behind the pointer are read while
    the function runs, so the buffer has to be outstanding then, and
    with a null path the run ends in [AAssetManager_open]. *)
Definition call_whisper_init_from_asset
    (env : Z) (assetManager : Z) (asset_path : Z) : P Z :=
  fun p =>
    (path <- c_string asset_path ;;
     match path with
     | Some path => lift (whisper_init_from_asset host env assetManager path)
     | None =>
         lift (LOGI JStream "Loading model from asset '%s'\n") ;;
         (fun p => Fault NullPointer p)
     end)
      (record_call (Cwhisper_init_from_asset assetManager asset_path) p).

(** [Java_com_whispercpp_whisper_WhisperLib_initContextFromAsset].  The
    pointer that [GetStringUTFChars] returned is passed on without a
    test, and released when the initializer has returned. *)
Definition Java_com_whispercpp_whisper_WhisperLib_initContextFromAsset
    (env : Z) (assetManager : Z) (asset_path_str : Z) : P Z :=
  asset_path_chars <- GetStringUTFChars env asset_path_str ;;
  context <- call_whisper_init_from_asset env assetManager asset_path_chars ;;
  ReleaseStringUTFChars env asset_path_str asset_path_chars ;;
  pret context.

(** [Java_com_whispercpp_whisper_WhisperLib_initContext]. *)
Definition Java_com_whispercpp_whisper_WhisperLib_initContext
    (env : Z) (model_path_str : Z) : P Z :=
  model_path_chars <- GetStringUTFChars env model_path_str ;;
  model_path <- c_string model_path_chars ;;
  context <-
    call_engine (Cwhisper_init_from_file_with_params model_path)
      (whisper_init_from_file_with_params engine model_path) ;;
  ReleaseStringUTFChars env model_path_str model_path_chars ;;
  pret context.

(** ** Release of a handle *)

(** [Java_com_whispercpp_whisper_WhisperLib_freeContext]. *)
Definition Java_com_whispercpp_whisper_WhisperLib_freeContext
    (env : Z) (context_ptr_long : Z) : P unit :=
  if context_ptr_long =? 0 then
    lift (LOGW JStream "JNI: freeContext called with NULL pointer, doing nothing.")
  else
    let context := context_ptr_long in
    lift (LOGI JStream "JNI: [REGULAR MODE] Calling whisper_free on context: %p") ;;
    call_engine (Cwhisper_free context) (whisper_free engine context) ;;
    lift (LOGI JStream "JNI: [REGULAR MODE] whisper_free completed for context: %p").

(** ** Access to the segments of a transcription *)

(** [Java_com_whispercpp_whisper_WhisperLib_getTextSegmentCount]. *)
Definition Java_com_whispercpp_whisper_WhisperLib_getTextSegmentCount
    (env : Z) (context_ptr : Z) : P Z :=
  let context := context_ptr in
  call_engine (Cwhisper_full_n_segments context) (whisper_full_n_segments engine context).

(** [Java_com_whispercpp_whisper_WhisperLib_getTextSegment]. *)
Definition Java_com_whispercpp_whisper_WhisperLib_getTextSegment
    (env : Z) (context_ptr : Z) (index : Z) : P Z :=
  let context := context_ptr in
  text <-
    call_engine (Cwhisper_full_get_segment_text context index)
      (whisper_full_get_segment_text engine context index) ;;
  string <- NewStringUTF env text ;;
  pret string.

(** [Java_com_whispercpp_whisper_WhisperLib_getTextSegmentT0]. *)
Definition Java_com_whispercpp_whisper_WhisperLib_getTextSegmentT0
    (env : Z) (context_ptr : Z) (index : Z) : P Z :=
  let context := context_ptr in
  call_engine (Cwhisper_full_get_segment_t0 context index)
    (whisper_full_get_segment_t0 engine context index).

(** [Java_com_whispercpp_whisper_WhisperLib_getTextSegmentT1]. *)
Definition Java_com_whispercpp_whisper_WhisperLib_getTextSegmentT1
    (env : Z) (context_ptr : Z) (index : Z) : P Z :=
  let context := context_ptr in
  call_engine (Cwhisper_full_get_segment_t1 context index)
    (whisper_full_get_segment_t1 engine context index).

(** ** System information and benchmarks *)

(** [Java_com_whispercpp_whisper_WhisperLib_getSystemInfo]. *)
Definition Java_com_whispercpp_whisper_WhisperLib_getSystemInfo (env : Z) : P Z :=
  lift (LOGI JStream "Java_com_whispercpp_whisper_WhisperLib_getSystemInfo CALLED") ;;
  sysinfo <- call_engine Cwhisper_print_system_info (whisper_print_system_info engine) ;;
  match sysinfo with
  | None =>
      lift (LOGE JStream "whisper_print_system_info() returned NULL") ;;
      NewStringUTF env (Some "Error: System info was NULL.")
  | Some text =>
      lift (LOGI JStream "System Info from C: %s") ;;
      string <- NewStringUTF env (Some text) ;;
      pret string
  end.

(** [Java_com_whispercpp_whisper_WhisperLib_benchMemcpy]. *)
Definition Java_com_whispercpp_whisper_WhisperLib_benchMemcpy (env : Z) (n_threads : Z) : P Z :=
  bench_ggml_memcpy <-
    call_engine (Cwhisper_bench_memcpy_str n_threads)
      (whisper_bench_memcpy_str engine n_threads) ;;
  string <- NewStringUTF env bench_ggml_memcpy ;;
  pret string.

(** [Java_com_whispercpp_whisper_WhisperLib_benchGgmlMulMat]. *)
Definition Java_com_whispercpp_whisper_WhisperLib_benchGgmlMulMat (env : Z) (n_threads : Z) : P Z :=
  bench_ggml_mul_mat <-
    call_engine (Cwhisper_bench_ggml_mul_mat_str n_threads)
      (whisper_bench_ggml_mul_mat_str engine n_threads) ;;
  string <- NewStringUTF env bench_ggml_mul_mat ;;
  pret string.

End EntryPoints.

Arguments world {JStream} p.
Arguments jstrings {JStream} p.
Arguments utf_chars {JStream} p.
Arguments next_chars {JStream} p.
Arguments calls {JStream} p.
Arguments mk_Process {JStream}.
Arguments mk_Engine {JStream}.
Arguments set_world {JStream} w p.
Arguments set_jstrings {JStream} s p.
Arguments set_utf_chars {JStream} u p.
Arguments record_call {JStream} c p.
Arguments fresh_chars {JStream} p.
Arguments Done {JStream A} a p.
Arguments Fault {JStream A} f p.
Arguments utf_chars_fail {JStream} e.
Arguments new_string {JStream} e.
Arguments whisper_init_from_file_with_params {JStream} e.
Arguments whisper_free {JStream} e.
Arguments whisper_full_n_segments {JStream} e.
Arguments whisper_full_get_segment_text {JStream} e.
Arguments whisper_full_get_segment_t0 {JStream} e.
Arguments whisper_full_get_segment_t1 {JStream} e.
Arguments whisper_print_system_info {JStream} e.
Arguments whisper_bench_memcpy_str {JStream} e.
Arguments whisper_bench_ggml_mul_mat_str {JStream} e.
Arguments call_whisper_init_from_asset
  {JStream} host env assetManager asset_path _.
Arguments Java_com_whispercpp_whisper_WhisperLib_initContextFromAsset
  {JStream} host engine env assetManager asset_path_str _.
Arguments Java_com_whispercpp_whisper_WhisperLib_initContext
  {JStream} engine env model_path_str _.
Arguments Java_com_whispercpp_whisper_WhisperLib_freeContext
  {JStream} engine env context_ptr_long _.
Arguments Java_com_whispercpp_whisper_WhisperLib_getTextSegmentCount
  {JStream} engine env context_ptr _.
Arguments Java_com_whispercpp_whisper_WhisperLib_getTextSegment
  {JStream} host engine env context_ptr index _.
Arguments Java_com_whispercpp_whisper_WhisperLib_getTextSegmentT0
  {JStream} engine env context_ptr index _.
Arguments Java_com_whispercpp_whisper_WhisperLib_getTextSegmentT1
  {JStream} engine env context_ptr index _.
Arguments Java_com_whispercpp_whisper_WhisperLib_getSystemInfo
  {JStream} host engine env _.
Arguments Java_com_whispercpp_whisper_WhisperLib_benchMemcpy
  {JStream} host engine env n_threads _.
Arguments Java_com_whispercpp_whisper_WhisperLib_benchGgmlMulMat
  {JStream} host engine env n_threads _.


(** ** Concrete hosts, to run the embedding *)

Module Demo.

(** A Java stream over an in-memory buffer, in the manner of
    [ByteArrayInputStream]: the state is what is left to read. *)
Definition buffer_read (s : list byte) (blen off len : Z) : jcall * list byte * list byte :=
  if (off <? 0) || (len <? 0) || (blen - off <? len) then (mk_jcall 0 true, [], s)
  else if len =? 0 then (mk_jcall 0 false, [], s)
  else match s with
       | [] => (mk_jcall (-1) false, [], s)
       | _ =>
           let n := Z.min len (Z.of_nat (length s)) in
           (mk_jcall n false, take (Z.to_nat n) s, drop (Z.to_nat n) s)
       end.

Definition buffer_available (s : list byte) : jcall * list byte :=
  (mk_jcall (Z.of_nat (length s)) false, s).

(** A stream whose [read] raises an IOException. *)
Definition broken_read (s : list byte) (blen off len : Z) : jcall * list byte * list byte :=
  (mk_jcall 0 true, [], s).

(** An engine that wants a four byte header: it pulls once, and on a
    short read closes the loader and fails. *)
Definition header_engine (loader : whisper_model_loader (list byte)) : M (list byte) Z :=
  match read loader, close loader with
  | Some rd, Some cl =>
      bind (rd (context loader) 4) (fun r =>
        if fst r <? 4 then bind (cl (context loader)) (fun _ => ret NULL)
        else ret 4096)
  | _, _ => ret NULL
  end.

(** [java_oom]: the VM cannot allocate; [native_oom]: [malloc] and the
    engine's allocations fail; [engine_rc]: what [whisper_full] returns. *)
Definition mk_host (rd : list byte -> Z -> Z -> Z -> jcall * list byte * list byte)
    (java_oom native_oom : bool) (engine_rc : Z) : Host (list byte) :=
  mk_Host rd buffer_available
    (fun _ => java_oom) (fun _ _ => false) (fun _ _ _ => false) (fun _ => native_oom)
    (fun path _ => if String.eqb path "ggml-tiny.bin" then Some [x67; x67; x6d; x6c] else None)
    (fun _ => native_oom)
    header_engine
    (fun _ => engine_rc)
    (fun _ => native_oom).

Definition host : Host (list byte) := mk_host buffer_read false false 0.
Definition host_java_oom : Host (list byte) := mk_host buffer_read true false 0.
Definition host_native_oom : Host (list byte) := mk_host buffer_read false true 0.
Definition host_broken_stream : Host (list byte) := mk_host broken_read false false 0.

Definition attached_vm : JavaVM := mk_JavaVM Bound true.
Definition detached_vm : JavaVM := mk_JavaVM Unbound true.
Definition unattachable_vm : JavaVM := mk_JavaVM Unbound false.

(** A live context at address 16 that holds global reference 7, with
    [off] bytes consumed so far, in a process where [JNI_OnLoad] has
    run. *)
Definition live_context (off : Z) : input_stream_context :=
  mk_input_stream_context off thread_env 7
    MID_InputStream_available MID_InputStream_read.

Definition world (off : Z) (data : list byte) (v : JavaVM) (gvm : Z) : World (list byte) :=
  mk_World
    {[ 16 := Bcontext (live_context off) ]} 32
    ∅ {[ 9 := [100; 200; 300] ]} ∅ 10 {[ 7; 3 ]} false data v ∅
    gvm 3 MID_InputStream_available MID_InputStream_read [].

(** Worlds for the runs below. *)
Definition five_bytes : list byte := [x2a; x2b; x2c; x2d; x2e].

Definition w_reading : World (list byte) := world 0 five_bytes attached_vm 1.
Definition w_wrapping : World (list byte) := world (SIZE_MODULUS - 1) five_bytes attached_vm 1.
Definition w_detached : World (list byte) := world 0 five_bytes detached_vm 1.
Definition w_unattachable : World (list byte) := world 0 five_bytes unattachable_vm 1.
Definition w_no_vm : World (list byte) := world 0 five_bytes attached_vm NULL.
Definition w_no_vm_detached : World (list byte) := world 0 five_bytes detached_vm NULL.

(** The process before [JNI_OnLoad]: nothing allocated, no global set. *)
Definition w_boot : World (list byte) :=
  mk_World ∅ 32 ∅ {[ 9 := [100; 200; 300] ]} ∅ 10 ∅ false five_bytes attached_vm ∅
    NULL NULL MID_NULL MID_NULL [].

(** An engine that knows one model file and one segment of text. *)
Definition engine : Engine (list byte) :=
  mk_Engine (fun _ => false) (fun s => s)
    (fun path_model =>
       ret (match path_model with
            | Some path => if String.eqb path "ggml-tiny.bin" then 4096 else NULL
            | None => NULL
            end))
    (fun _ => ret tt)
    (fun _ => ret 1)
    (fun _ index => ret (if index =? 0 then Some " Hello." else None))
    (fun _ _ => ret 0)
    (fun _ _ => ret 150)
    (ret (Some "NEON = 1 | ARM_FMA = 1"))
    (fun _ => ret (Some "memcpy: 10.00 GB/s"))
    (fun _ => ret (Some "mul_mat: 50.00 GFLOPS")).

(** The same engine when it has no system information to give. *)
Definition engine_without_info : Engine (list byte) :=
  mk_Engine (fun _ => false) (fun s => s)
    (fun _ => ret NULL) (fun _ => ret tt) (fun _ => ret 0) (fun _ _ => ret None)
    (fun _ _ => ret 0) (fun _ _ => ret 0) (ret None)
    (fun _ => ret None) (fun _ => ret None).

(** A process with two path strings, behind references 20 and 21. *)
Definition process : Process (list byte) :=
  mk_Process w_reading {[ 20 := "ggml-tiny.bin"; 21 := "missing.bin" ]} ∅ 64 [].

(** The process of a thread that [GetEnv] finds unbound, before
    [JNI_OnLoad]. *)
Definition w_boot_detached : World (list byte) :=
  mk_World ∅ 32 ∅ ∅ ∅ 10 ∅ false five_bytes detached_vm ∅
    NULL NULL MID_NULL MID_NULL [].

(** A stream whose [read] reports one byte more than it was asked
    for. *)
Definition overlong_read (s : list byte) (blen off len : Z) : jcall * list byte * list byte :=
  (mk_jcall (len + 1) false, [], s).

Definition host_overlong_stream : Host (list byte) := mk_host overlong_read false false 0.

(** The world in which a run ends. *)
Definition world_after {A : Type} (m : M (list byte) A) (w : World (list byte))
    : World (list byte) :=
  match m w with
  | Ok _ w' => w'
  | Crash _ w' => w'
  end.

(** The loader that the stream-backed initializer builds in [w_reading],
    the world in which it hands the loader on, and the world in which
    the engine returns. *)
Definition prepared_loader : whisper_model_loader (list byte) :=
  mk_whisper_model_loader 32
    (Some (inputStreamRead host)) (Some (inputStreamEof host)) (Some inputStreamClose).

Definition w_prepared : World (list byte) :=
  world_after (initContextFromInputStream_loader host thread_env 5) w_reading.

Definition w_initialized : World (list byte) :=
  world_after (header_engine prepared_loader)
    (emit (Ewhisper_init_with_params 32) w_prepared).

(** The fresh process once [JNI_OnLoad] has run, on a thread that the
    VM knows and on one that it does not know. *)
Definition w_loaded : World (list byte) := world_after (JNI_OnLoad host 1) w_boot.

Definition w_load_failed : World (list byte) :=
  world_after (JNI_OnLoad host 1) w_boot_detached.

(** The world in which the asset-backed initializer returns for the one
    asset that the manager knows. *)
Definition w_asset_loaded : World (list byte) :=
  world_after (whisper_init_from_asset host thread_env 11 "ggml-tiny.bin") w_reading.

(** The world in which [getSystemInfo] asks the engine. *)
Definition w_info_asked : World (list byte) :=
  emit (Elog LOG_INFO "Java_com_whispercpp_whisper_WhisperLib_getSystemInfo CALLED") w_reading.

(** The world in which [freeContext] enters the engine. *)
Definition w_freeing : World (list byte) :=
  emit (Elog LOG_INFO "JNI: [REGULAR MODE] Calling whisper_free on context: %p") w_reading.

End Demo.

(** * Properties *)

(** ** Machine integers *)

Lemma to_jint_le (n : Z) : 0 <= n -> to_jint n <= n.
Proof.
  intros Hn. unfold to_jint.
  pose proof (Z.div_mod (n + 2 ^ 31) (2 ^ 32) ltac:(lia)) as Hd.
  assert (0 <= (n + 2 ^ 31) / 2 ^ 32) by (apply Z.div_pos; lia).
  lia.
Qed.

Lemma to_jint_range (n : Z) : - 2 ^ 31 <= to_jint n < 2 ^ 31.
Proof.
  unfold to_jint.
  pose proof (Z.mod_pos_bound (n + 2 ^ 31) (2 ^ 32) ltac:(lia)). lia.
Qed.

Lemma wrap_size_small (n : Z) : 0 <= n < SIZE_MODULUS -> wrap_size n = n.
Proof. intros H. unfold wrap_size. apply Z.mod_small. exact H. Qed.

Lemma wrap_size_range (n : Z) : 0 <= wrap_size n < SIZE_MODULUS.
Proof. unfold wrap_size. apply Z.mod_pos_bound. reflexivity. Qed.

Lemma set_offset_same (c : input_stream_context) :
  0 <= offset c < SIZE_MODULUS ->
  set_offset (wrap_size (offset c + 0)) c = c.
Proof.
  intros H. rewrite Z.add_0_r, wrap_size_small by exact H.
  destruct c; reflexivity.
Qed.

(** The array that [NewByteArray] builds for an accepted request has
    as many elements as were asked for. *)
Lemma array_length_of_request (len : Z) (b : bool) :
  (len <? 0) || b = false ->
  Z.of_nat (length (repeat x00 (Z.to_nat len))) = len.
Proof.
  intros H. apply orb_false_elim in H as [H _]. apply Z.ltb_ge in H.
  rewrite repeat_length. apply Z2Nat.id. exact H.
Qed.

(** Unfold the JNI layer down to the world it acts on. *)
Ltac jni :=
  unfold NewByteArray, CallIntMethod, ExceptionCheck, ExceptionDescribe,
    ExceptionClear, GetByteArrayRegion, DeleteLocalRef, NewGlobalRef,
    DeleteGlobalRef, GetEnv, AttachCurrentThread, DetachCurrentThread,
    through_env, through_vm, load_context, store_context,
    LOGI, LOGW, LOGE, gets, modify, ret, bind, NULL in *.

Ltac simp := cbn -[to_jint wrap_size array_store Z.of_nat Z.to_nat].

(** Closed side conditions are settled by evaluation. *)
Ltac ground := vm_compute; repeat split; try reflexivity; try discriminate.

Section StreamAdapter.

Variable JStream : Type.
Variable host : Host JStream.

(** ** [inputStreamRead] *)

(** C10. A request for zero bytes returns 0 at once: the world, and with
    it the trace of foreign calls, the Java arrays and the context, is
    exactly what it was. *)
Theorem inputStreamRead_zero_size (w : World JStream) (ctx : Z) (c : input_stream_context) :
  live_context_at w ctx c ->
  inputStreamRead host ctx 0 w = Ok (0, []) w.
Proof.
  intros [Hn Hl]. unfold inputStreamRead. jni.
  apply Z.eqb_neq in Hn. rewrite Hn, Hl. reflexivity.
Qed.

(** C1, as amended. Under the assumption that the stream's [read]
    returns at most the length it was asked for, every call on a live,
    bound context returns a count [n] between 0 and [read_size], stores
    [n] bytes, and leaves the context with its counter at
    [offset + n] reduced modulo [2 ^ 64] and every other field as it was;
    when [offset + n] fits in [size_t] the counter is exactly
    [offset + n].  No other block of the heap changes. *)
Theorem inputStreamRead_count_and_offset
    (w : World JStream) (ctx : Z) (c : input_stream_context) (read_size : Z) :
  live_context_at w ctx c -> bound_context c ->
  0 <= offset c < SIZE_MODULUS -> 0 <= read_size < SIZE_MODULUS ->
  java_read_result host (stream w) (to_jint read_size) 0 (to_jint read_size)
    <= to_jint read_size ->
  exists n out w',
    inputStreamRead host ctx read_size w = Ok (n, out) w'
    /\ 0 <= n <= read_size
    /\ Z.of_nat (length out) = n
    /\ heap w' !! ctx = Some (Bcontext (set_offset (wrap_size (offset c + n)) c))
    /\ (forall p, p <> ctx -> heap w' !! p = heap w !! p)
    /\ (offset c + n < SIZE_MODULUS ->
        heap w' !! ctx = Some (Bcontext (set_offset (offset c + n) c))).
Proof.
  intros [Hn Hl] (He & _ & Hm) Ho Hr Hle. unfold NULL in *.
  pose proof (set_offset_same c Ho) as Hsame.
  assert (Hadd0 : set_offset (offset c + 0) c = c)
    by (rewrite Z.add_0_r; destruct c; reflexivity).
  apply Z.eqb_neq in Hn as Hn'. apply Z.eqb_neq in He as He'.
  unfold inputStreamRead. jni. rewrite Hn', Hl.
  destruct (read_size =? 0) eqn:Hz.
  { exists 0, [], w. rewrite Hsame, Hadd0. repeat split; try lia; auto. }
  rewrite He'.
  destruct ((to_jint read_size <? 0) || java_alloc_fails host w) eqn:Ea.
  { simp. do 3 eexists. split; [reflexivity|]. simp. rewrite Hsame, Hadd0.
    repeat split; try lia; auto. }
  simp. rewrite Hm. simp. rewrite lookup_insert_eq.
  rewrite (array_length_of_request _ _ Ea).
  unfold java_read_result in Hle.
  destruct (stream_read host (stream w) _ 0 (to_jint read_size)) as [[rc data] s'] eqn:Es.
  simpl in Hle. simp.
  destruct (pending w || threw rc) eqn:Ep.
  { simp. do 3 eexists. split; [reflexivity|]. simp. rewrite Hsame, Hadd0.
    repeat split; try lia; auto. }
  assert (Hjr : to_jint read_size <= read_size) by (apply to_jint_le; lia).
  match goal with
  | |- exists n out w', match ?inner with _ => _ end = _ /\ _ =>
      assert (Hin : exists n out w0, inner = Ok (n, out) w0 /\ heap w0 = heap w
                    /\ 0 <= n <= read_size /\ Z.of_nat (length out) = n)
  end.
  { destruct (to_jint (retval rc) >? 0) eqn:Eg.
    - apply Z.gtb_lt in Eg. simp. rewrite lookup_insert_eq.
      destruct ((0 <=? to_jint (retval rc)) && _) eqn:Eb; simp.
      + do 3 eexists. split; [reflexivity|]. simp.
        apply andb_prop in Eb as [_ Eb]. apply Z.leb_le in Eb.
        repeat split; try lia.
        rewrite length_take, length_drop. simpl. lia.
      + do 3 eexists. split; [reflexivity|]. simp. repeat split; lia.
    - destruct (to_jint (retval rc) =? -1); simp;
        (do 3 eexists; split; [reflexivity|]; simp; repeat split; lia). }
  destruct Hin as (n & out & w0 & -> & Hh & Hb & Hlen).
  simp. rewrite Hh, Hl. simp. rewrite ?Hh, ?Hl.
  do 3 eexists. split; [reflexivity|]. simp.
  split; [exact Hb|]. split; [exact Hlen|].
  split; [apply lookup_insert_eq|].
  split.
  - intros p Hp. apply lookup_insert_ne. congruence.
  - intros Hlt. rewrite <- (wrap_size_small (offset c + n)) at 2 by lia.
    apply lookup_insert_eq.
Qed.

(** When the stream's [read] raises, the adapter returns 0, stores
    nothing, leaves the counter alone and returns with no exception
    pending: the fault was described and cleared. *)
Lemma inputStreamRead_fault_cleared
    (w : World JStream) (ctx : Z) (c : input_stream_context) (read_size : Z) :
  live_context_at w ctx c -> bound_context c ->
  read_size <> 0 ->
  (to_jint read_size <? 0) || java_alloc_fails host w = false ->
  java_read_threw host (stream w) (to_jint read_size) 0 (to_jint read_size) = true ->
  exists w',
    inputStreamRead host ctx read_size w = Ok (0, []) w'
    /\ pending w' = false
    /\ heap w' = heap w
    /\ count_events (fun e => match e with EExceptionClear => true | _ => false end)
         (drop (length (trace w)) (trace w')) = 1%nat.
Proof.
  intros [Hn Hl] (He & _ & Hm) Hz Ea Hthrew. unfold NULL in *.
  apply Z.eqb_neq in Hn as Hn'. apply Z.eqb_neq in He as He'.
  apply Z.eqb_neq in Hz as Hz'.
  unfold inputStreamRead. jni. rewrite Hn', Hl, Hz', He', Ea.
  simp. rewrite Hm. simp. rewrite lookup_insert_eq.
  rewrite (array_length_of_request _ _ Ea).
  unfold java_read_threw in Hthrew.
  destruct (stream_read host (stream w) _ 0 (to_jint read_size)) as [[rc data] s'] eqn:Es.
  simpl in Hthrew. simp. rewrite Hthrew, orb_true_r. simp.
  eexists. split; [reflexivity|]. simp.
  repeat split.
  rewrite <- !app_assoc, drop_app_length. reflexivity.
Qed.

(** When the stream's [read] returns the end-of-stream value -1 and
    raises nothing, the adapter returns 0 and the counter stays. *)
Lemma inputStreamRead_end_of_stream
    (w : World JStream) (ctx : Z) (c : input_stream_context) (read_size : Z) :
  live_context_at w ctx c -> bound_context c ->
  0 <= offset c < SIZE_MODULUS ->
  read_size <> 0 ->
  (to_jint read_size <? 0) || java_alloc_fails host w = false ->
  pending w = false ->
  java_read_threw host (stream w) (to_jint read_size) 0 (to_jint read_size) = false ->
  java_read_result host (stream w) (to_jint read_size) 0 (to_jint read_size) = -1 ->
  exists w',
    inputStreamRead host ctx read_size w = Ok (0, []) w'
    /\ pending w' = false
    /\ heap w' = heap w.
Proof.
  intros [Hn Hl] (He & _ & Hm) Ho Hz Ea Hp Hthrew Hres. unfold NULL in *.
  apply Z.eqb_neq in Hn as Hn'. apply Z.eqb_neq in He as He'.
  apply Z.eqb_neq in Hz as Hz'.
  unfold inputStreamRead. jni. rewrite Hn', Hl, Hz', He', Ea.
  simp. rewrite Hm. simp. rewrite lookup_insert_eq.
  rewrite (array_length_of_request _ _ Ea).
  unfold java_read_threw in Hthrew. unfold java_read_result in Hres.
  destruct (stream_read host (stream w) _ 0 (to_jint read_size)) as [[rc data] s'] eqn:Es.
  simpl in Hthrew, Hres. simp. rewrite Hthrew, Hp, Hres. simp. rewrite Hl. simp. rewrite Hl.
  eexists. split; [reflexivity|]. simp.
  repeat split.
  rewrite set_offset_same by exact Ho. apply insert_id. exact Hl.
Qed.

(** When the transient array cannot be allocated, the adapter returns 0
    after a warning and nothing else: the exception that the failed
    [NewByteArray] raised is still pending when control returns. *)
Lemma inputStreamRead_alloc_failure
    (w : World JStream) (ctx : Z) (c : input_stream_context) (read_size : Z) :
  live_context_at w ctx c -> bound_context c ->
  read_size <> 0 ->
  (to_jint read_size <? 0) || java_alloc_fails host w = true ->
  exists w',
    inputStreamRead host ctx read_size w = Ok (0, []) w'
    /\ pending w' = true
    /\ heap w' = heap w
    /\ trace w' = (trace w ++
         [ENewByteArray (to_jint read_size) NULL;
          Elog LOG_WARN "inputStreamRead: Failed to allocate NewByteArray for reading"])%list.
Proof.
  intros [Hn Hl] (He & _ & Hm) Hz Ea. unfold NULL in *.
  apply Z.eqb_neq in Hn as Hn'. apply Z.eqb_neq in He as He'.
  apply Z.eqb_neq in Hz as Hz'.
  unfold inputStreamRead. jni. rewrite Hn', Hl, Hz', He', Ea.
  simp. eexists. split; [reflexivity|]. simp.
  rewrite <- app_assoc. repeat split.
Qed.

(** ** [inputStreamEof] *)

(** C5. On a live, bound context [inputStreamEof] answers true exactly
    when the value that the stream's [available()] hands back is at most
    0.  The call changes nothing in the native heap, so the context and
    its counter are as before; the only foreign call is that one
    [available()], so the stream is in the state in which [available()]
    left it, and any position that [available()] preserves is
    preserved. *)
Theorem inputStreamEof_iff_nothing_available
    (w : World JStream) (ctx : Z) (c : input_stream_context) :
  live_context_at w ctx c -> bound_context c ->
  exists b w',
    inputStreamEof host ctx w = Ok b w'
    /\ (b = true <-> java_available_result host (stream w) <= 0)
    /\ heap w' = heap w
    /\ heap w' !! ctx = Some (Bcontext c)
    /\ arrays w' = arrays w
    /\ trace w' = (trace w ++ [ECallAvailable (input_stream c)])%list
    /\ stream w' = snd (stream_available host (stream w))
    /\ (forall (X : Type) (position : JStream -> X),
          position (snd (stream_available host (stream w))) = position (stream w) ->
          position (stream w') = position (stream w)).
Proof.
  intros [Hn Hl] (He & Ha & _). unfold NULL in *.
  apply Z.eqb_neq in Hn as Hn'. apply Z.eqb_neq in He as He'.
  unfold inputStreamEof, java_available_result. jni. rewrite Hn', Hl, He', Ha.
  destruct (stream_available host (stream w)) as [rc s'] eqn:Es.
  simp. do 2 eexists. split; [reflexivity|]. simp.
  split; [apply Z.leb_le|].
  repeat split; try assumption. intros X position Hpos. exact Hpos.
Qed.

(** ** [inputStreamClose] *)

(** One call on a live context, in every state of the VM binding: it
    returns, the struct is gone from the heap, and the trace it adds
    holds exactly one [free], one attach attempt when the thread was
    unbound, one detach when that attach succeeded, and one release of
    the foreign reference when a usable [env] was obtained and the
    context held a reference. *)
Lemma inputStreamClose_live (w : World JStream) (ctx : Z) (c : input_stream_context) :
  live_context_at w ctx c ->
  exists w' evs,
    inputStreamClose ctx w = Ok tt w'
    /\ trace w' = (trace w ++ evs)%list
    /\ heap w' = delete ctx (heap w)
    /\ count_events is_free evs = 1%nat
    /\ count_events (is_free_of ctx) evs = 1%nat
    /\ count_events is_attach evs = (if close_attaches w then 1 else 0)%nat
    /\ count_events is_attach_ok evs
       = (if close_attaches w && vm_can_attach (vm w) then 1 else 0)%nat
    /\ count_events is_detach evs
       = (if close_attaches w && vm_can_attach (vm w) then 1 else 0)%nat
    /\ (count_events is_detach evs = 1%nat -> last evs = Some EDetachCurrentThread)
    /\ count_events is_DeleteGlobalRef evs = (if close_releases w c then 1 else 0)%nat
    /\ globals w' = (if close_releases w c then globals w ∖ {[input_stream c]} else globals w)
    /\ vm w' = vm w
    /\ g_vm w' = g_vm w.
Proof.
  intros [Hn Hl]. unfold NULL in *. apply Z.eqb_neq in Hn as Hn'.
  unfold inputStreamClose, inputStreamClose_leak, inputStreamClose_release,
    close_attaches, close_releases, free.
  jni. simp. rewrite Hn'. simp.
  destruct (g_vm w =? 0) eqn:Eg; simp.
  - rewrite Hl. destruct (input_stream c =? 0) eqn:Ei; simp; rewrite ?Hn', ?Hl;
      (do 2 eexists; split; [reflexivity|]; simp; rewrite <- ?app_assoc;
       split; [reflexivity|]; simp; rewrite Z.eqb_refl; repeat split; discriminate).
  - unfold is_unbound. destruct (vm w) as [b can] eqn:Ev.
    destruct b, can, (input_stream c =? 0) eqn:Ei;
      repeat (progress (simp; rewrite ?Eg, ?Ev, ?Hl, ?Ei, ?Hn', ?lookup_insert_eq));
      do 2 eexists; (split; [reflexivity|]); simp; rewrite <- ?app_assoc;
      (split; [reflexivity|]); simp; rewrite ?Z.eqb_refl, ?delete_insert_eq; simp;
      repeat split; try discriminate; try reflexivity; try exact Ev.
Qed.

(** A call on a pointer whose block has been released reads freed
    memory, whatever the state of the VM binding. *)
Lemma inputStreamClose_dangling (w : World JStream) (ctx : Z) :
  ctx <> NULL -> heap w !! ctx = None ->
  exists w', inputStreamClose ctx w = Crash UseAfterFree w'.
Proof.
  intros Hn Hl. unfold NULL in *. apply Z.eqb_neq in Hn as Hn'.
  unfold inputStreamClose, inputStreamClose_leak, inputStreamClose_release, free.
  jni. simp. rewrite Hn'. simp.
  destruct (g_vm w =? 0) eqn:Eg; simp.
  - rewrite Hl. eauto.
  - destruct (vm w) as [b can] eqn:Ev.
    destruct b, can;
      repeat (progress (simp; rewrite ?Eg, ?Ev, ?Hl, ?Hn')); eauto.
Qed.

(** C3, as amended. Every call on a live context returns, and the calls
    it adds to the trace obey the binding protocol: it tries to attach
    exactly when the VM pointer is set and the thread was unbound, and
    with the VM pointer null it makes no attempt, on any thread; when
    the VM pointer is null or the attach fails it frees the struct and
    nothing else, with no release of the foreign reference and the
    global references as they were; it detaches exactly as often as it
    attached with success, as its last action; and the binding of the
    thread is afterwards what it was. *)
Theorem inputStreamClose_binding_protocol
    (w : World JStream) (ctx : Z) (c : input_stream_context) :
  live_context_at w ctx c ->
  exists w' evs,
    inputStreamClose ctx w = Ok tt w'
    /\ trace w' = (trace w ++ evs)%list
    /\ count_events is_attach evs
       = (if negb (g_vm w =? NULL)%Z && is_unbound (vm w) then 1 else 0)%nat
    /\ count_events is_attach_ok evs
       = (if negb (g_vm w =? NULL)%Z && is_unbound (vm w) && vm_can_attach (vm w)
          then 1 else 0)%nat
    /\ (g_vm w = NULL \/ (vm_binding (vm w) = Unbound /\ vm_can_attach (vm w) = false) ->
        count_events is_DeleteGlobalRef evs = 0%nat
        /\ globals w' = globals w
        /\ count_events is_free evs = 1%nat
        /\ heap w' = delete ctx (heap w))
    /\ count_events is_detach evs = count_events is_attach_ok evs
    /\ (count_events is_detach evs = 1%nat -> last evs = Some EDetachCurrentThread)
    /\ vm w' = vm w.
Proof.
  intros Hlive.
  destruct (inputStreamClose_live w ctx c Hlive)
    as (w' & evs & Hrun & Htr & Hheap & Hfree & _ & Hatt & Hok & Hdet & Hlast
        & Hdel & Hglob & Hvm' & _).
  unfold close_attaches, close_releases in *.
  exists w', evs. split; [exact Hrun|]. split; [exact Htr|].
  split; [exact Hatt|].
  split; [exact Hok|].
  split.
  { intros [Hg | [Ha Hc]].
    - rewrite Hg in *. simpl in *. auto.
    - rewrite Ha, Hc in *. rewrite !andb_false_r in *. simpl in *. auto. }
  split; [congruence|]. split; [exact Hlast|]. exact Hvm'.
Qed.

(** C4. On a null context [inputStreamClose] adds two log lines, one of
    them the warning, and changes nothing else.  On a live context with
    the VM pointer null it returns, the struct is freed, and the foreign
    reference is not released: no [DeleteGlobalRef] is made and the
    table of global references is as before. *)
Theorem inputStreamClose_null_context_or_no_vm :
  (forall w : World JStream,
      inputStreamClose NULL w
      = Ok tt (emit (Elog LOG_WARN "JNI: inputStreamClose called with NULL context")
                 (emit (Elog LOG_INFO "JNI: inputStreamClose called for context %p") w)))
  /\ (forall (w : World JStream) (ctx : Z) (c : input_stream_context),
         live_context_at w ctx c -> g_vm w = NULL ->
         exists w' evs,
           inputStreamClose ctx w = Ok tt w'
           /\ trace w' = (trace w ++ evs)%list
           /\ heap w' = delete ctx (heap w)
           /\ count_events (is_free_of ctx) evs = 1%nat
           /\ count_events is_DeleteGlobalRef evs = 0%nat
           /\ globals w' = globals w
           /\ count_events is_attach evs = 0%nat
           /\ vm w' = vm w).
Proof.
  split.
  - intros w. reflexivity.
  - intros w ctx c Hlive Hvm.
    destruct (inputStreamClose_live w ctx c Hlive)
      as (w' & evs & Hrun & Htr & Hheap & _ & Hfree & Hatt & _ & _ & _
          & Hdel & Hglob & Hvm' & _).
    unfold close_attaches, close_releases in *. rewrite Hvm in *. simpl in *.
    exists w', evs. repeat split; assumption.
Qed.

(** C7, as amended. One call on a live context frees the struct exactly
    once and releases the foreign reference at most once, and afterwards
    the struct is no longer in the heap.  The function is not
    idempotent: a second call on the same pointer reads the released
    struct, which is a memory fault. *)
Theorem inputStreamClose_frees_once_then_dangles
    (w : World JStream) (ctx : Z) (c : input_stream_context) :
  live_context_at w ctx c ->
  exists w1 evs,
    inputStreamClose ctx w = Ok tt w1
    /\ trace w1 = (trace w ++ evs)%list
    /\ count_events is_free evs = 1%nat
    /\ count_events (is_free_of ctx) evs = 1%nat
    /\ (count_events is_DeleteGlobalRef evs <= 1)%nat
    /\ heap w1 !! ctx = None
    /\ exists w2, inputStreamClose ctx w1 = Crash UseAfterFree w2.
Proof.
  intros Hlive.
  destruct (inputStreamClose_live w ctx c Hlive)
    as (w1 & evs & Hrun & Htr & Hheap & Hfree & Hfree' & _ & _ & _ & _
        & Hdel & _).
  assert (Hgone : heap w1 !! ctx = None) by (rewrite Hheap; apply lookup_delete_eq).
  exists w1, evs. repeat split; try assumption.
  - rewrite Hdel. destruct (close_releases w c); lia.
  - apply inputStreamClose_dangling; [apply Hlive | exact Hgone].
Qed.

(** ** Library load and unload *)

(** X1. [JNI_OnLoad] with a valid VM pointer always returns, with
    [g_vm] set and with [JNI_ERR] or [JNI_VERSION_1_6] as its answer;
    when it reports success the class reference is a live global
    reference and the two handles are those of [available] and
    [read]. *)
Lemma JNI_OnLoad_returns (w : World JStream) (vm_ptr : Z) :
  vm_ptr <> NULL ->
  exists rc w',
    JNI_OnLoad host vm_ptr w = Ok rc w'
    /\ g_vm w' = vm_ptr
    /\ (rc = JNI_ERR
        \/ rc = JNI_VERSION_1_6
           /\ g_inputStreamClass w' <> NULL
           /\ g_inputStreamClass w' ∈ globals w'
           /\ g_midInputStreamAvailable w' = MID_InputStream_available
           /\ g_midInputStreamRead w' = MID_InputStream_read).
Proof.
  intros Hv. unfold NULL in *. apply Z.eqb_neq in Hv as Hv'.
  unfold JNI_OnLoad, FindClass, GetMethodID. jni. unfold fresh_ref. simp. rewrite Hv'. simp.
  destruct (vm_binding (vm w)); simp;
    try (do 2 eexists; split; [reflexivity|]; split; [reflexivity|]; left; reflexivity).
  match goal with
  | |- context [class_missing host ?n ?x] => destruct (class_missing host n x)
  end; simp;
    try (do 2 eexists; split; [reflexivity|]; split; [reflexivity|]; left; reflexivity).
  match goal with
  | |- context [java_alloc_fails host ?x] => destruct (java_alloc_fails host x)
  end; simp;
    try (do 2 eexists; split; [reflexivity|]; split; [reflexivity|]; left; reflexivity).
  match goal with
  | |- context [method_missing host "available" ?s ?x] =>
      destruct (method_missing host "available" s x)
  end; simp;
    try (do 2 eexists; split; [reflexivity|]; split; [reflexivity|]; left; reflexivity).
  match goal with
  | |- context [method_missing host "read" ?s ?x] =>
      destruct (method_missing host "read" s x)
  end; simp.
  - do 2 eexists. split; [reflexivity|]. split; [reflexivity|]. left. reflexivity.
  - do 2 eexists. split; [reflexivity|]. split; [reflexivity|]. right.
    split; [reflexivity|]. split; [simp; discriminate|].
    split; [|split; reflexivity].
    change (Z.pos (Pos.succ (next_ref w)) ∈ ({[Z.pos (Pos.succ (next_ref w))]} ∪ globals w)).
    apply elem_of_union_l, elem_of_singleton. reflexivity.
Qed.

(** X2. [JNI_OnUnload] on a bound thread deletes the class reference
    and clears every global of the file, the VM pointer included: from
    then on [inputStreamClose] finds [g_vm] null. *)
Lemma JNI_OnUnload_clears_globals (w : World JStream) :
  g_vm w <> NULL -> vm_binding (vm w) = Bound ->
  exists w',
    JNI_OnUnload w = Ok tt w'
    /\ g_vm w' = NULL
    /\ g_inputStreamClass w' = NULL
    /\ g_midInputStreamAvailable w' = MID_NULL
    /\ g_midInputStreamRead w' = MID_NULL
    /\ heap w' = heap w
    /\ (g_inputStreamClass w <> NULL ->
        globals w' = globals w ∖ {[g_inputStreamClass w]}).
Proof.
  intros Hv Hb. unfold NULL in *. apply Z.eqb_neq in Hv as Hv'.
  unfold JNI_OnUnload. jni. simp. rewrite Hv'. simp. rewrite Hb. simp.
  destruct (Z.eqb_spec (g_inputStreamClass w) 0) as [Ec|Ec]; simp;
    (eexists; split; [reflexivity|]); simp;
    (split; [reflexivity|]); (split; [assumption || reflexivity|]);
    (split; [reflexivity|]); (split; [reflexivity|]); (split; [reflexivity|]);
    intros Hc; [contradiction | reflexivity].
Qed.

(** ** The initializers *)

(** The guard of lines 308 to 313 tests the callback, not the context:
    with the callback null the probe is a warning and nothing else. *)
Lemma loader_eof_probe_null_callback (w : World JStream) (l : whisper_model_loader JStream) :
  eof l = None ->
  loader_eof_probe l w
  = Ok tt (emit (Elog LOG_WARN
      "JNI WARNING: loader.eof function pointer was NULL. Cannot call eof. Instance %p") w).
Proof. intros H. unfold loader_eof_probe. rewrite H. reflexivity. Qed.

(** C6. The loader-context pointer of the stream-backed initializer is
    the pointer that [malloc] returned.  When it is null the initializer
    logs a warning and returns the null handle at once: the trace gains
    the failed [malloc] and the warning only, so the [eof] probe is not
    run, no callback and no engine call is made, and the run ends without
    a fault, the null pointer never having been dereferenced. *)
Theorem initContextFromInputStream_null_context_skips_probe
    (w : World JStream) (env : Z) (input_stream_param : Z) :
  g_inputStreamClass w <> NULL ->
  g_midInputStreamAvailable w <> MID_NULL ->
  g_midInputStreamRead w <> MID_NULL ->
  malloc_fails host w = true ->
  exists w',
    Java_com_whispercpp_whisper_WhisperLib_initContextFromInputStream
      host env input_stream_param w = Ok NULL w'
    /\ w' = emit (Elog LOG_WARN "Failed to allocate memory for input_stream_context")
              (emit (Emalloc NULL) w)
    /\ count_events is_warning (drop (length (trace w)) (trace w')) = 1%nat
    /\ count_events is_stream_call (drop (length (trace w)) (trace w')) = 0%nat
    /\ count_events is_engine_call (drop (length (trace w)) (trace w')) = 0%nat
    /\ heap w' = heap w.
Proof.
  intros Hc Ha Hr Hm. unfold NULL in *. apply Z.eqb_neq in Hc.
  unfold Java_com_whispercpp_whisper_WhisperLib_initContextFromInputStream,
    initContextFromInputStream_loader, malloc.
  jni. simp. rewrite Hc.
  destruct (g_midInputStreamAvailable w) eqn:Ea; [congruence| |];
    (destruct (g_midInputStreamRead w) eqn:Er; [congruence| |]);
    simp; rewrite Hm; simp;
    (eexists; split; [reflexivity|]; split; [reflexivity|]); simp;
    rewrite <- !app_assoc, drop_app_length; repeat split.
Qed.

(** Whenever the preparation gets as far as the probe and returns a
    loader, the loader's context is the block that [malloc] returned: it
    is not null, it is live, its counter is 0, it holds the [env] of the
    caller, a foreign reference and the cached method handles, and the
    probe was the one call made to the stream. *)
Lemma initContextFromInputStream_probe_on_live_context
    (w w1 : World JStream) (jenv input_stream_param : Z)
    (loader : whisper_model_loader JStream) :
  initContextFromInputStream_loader host jenv input_stream_param w = Ok (Some loader) w1 ->
  context loader = fresh_block w
  /\ context loader <> NULL
  /\ exists c,
       heap w1 !! context loader = Some (Bcontext c)
       /\ offset c = 0
       /\ env c = jenv
       /\ env c <> NULL
       /\ input_stream c <> NULL
       /\ mid_available c = MID_InputStream_available
       /\ mid_read c = g_midInputStreamRead w
       /\ count_events is_stream_call (drop (length (trace w)) (trace w1)) = 1%nat.
Proof.
  unfold initContextFromInputStream_loader, loader_eof_probe, inputStreamEof,
    malloc, free, fresh_block.
  jni. unfold fresh_ref. simp.
  destruct (g_inputStreamClass w =? 0); simp; [discriminate|].
  destruct (g_midInputStreamAvailable w) eqn:Ea; simp; try discriminate;
    (destruct (g_midInputStreamRead w) eqn:Er; simp; try discriminate);
    (destruct (malloc_fails host w); simp; try discriminate);
    rewrite ?lookup_insert_eq; simp;
    (destruct (jenv =? 0) eqn:Ee;
     repeat (progress (simp; rewrite ?lookup_insert_eq, ?Ee)); try discriminate);
    match goal with
    | |- context [(?x =? 0) || java_alloc_fails host ?y] =>
        destruct ((x =? 0) || java_alloc_fails host y) eqn:En
    end;
    repeat (progress (simp; rewrite ?lookup_insert_eq, ?Ee)); try discriminate;
    destruct (stream_available host (stream w)) as [rc s'];
    simp; intros H; injection H as <- <-; simp;
    (split; [reflexivity|]); (split; [discriminate|]);
    rewrite lookup_insert_eq; eexists; (split; [reflexivity|]); simp;
    apply Z.eqb_neq in Ee;
    rewrite <- !app_assoc, drop_app_length; simp;
    repeat split; try reflexivity; try assumption; try discriminate.
Qed.

(** In a process whose [read] handle is the one [JNI_OnLoad] caches,
    every context that the preparation hands on is live and bound, with
    its counter at 0: the hypotheses under which [inputStreamRead] and
    [inputStreamEof] are specified above hold for it. *)
Lemma initContextFromInputStream_prepares_bound_context
    (w w1 : World JStream) (jenv input_stream_param : Z)
    (loader : whisper_model_loader JStream) :
  g_midInputStreamRead w = MID_InputStream_read ->
  initContextFromInputStream_loader host jenv input_stream_param w = Ok (Some loader) w1 ->
  exists c,
    live_context_at w1 (context loader) c
    /\ bound_context c
    /\ offset c = 0.
Proof.
  intros Hr Hrun.
  destruct (initContextFromInputStream_probe_on_live_context _ _ _ _ _ Hrun)
    as (_ & Hnn & c & Hheap & Hoff & _ & Henv & _ & Ha & Hmr & _).
  exists c. split; [split; assumption|].
  split; [|exact Hoff].
  split; [exact Henv|]. split; [exact Ha|]. congruence.
Qed.

(** When the stream object passed in is null, [NewGlobalRef] yields
    [NULL] and the initializer releases the struct itself: this [free]
    is the one release of a context struct outside [inputStreamClose],
    and it happens before any loader has seen the struct. *)
Lemma initContextFromInputStream_frees_on_null_stream (w : World JStream) (env : Z) :
  g_inputStreamClass w <> NULL ->
  g_midInputStreamAvailable w <> MID_NULL ->
  g_midInputStreamRead w <> MID_NULL ->
  malloc_fails host w = false ->
  env <> NULL ->
  exists w',
    Java_com_whispercpp_whisper_WhisperLib_initContextFromInputStream host env NULL w
    = Ok NULL w'
    /\ trace w' = (trace w ++
         [Emalloc (fresh_block w);
          ENewGlobalRef NULL NULL;
          Elog LOG_WARN "Failed to create global ref for input_stream_param";
          Efree (fresh_block w)])%list
    /\ heap w' !! fresh_block w = None
    /\ globals w' = globals w.
Proof.
  intros Hc Ha Hr Hm He. unfold NULL in *.
  apply Z.eqb_neq in Hc. apply Z.eqb_neq in He.
  unfold Java_com_whispercpp_whisper_WhisperLib_initContextFromInputStream,
    initContextFromInputStream_loader, malloc, free, fresh_block.
  jni. simp. rewrite Hc.
  destruct (g_midInputStreamAvailable w) eqn:Ea; [congruence| |];
    (destruct (g_midInputStreamRead w) eqn:Er; [congruence| |]);
    simp; rewrite Hm; simp;
    repeat (progress (simp; rewrite ?He, ?lookup_insert_eq));
    (eexists; split; [reflexivity|]); simp; rewrite <- !app_assoc;
    (split; [reflexivity|]); (split; [apply lookup_delete_eq | reflexivity]).
Qed.

(** C8. When [AAssetManager_open] yields no handle for the path,
    [whisper_init_from_asset] returns the null handle at once: the trace
    gains the two log lines and the failed open only, so no loader
    reaches the engine, and no asset handle is left open. *)
Theorem whisper_init_from_asset_open_failure
    (w : World JStream) (env : Z) (assetManager : Z) (asset_path : string) :
  asset_open host asset_path
    (emit (Elog LOG_INFO "Loading model from asset '%s'\n") w) = None ->
  exists w',
    whisper_init_from_asset host env assetManager asset_path w = Ok NULL w'
    /\ trace w' = (trace w ++
         [Elog LOG_INFO "Loading model from asset '%s'\n";
          EAssetOpen asset_path NULL;
          Elog LOG_WARN "Failed to open '%s'\n"])%list
    /\ count_events is_engine_call (drop (length (trace w)) (trace w')) = 0%nat
    /\ assets w' = assets w
    /\ heap w' = heap w.
Proof.
  intros Hopen.
  unfold whisper_init_from_asset, AAssetManager_open. jni. simp. rewrite Hopen. simp.
  eexists. split; [reflexivity|]. simp. rewrite <- !app_assoc.
  split; [reflexivity|]. rewrite drop_app_length. repeat split.
Qed.

(** ** Transcription *)

(** C9. With a valid sample array, the transcription entry point
    [fullTranscribe] always returns.
    With a null handle or a failed acquisition of the samples it makes
    no engine call at all; with both in order it calls [whisper_full]
    once.  Whenever the samples were acquired the buffer is released
    exactly once, as the last action, with mode [JNI_ABORT], after
    which it is no longer borrowed; no release uses another mode, and the
    caller's array holds what it held before. *)
Theorem fullTranscribe_releases_samples
    (w : World JStream) (env context_ptr num_threads audio_data : Z) (samples : list Z) :
  env <> NULL -> float_arrays w !! audio_data = Some samples ->
  exists w' evs,
    Java_com_whispercpp_whisper_WhisperLib_fullTranscribe
      host env context_ptr num_threads audio_data w = Ok tt w'
    /\ trace w' = (trace w ++ evs)%list
    /\ (context_ptr = NULL \/ float_elements_fail host w = true ->
        count_events is_engine_call evs = 0%nat)
    /\ (context_ptr <> NULL -> float_elements_fail host w = false ->
        count_events is_whisper_full evs = 1%nat)
    /\ (float_elements_fail host w = false ->
        count_events is_release evs = 1%nat
        /\ last evs = Some (EReleaseFloatArrayElements audio_data (fresh_block w) JNI_ABORT)
        /\ borrowed w' !! fresh_block w = None)
    /\ (float_elements_fail host w = true -> count_events is_release evs = 0%nat)
    /\ count_events (is_release_with JNI_ABORT) evs = count_events is_release evs
    /\ float_arrays w' = float_arrays w.
Proof.
  intros He Hs. unfold NULL in *. apply Z.eqb_neq in He as He'.
  unfold Java_com_whispercpp_whisper_WhisperLib_fullTranscribe,
    GetFloatArrayElements, GetArrayLength, ReleaseFloatArrayElements,
    whisper_reset_timings, call_whisper_full, whisper_get_timings,
    log_timings, free, fresh_block.
  jni. rewrite He', Hs.
  destruct (float_elements_fail host w) eqn:Ef; simp; rewrite Hs; simp;
    destruct (Z.eqb_spec context_ptr 0) as [Ec|Ec]; simp;
    repeat match goal with
      | |- context [to_jint (whisper_full host ?x) =? 0] =>
          destruct (to_jint (whisper_full host x) =? 0) eqn:?; simp
      | |- context [whisper_get_timings_fails host ?x] =>
          destruct (whisper_get_timings_fails host x) eqn:?; simp
      end;
    repeat (progress (simp; rewrite ?He', ?lookup_insert_eq));
    (do 2 eexists; split; [reflexivity|]; simp; rewrite <- ?app_assoc;
     split; [reflexivity|]; simp; rewrite ?lookup_delete_eq;
     repeat split; try discriminate; auto;
     try (intros [?|?]; [congruence | discriminate]);
     try (intros; congruence)).
Qed.

End StreamAdapter.

(** * Further properties of the file *)

(** ** Arithmetic and containers *)

Lemma to_jint_small (n : Z) : 0 <= n < 2 ^ 31 -> to_jint n = n.
Proof.
  intros H. unfold to_jint. rewrite Z.mod_small by lia. lia.
Qed.

Lemma wrap_size_add_l (a b : Z) : wrap_size (wrap_size a + b) = wrap_size (a + b).
Proof.
  unfold wrap_size. apply Z.add_mod_idemp_l. unfold SIZE_MODULUS, SIZE_BITS. lia.
Qed.

Lemma set_offset_set_offset (a b : Z) (c : input_stream_context) :
  set_offset a (set_offset b c) = set_offset a c.
Proof. destruct c; reflexivity. Qed.

Lemma count_events_app (p : event -> bool) (l1 l2 : list event) :
  count_events p (l1 ++ l2) = (count_events p l1 + count_events p l2)%nat.
Proof.
  induction l1 as [|e l1 IH]; simpl; [reflexivity|]. rewrite IH. lia.
Qed.

(** Java stores into an array without changing its length. *)
Lemma array_store_length (off : Z) (data content : list byte) :
  length (array_store off data content) = length content.
Proof.
  unfold array_store. rewrite !length_app, !length_take, length_drop. lia.
Qed.

Lemma difference_union_singleton_subseteq (r : Z) (G : gset Z) :
  ({[r]} ∪ G) ∖ {[r]} ⊆ G.
Proof.
  intros x. rewrite elem_of_difference, elem_of_union, elem_of_singleton.
  intros [[->|Hx] Hn]; [contradiction | exact Hx].
Qed.

Lemma difference_union_singleton (r : Z) (G : gset Z) :
  r ∉ G -> ({[r]} ∪ G) ∖ {[r]} = G.
Proof.
  intros Hr. apply set_eq. intros x.
  rewrite elem_of_difference, elem_of_union, elem_of_singleton.
  split; [intros [[->|Hx] Hn]; [contradiction | exact Hx] |].
  intros Hx. split; [right; exact Hx|]. intros ->. contradiction.
Qed.

(** Unfold the string layer and the lifting down to the process. *)
Ltac jstr :=
  unfold call_engine in *;
  unfold pbind, pret, lift, GetStringUTFChars, ReleaseStringUTFChars,
    c_string, NewStringUTF, fresh_chars, NULL in *.

(** ** The library hooks *)

Section Lifecycle.

Variable JStream : Type.
Variable host : Host JStream.

Lemma next_ref_unused (w : World JStream) :
  refs_below_next w -> Z.pos (Pos.succ (next_ref w)) ∉ globals w.
Proof.
  intros Hf Hin. apply Hf in Hin. unfold fresh_ref in Hin. lia.
Qed.

Lemma next_blocks_unused (w : World JStream) :
  blocks_below_next w ->
  heap w !! Z.pos (next_block w) = None
  /\ heap w !! Z.pos (Pos.succ (next_block w)) = None
  /\ borrowed w !! Z.pos (next_block w) = None.
Proof.
  intros [Hh Hb]. unfold fresh_block in *. split; [|split].
  - destruct (heap w !! Z.pos (next_block w)) eqn:E; [|reflexivity].
    specialize (Hh _ (ex_intro _ _ E)). lia.
  - destruct (heap w !! Z.pos (Pos.succ (next_block w))) eqn:E; [|reflexivity].
    specialize (Hh _ (ex_intro _ _ E)). lia.
  - destruct (borrowed w !! Z.pos (next_block w)) eqn:E; [|reflexivity].
    specialize (Hb _ (ex_intro _ _ E)). lia.
Qed.

(** What a successful [JNI_OnLoad] leaves behind. *)
Lemma JNI_OnLoad_success (w w1 : World JStream) (vm_ptr : Z) :
  JNI_OnLoad host vm_ptr w = Ok JNI_VERSION_1_6 w1 ->
  vm_ptr <> NULL
  /\ vm_binding (vm w) = Bound
  /\ vm w1 = vm w
  /\ g_vm w1 = vm_ptr
  /\ g_inputStreamClass w1 = Z.pos (Pos.succ (next_ref w))
  /\ g_midInputStreamAvailable w1 = MID_InputStream_available
  /\ g_midInputStreamRead w1 = MID_InputStream_read
  /\ globals w1 = {[Z.pos (Pos.succ (next_ref w))]} ∪ globals w
  /\ heap w1 = heap w
  /\ pending w1 = pending w.
Proof.
  unfold JNI_VERSION_1_6, NULL in *.
  unfold JNI_OnLoad, FindClass, GetMethodID. jni. unfold fresh_ref. simp.
  destruct (Z.eqb_spec vm_ptr 0) as [Ev|Ev]; simp; [discriminate|].
  destruct (vm_binding (vm w)) eqn:Eb; simp; try discriminate.
  match goal with
  | |- context [class_missing host ?n ?x] => destruct (class_missing host n x)
  end; simp; try discriminate.
  match goal with
  | |- context [java_alloc_fails host ?x] => destruct (java_alloc_fails host x)
  end; simp; try discriminate.
  match goal with
  | |- context [method_missing host "available" ?s ?x] =>
      destruct (method_missing host "available" s x)
  end; simp; try discriminate.
  match goal with
  | |- context [method_missing host "read" ?s ?x] =>
      destruct (method_missing host "read" s x)
  end; simp; try discriminate.
  intros Hrun. injection Hrun as <-. simp.
  split; [exact Ev|]. repeat (split; [reflexivity|]). reflexivity.
Qed.

(** [JNI_OnUnload] on a thread that has an [env]. *)
Lemma JNI_OnUnload_bound (w : World JStream) :
  g_vm w <> NULL -> vm_binding (vm w) = Bound ->
  exists w',
    JNI_OnUnload w = Ok tt w'
    /\ g_vm w' = NULL
    /\ g_inputStreamClass w' = NULL
    /\ g_midInputStreamAvailable w' = MID_NULL
    /\ g_midInputStreamRead w' = MID_NULL
    /\ heap w' = heap w
    /\ vm w' = vm w
    /\ globals w' = (if g_inputStreamClass w =? NULL then globals w
                     else globals w ∖ {[g_inputStreamClass w]}).
Proof.
  intros Hv Hb. unfold NULL in *. apply Z.eqb_neq in Hv as Hv'.
  unfold JNI_OnUnload. jni. simp. rewrite Hv'. simp. rewrite Hb. simp.
  destruct (Z.eqb_spec (g_inputStreamClass w) 0) as [Ec|Ec]; simp;
    (eexists; split; [reflexivity|]); simp; repeat split; assumption.
Qed.

(** The guard at the head of the stream-backed initializer. *)
Lemma initContextFromInputStream_refuses (w : World JStream) (jenv input_stream_param : Z) :
  (g_inputStreamClass w =? NULL) || is_null_mid (g_midInputStreamAvailable w)
    || is_null_mid (g_midInputStreamRead w) = true ->
  Java_com_whispercpp_whisper_WhisperLib_initContextFromInputStream
    host jenv input_stream_param w
  = Ok NULL (emit (Elog LOG_WARN
      "JNI Error: Global InputStream class/method IDs not initialized in initContextFromInputStream. This usually means JNI_OnLoad() failed or was not called correctly.") w).
Proof.
  intros H.
  unfold Java_com_whispercpp_whisper_WhisperLib_initContextFromInputStream,
    initContextFromInputStream_loader.
  jni. simp. unfold NULL in H. rewrite H. reflexivity.
Qed.

(** X3. When [JNI_OnLoad] reports [JNI_ERR] in a process that had no
    class reference cached, it leaves none behind: [g_inputStreamClass]
    is null, every global reference it created has been deleted again,
    the native heap is untouched, and from then on the stream-backed
    initializer returns the null handle after its warning, without
    allocating. *)
Theorem JNI_OnLoad_failure_caches_nothing (w w' : World JStream) (vm_ptr : Z) :
  g_inputStreamClass w = NULL ->
  JNI_OnLoad host vm_ptr w = Ok JNI_ERR w' ->
  g_vm w' = vm_ptr
  /\ g_inputStreamClass w' = NULL
  /\ globals w' ⊆ globals w
  /\ heap w' = heap w
  /\ forall jenv input_stream_param,
       exists w'',
         Java_com_whispercpp_whisper_WhisperLib_initContextFromInputStream
           host jenv input_stream_param w' = Ok NULL w''
         /\ heap w'' = heap w'
         /\ globals w'' = globals w'
         /\ count_events is_warning (drop (length (trace w')) (trace w'')) = 1%nat.
Proof.
  intros Hc Hrun.
  assert (Hgoal : g_vm w' = vm_ptr /\ g_inputStreamClass w' = NULL
                  /\ globals w' ⊆ globals w /\ heap w' = heap w).
  { revert Hrun. unfold JNI_ERR, NULL in *.
    unfold JNI_OnLoad, FindClass, GetMethodID. jni. unfold fresh_ref. simp.
    destruct (vm_ptr =? 0); simp; [discriminate|].
    destruct (vm_binding (vm w)); simp;
      try (intros Hrun; injection Hrun as <-; simp; repeat split; [exact Hc | reflexivity]).
    match goal with
    | |- context [class_missing host ?n ?x] => destruct (class_missing host n x)
    end; simp;
      try (intros Hrun; injection Hrun as <-; simp; repeat split; [exact Hc | reflexivity]).
    match goal with
    | |- context [java_alloc_fails host ?x] => destruct (java_alloc_fails host x)
    end; simp;
      try (intros Hrun; injection Hrun as <-; simp; repeat split; reflexivity).
    match goal with
    | |- context [method_missing host "available" ?s ?x] =>
        destruct (method_missing host "available" s x)
    end; simp.
    { intros Hrun; injection Hrun as <-; simp.
      split; [reflexivity|]. split; [reflexivity|]. split; [|reflexivity].
      apply difference_union_singleton_subseteq. }
    match goal with
    | |- context [method_missing host "read" ?s ?x] =>
        destruct (method_missing host "read" s x)
    end; simp.
    { intros Hrun; injection Hrun as <-; simp.
      split; [reflexivity|]. split; [reflexivity|]. split; [|reflexivity].
      apply difference_union_singleton_subseteq. }
    discriminate. }
  destruct Hgoal as (Hv & Hc' & Hg & Hh).
  repeat (split; [assumption|]).
  intros jenv input_stream_param. eexists.
  split; [apply initContextFromInputStream_refuses; rewrite Hc'; reflexivity|].
  simp. rewrite drop_app_length. repeat split.
Qed.

(** X4. Load, then unload, on one thread: after a [JNI_OnLoad] that
    reported success, [JNI_OnUnload] returns with the four globals of the
    file cleared, the table of global references exactly what it was
    before the load, and the native heap untouched. *)
Theorem JNI_OnLoad_then_OnUnload_restores (w w1 : World JStream) (vm_ptr : Z) :
  refs_below_next w ->
  JNI_OnLoad host vm_ptr w = Ok JNI_VERSION_1_6 w1 ->
  exists w2,
    JNI_OnUnload w1 = Ok tt w2
    /\ g_vm w2 = NULL
    /\ g_inputStreamClass w2 = NULL
    /\ g_midInputStreamAvailable w2 = MID_NULL
    /\ g_midInputStreamRead w2 = MID_NULL
    /\ globals w2 = globals w
    /\ heap w2 = heap w.
Proof.
  intros Hf Hrun. apply next_ref_unused in Hf.
  destruct (JNI_OnLoad_success _ _ _ Hrun)
    as (Hv & Hb & Hvm & Hg & Hc & _ & _ & Hgl & Hh & _).
  destruct (JNI_OnUnload_bound w1) as (w2 & Hun & H1 & H2 & H3 & H4 & H5 & _ & H6).
  { rewrite Hg. exact Hv. }
  { rewrite Hvm. exact Hb. }
  exists w2. repeat (split; [assumption|]).
  split; [|congruence].
  rewrite H6, Hc, Hgl. unfold NULL. simpl.
  apply difference_union_singleton. exact Hf.
Qed.

(** X5. When [GetEnv] does not answer [JNI_OK], [JNI_OnUnload] returns
    after a warning and releases nothing: the VM pointer, the class
    reference and the two method handles stay as they were, and no
    [DeleteGlobalRef] is made. *)
Theorem JNI_OnUnload_without_env_releases_nothing (w : World JStream) :
  g_vm w <> NULL -> vm_binding (vm w) <> Bound ->
  exists w',
    JNI_OnUnload w = Ok tt w'
    /\ g_vm w' = g_vm w
    /\ g_inputStreamClass w' = g_inputStreamClass w
    /\ g_midInputStreamAvailable w' = g_midInputStreamAvailable w
    /\ g_midInputStreamRead w' = g_midInputStreamRead w
    /\ globals w' = globals w
    /\ count_events is_DeleteGlobalRef (drop (length (trace w)) (trace w')) = 0%nat.
Proof.
  intros Hv Hb. unfold NULL in *. apply Z.eqb_neq in Hv as Hv'.
  unfold JNI_OnUnload. jni. simp. rewrite Hv'. simp.
  destruct (vm_binding (vm w)); [congruence| |]; simp;
    (eexists; split; [reflexivity|]); simp;
    rewrite <- !app_assoc, drop_app_length; repeat split.
Qed.

(** X6. [JNI_OnUnload] reaches the VM through [g_vm], not through its
    argument, and clears [g_vm] when it is done: a second call after a
    first one that completed dereferences the null pointer. *)
Theorem JNI_OnUnload_twice_faults (w : World JStream) :
  g_vm w <> NULL -> vm_binding (vm w) = Bound ->
  exists w1 w2,
    JNI_OnUnload w = Ok tt w1
    /\ JNI_OnUnload w1 = Crash NullPointer w2
    /\ globals w2 = globals w1.
Proof.
  intros Hv Hb.
  destruct (JNI_OnUnload_bound w Hv Hb) as (w1 & Hun & H1 & _).
  exists w1. eexists. split; [exact Hun|].
  unfold JNI_OnUnload. jni. simp. rewrite H1. simp. split; reflexivity.
Qed.

End Lifecycle.

(** ** From the initializer to the engine and back *)

Section Initializer.

Variable JStream : Type.
Variable host : Host JStream.

(** X7. Before [JNI_OnLoad] has cached the class and both method
    handles, and again after [JNI_OnUnload] has cleared them, the
    stream-backed initializer returns the null handle: it logs one
    warning and does nothing else, so nothing is allocated, no reference
    is created and the stream is not touched. *)
Theorem initContextFromInputStream_before_load
    (w : World JStream) (jenv input_stream_param : Z) :
  g_inputStreamClass w = NULL
  \/ g_midInputStreamAvailable w = MID_NULL
  \/ g_midInputStreamRead w = MID_NULL ->
  exists w',
    Java_com_whispercpp_whisper_WhisperLib_initContextFromInputStream
      host jenv input_stream_param w = Ok NULL w'
    /\ count_events is_warning (drop (length (trace w)) (trace w')) = 1%nat
    /\ length (trace w') = S (length (trace w))
    /\ heap w' = heap w
    /\ next_block w' = next_block w
    /\ globals w' = globals w
    /\ stream w' = stream w.
Proof.
  intros H. eexists. split.
  - apply initContextFromInputStream_refuses.
    destruct H as [H | [H | H]]; rewrite H; simpl;
      rewrite ?orb_true_r; reflexivity.
  - simp. rewrite drop_app_length, length_app. simpl.
    repeat split. lia.
Qed.

(** X8. When [NewGlobalRef] yields no reference, because the stream
    object is null or the VM is out of memory, the initializer frees the
    struct it has just allocated and returns the null handle: the native
    heap and the table of global references are what they were, and
    neither the stream nor the engine is called. *)
Theorem initContextFromInputStream_without_global_ref
    (w : World JStream) (jenv input_stream_param : Z) :
  g_inputStreamClass w <> NULL ->
  g_midInputStreamAvailable w <> MID_NULL ->
  g_midInputStreamRead w <> MID_NULL ->
  malloc_fails host w = false ->
  jenv <> NULL ->
  input_stream_param = NULL \/ (forall w0, java_alloc_fails host w0 = true) ->
  blocks_below_next w ->
  exists w',
    Java_com_whispercpp_whisper_WhisperLib_initContextFromInputStream
      host jenv input_stream_param w = Ok NULL w'
    /\ heap w' = heap w
    /\ globals w' = globals w
    /\ count_events (is_free_of (fresh_block w)) (drop (length (trace w)) (trace w')) = 1%nat
    /\ count_events is_stream_call (drop (length (trace w)) (trace w')) = 0%nat
    /\ count_events is_engine_call (drop (length (trace w)) (trace w')) = 0%nat.
Proof.
  intros Hc Ha Hr Hm He Hfail Hfresh. unfold NULL in *.
  assert (Hnew : forall w0, (input_stream_param =? 0) || java_alloc_fails host w0 = true).
  { intros w0. destruct Hfail as [-> | Hfail]; [reflexivity|].
    rewrite Hfail. apply orb_true_r. }
  apply next_blocks_unused in Hfresh as (Hunused & _).
  apply Z.eqb_neq in Hc. apply Z.eqb_neq in He.
  unfold Java_com_whispercpp_whisper_WhisperLib_initContextFromInputStream,
    initContextFromInputStream_loader, malloc, free, fresh_block.
  jni. simp. rewrite Hc.
  destruct (g_midInputStreamAvailable w) eqn:Ea; [congruence| |];
    (destruct (g_midInputStreamRead w) eqn:Er; [congruence| |]);
    simp; rewrite Hm; simp;
    repeat (progress (simp; rewrite ?He, ?Hnew, ?lookup_insert_eq));
    (eexists; split; [reflexivity|]); simp;
    rewrite <- !app_assoc, drop_app_length; simp; rewrite ?Z.eqb_refl, ?Pos.eqb_refl;
    (split; [rewrite !delete_insert_eq; apply delete_id; exact Hunused|]);
    repeat split.
Qed.

(** X9. Once the loader is prepared, the initializer returns exactly
    what [whisper_init_with_params] returned, the null handle included,
    and after the engine has returned it only logs: it frees no struct
    and deletes no reference, whatever the engine did with the loader. *)
Theorem initContextFromInputStream_returns_engine_handle
    (w w1 w2 : World JStream) (jenv input_stream_param : Z)
    (loader : whisper_model_loader JStream) (handle : Z) :
  initContextFromInputStream_loader host jenv input_stream_param w = Ok (Some loader) w1 ->
  whisper_init_with_params host loader
    (emit (Ewhisper_init_with_params (context loader)) w1) = Ok handle w2 ->
  exists w' logs,
    Java_com_whispercpp_whisper_WhisperLib_initContextFromInputStream
      host jenv input_stream_param w = Ok handle w'
    /\ trace w' = (trace w2 ++ logs)%list
    /\ forallb is_log logs = true
    /\ heap w' = heap w2
    /\ globals w' = globals w2.
Proof.
  intros Hprep Hengine.
  unfold Java_com_whispercpp_whisper_WhisperLib_initContextFromInputStream,
    call_whisper_init_with_params.
  unfold bind at 1. rewrite Hprep.
  jni. simp. rewrite Hengine. simp.
  destruct (Z.eqb_spec handle 0) as [->|Hh]; simp;
    (do 2 eexists; split; [reflexivity|]); simp; rewrite <- ?app_assoc;
    (split; [reflexivity|]); repeat split.
Qed.

(** What the preparation has done when it hands a loader on. *)
Lemma initContextFromInputStream_loader_success
    (w w1 : World JStream) (jenv input_stream_param : Z)
    (loader : whisper_model_loader JStream) :
  initContextFromInputStream_loader host jenv input_stream_param w = Ok (Some loader) w1 ->
  loader = mk_whisper_model_loader (fresh_block w)
             (Some (inputStreamRead host)) (Some (inputStreamEof host)) (Some inputStreamClose)
  /\ jenv <> NULL
  /\ heap w1
     = <[fresh_block w :=
           Bcontext (mk_input_stream_context 0 jenv (fresh_ref w)
                       MID_InputStream_available (g_midInputStreamRead w))]> (heap w)
  /\ globals w1 = {[fresh_ref w]} ∪ globals w
  /\ g_vm w1 = g_vm w
  /\ vm w1 = vm w
  /\ arrays w1 = arrays w.
Proof.
  unfold initContextFromInputStream_loader, loader_eof_probe, inputStreamEof,
    malloc, free, fresh_block.
  jni. unfold fresh_ref. simp.
  destruct (g_inputStreamClass w =? 0); simp; [discriminate|].
  destruct (g_midInputStreamAvailable w) eqn:Ea; simp; try discriminate;
    (destruct (g_midInputStreamRead w) eqn:Er; simp; try discriminate);
    (destruct (malloc_fails host w); simp; try discriminate);
    rewrite ?lookup_insert_eq; simp;
    (destruct (jenv =? 0) eqn:Ee;
     repeat (progress (simp; rewrite ?lookup_insert_eq, ?Ee)); try discriminate);
    match goal with
    | |- context [(?x =? 0) || java_alloc_fails host ?y] =>
        destruct ((x =? 0) || java_alloc_fails host y) eqn:En
    end;
    repeat (progress (simp; rewrite ?lookup_insert_eq, ?Ee)); try discriminate;
    destruct (stream_available host (stream w)) as [rc s'];
    simp; intros H; injection H as <- <-; simp;
    (split; [reflexivity|]);
    apply Z.eqb_neq in Ee; (split; [exact Ee|]);
    rewrite !insert_insert_eq; repeat split.
Qed.

(** A run of the preparation that ends with a loader ends with this
    loader. *)
Lemma initContextFromInputStream_loader_from_run
    (w w1 : World JStream) (jenv input_stream_param : Z) :
  match initContextFromInputStream_loader host jenv input_stream_param w with
  | Ok (Some _) w1' => w1' = w1
  | _ => False
  end ->
  initContextFromInputStream_loader host jenv input_stream_param w
  = Ok (Some (mk_whisper_model_loader (fresh_block w)
                (Some (inputStreamRead host)) (Some (inputStreamEof host))
                (Some inputStreamClose))) w1.
Proof.
  destruct (initContextFromInputStream_loader host jenv input_stream_param w)
    as [[l|] w1'|f w1'] eqn:E; try contradiction.
  intros <-.
  destruct (initContextFromInputStream_loader_success _ _ _ _ _ E) as (-> & _).
  reflexivity.
Qed.

(** X10. In a process whose [read] handle is the one that [JNI_OnLoad]
    caches, the loader that the initializer hands to the engine carries
    the three callbacks of the stream adapter and a context that is
    live and bound, with its counter at 0 and with a reference to the
    stream that is new in the table of global references. *)
Theorem initContextFromInputStream_builds_bound_context
    (w w1 : World JStream) (jenv input_stream_param : Z)
    (loader : whisper_model_loader JStream) :
  g_midInputStreamRead w = MID_InputStream_read ->
  initContextFromInputStream_loader host jenv input_stream_param w = Ok (Some loader) w1 ->
  read loader = Some (inputStreamRead host)
  /\ eof loader = Some (inputStreamEof host)
  /\ close loader = Some inputStreamClose
  /\ exists c,
       live_context_at w1 (context loader) c
       /\ bound_context c
       /\ offset c = 0
       /\ input_stream c = fresh_ref w
       /\ globals w1 = {[input_stream c]} ∪ globals w.
Proof.
  intros Hmr Hrun.
  destruct (initContextFromInputStream_loader_success _ _ _ _ _ Hrun)
    as (-> & He & Hheap & Hglob & _).
  repeat (split; [reflexivity|]).
  eexists. split.
  - split; [discriminate|]. simpl. rewrite Hheap. apply lookup_insert_eq.
  - split; [repeat split; [exact He | exact Hmr]|].
    split; [reflexivity|]. split; [reflexivity|]. exact Hglob.
Qed.

(** X11. Prepare, then close: when the close callback runs on the
    context that the initializer has just built, on a thread that the VM
    knows or can attach, the struct and the reference to the stream are
    both released, and the native heap and the table of global
    references are exactly what they were before the initializer
    ran. *)
Theorem initContextFromInputStream_then_close_restores
    (w w1 : World JStream) (jenv input_stream_param : Z)
    (loader : whisper_model_loader JStream) :
  refs_below_next w -> blocks_below_next w ->
  g_vm w <> NULL ->
  vm_binding (vm w) <> UnsupportedVersion -> vm_can_attach (vm w) = true ->
  initContextFromInputStream_loader host jenv input_stream_param w = Ok (Some loader) w1 ->
  exists w2,
    inputStreamClose (context loader) w1 = Ok tt w2
    /\ heap w2 = heap w
    /\ globals w2 = globals w
    /\ vm w2 = vm w.
Proof.
  intros Hrefs Hblocks Hgvm Hver Hatt Hrun.
  apply next_blocks_unused in Hblocks as (Hunused & _).
  destruct (initContextFromInputStream_loader_success _ _ _ _ _ Hrun)
    as (-> & He & Hheap & Hglob & Hgvm1 & Hvm1 & _).
  change (context (mk_whisper_model_loader (fresh_block w) (Some (inputStreamRead host))
                     (Some (inputStreamEof host)) (Some inputStreamClose)))
    with (fresh_block w).
  set (c := mk_input_stream_context 0 jenv (fresh_ref w)
              MID_InputStream_available (g_midInputStreamRead w)) in *.
  assert (Hlive : live_context_at w1 (fresh_block w) c).
  { split; [discriminate|]. rewrite Hheap. apply lookup_insert_eq. }
  assert (Hrel : close_releases w1 c = true).
  { unfold close_releases, NULL in *. rewrite Hgvm1, Hvm1, Hatt.
    apply Z.eqb_neq in Hgvm. rewrite Hgvm.
    destruct (vm_binding (vm w)); [reflexivity | reflexivity | congruence]. }
  destruct (inputStreamClose_live JStream w1 (fresh_block w) c Hlive)
    as (w2 & evs & Hclose & _ & Hh2 & _ & _ & _ & _ & _ & _ & _ & Hg2 & Hv2 & _).
  rewrite Hrel in Hg2.
  exists w2. split; [exact Hclose|].
  split.
  - rewrite Hh2, Hheap, delete_insert_eq. apply delete_id. exact Hunused.
  - split; [|congruence].
    rewrite Hg2, Hglob. apply difference_union_singleton.
    intros Hin. apply Hrefs in Hin. subst c. simpl in Hin. lia.
Qed.

End Initializer.

(** ** Reads, one and many *)

Section Reading.

Variable JStream : Type.
Variable host : Host JStream.

(** Every path of [inputStreamRead] on a live, bound context at once:
    the call returns, and the count, the bytes, the counter, the pending
    exception, the transient array and the stream are as stated, for
    whatever the stream and the allocator answer. *)
Lemma inputStreamRead_run
    (w : World JStream) (ctx : Z) (c : input_stream_context) (read_size : Z) :
  live_context_at w ctx c -> bound_context c ->
  0 <= offset c < SIZE_MODULUS ->
  exists n out w' evs,
    inputStreamRead host ctx read_size w = Ok (n, out) w'
    /\ trace w' = (trace w ++ evs)%list
    /\ 0 <= n <= Z.max 0 (to_jint read_size)
    /\ Z.of_nat (length out) = n
    /\ heap w' = <[ctx := Bcontext (set_offset (wrap_size (offset c + n)) c)]> (heap w)
    /\ pending w' = (if read_size =? 0 then pending w
                     else (to_jint read_size <? 0) || java_alloc_fails host w)
    /\ arrays w' = (if (read_size =? 0) || (to_jint read_size <? 0) || java_alloc_fails host w
                    then arrays w else delete (fresh_ref w) (arrays w))
    /\ globals w' = globals w
    /\ vm w' = vm w
    /\ (count_events is_stream_call evs <= 1)%nat
    /\ n = (if (read_size =? 0) || (to_jint read_size <? 0) || java_alloc_fails host w
            then 0
            else if pending w
                    || java_read_threw host (stream w) (to_jint read_size) 0 (to_jint read_size)
            then 0
            else
              let r :=
                java_read_result host (stream w) (to_jint read_size) 0 (to_jint read_size) in
              if (0 <? r) && (r <=? to_jint read_size) then r else 0)
    /\ stream w' = (if (read_size =? 0) || (to_jint read_size <? 0) || java_alloc_fails host w
                    then stream w
                    else snd (stream_read host (stream w)
                                (to_jint read_size) 0 (to_jint read_size))).
Proof.
  intros [Hn Hl] (He & _ & Hm) Ho. unfold NULL in *.
  assert (Hsame : <[ctx := Bcontext (set_offset (wrap_size (offset c + 0)) c)]> (heap w)
                  = heap w).
  { rewrite set_offset_same by exact Ho. apply insert_id. exact Hl. }
  apply Z.eqb_neq in Hn as Hn'. apply Z.eqb_neq in He as He'.
  unfold inputStreamRead, java_read_threw, java_read_result. jni. rewrite Hn', Hl.
  destruct (Z.eqb_spec read_size 0) as [Hz|Hz].
  { exists 0, [], w, []. rewrite Hsame, app_nil_r.
    repeat split; try lia; auto. }
  rewrite !orb_false_l.
  rewrite He'.
  destruct ((to_jint read_size <? 0) || java_alloc_fails host w) eqn:Ea.
  { simp. do 4 eexists. split; [reflexivity|]. simp. rewrite Hsame, <- ?app_assoc.
    split; [reflexivity|]. repeat split; try lia; auto. }
  assert (Hlen : 0 <= to_jint read_size).
  { apply orb_false_elim in Ea as [Ea _]. apply Z.ltb_ge in Ea. exact Ea. }
  unfold fresh_ref.
  simp. rewrite Hm. simp. rewrite lookup_insert_eq.
  rewrite (array_length_of_request _ _ Ea).
  destruct (stream_read host (stream w) _ 0 (to_jint read_size)) as [[rc data] s'] eqn:Es.
  simp.
  destruct (pending w || threw rc) eqn:Ep.
  { simp. do 4 eexists. split; [reflexivity|]. simp. rewrite Hsame, <- ?app_assoc.
    split; [reflexivity|]. simp.
    split; [lia|]. split; [reflexivity|]. split; [reflexivity|]. split; [reflexivity|].
    split; [rewrite !delete_insert_eq; reflexivity|].
    repeat split. lia. }
  match goal with
  | |- exists n out w' evs, match ?inner with _ => _ end = _ /\ _ =>
      assert (Hin : exists n out w0 evs0,
                 inner = Ok (n, out) w0
                 /\ heap w0 = heap w
                 /\ 0 <= n <= to_jint read_size
                 /\ Z.of_nat (length out) = n
                 /\ trace w0
                    = (trace w ++
                       [ENewByteArray (to_jint read_size) (Z.pos (next_ref w));
                        ECallRead (input_stream c) (Z.pos (next_ref w)) 0 (to_jint read_size)]
                       ++ evs0)%list
                 /\ count_events is_stream_call evs0 = 0%nat
                 /\ pending w0 = false
                 /\ arrays w0
                    = <[Z.pos (next_ref w) := array_store 0 data
                          (repeat x00 (Z.to_nat (to_jint read_size)))]>
                        (<[Z.pos (next_ref w) := repeat x00 (Z.to_nat (to_jint read_size))]>
                           (arrays w))
                 /\ globals w0 = globals w
                 /\ vm w0 = vm w
                 /\ n = (if (0 <? to_jint (retval rc)) && (to_jint (retval rc) <=? to_jint read_size)
                         then to_jint (retval rc) else 0)
                 /\ stream w0 = s')
  end.
  { destruct (to_jint (retval rc) >? 0) eqn:Eg.
    - apply Z.gtb_lt in Eg. simp. rewrite lookup_insert_eq.
      rewrite array_store_length, repeat_length, Z2Nat.id by exact Hlen.
      destruct ((0 <=? to_jint (retval rc)) && _) eqn:Eb; simp;
        (do 4 eexists; split; [reflexivity|]); simp; rewrite <- ?app_assoc;
        (split; [reflexivity|]); (split; [lia|]).
      + apply andb_prop in Eb as [_ Eb]. apply Z.leb_le in Eb.
        split.
        { rewrite length_take, length_drop, array_store_length, repeat_length. simpl. lia. }
        repeat split.
        destruct (Z.ltb_spec 0 (to_jint (retval rc))); [|lia].
        destruct (Z.leb_spec (to_jint (retval rc)) (to_jint read_size)); [reflexivity|lia].
      + repeat split.
        destruct (Z.ltb_spec 0 (to_jint (retval rc))); [|reflexivity].
        destruct (Z.leb_spec (to_jint (retval rc)) (to_jint read_size)); [lia|reflexivity].
    - rewrite Z.gtb_ltb in Eg. rewrite Eg.
      destruct (to_jint (retval rc) =? -1); simp;
        (do 4 eexists; split; [reflexivity|]); simp; rewrite <- ?app_assoc;
        (split; [reflexivity|]); (split; [lia|]); repeat split. }
  destruct Hin as (n & out & w0 & evs0 & -> & Hh & Hb & Hlo & Htr & Hcnt & Hp & Ha & Hg & Hv
                   & Hnval & Hs).
  simp. rewrite Hh, Hl. simp. rewrite ?Hh, ?Hl.
  do 4 eexists. split; [reflexivity|]. simp.
  rewrite Htr, <- !app_assoc. split; [reflexivity|].
  split; [lia|]. split; [exact Hlo|]. split; [reflexivity|].
  split; [exact Hp|].
  split; [rewrite Ha, !delete_insert_eq; reflexivity|].
  split; [exact Hg|]. split; [exact Hv|].
  split; [simpl; rewrite count_events_app, Hcnt; simpl; lia|].
  split; [exact Hnval | exact Hs].
Qed.

(** X12. Whatever the stream's [read] hands back, a request for fewer
    than 2^31 bytes on a live, bound context returns a count between 0
    and the request, stores that many bytes, and moves the counter by
    that count: a count larger than the array is stopped by the bounds
    check of [GetByteArrayRegion]. *)
Theorem inputStreamRead_count_within_request
    (w : World JStream) (ctx : Z) (c : input_stream_context) (read_size : Z) :
  live_context_at w ctx c -> bound_context c ->
  0 <= offset c < SIZE_MODULUS -> 0 <= read_size < 2 ^ 31 ->
  exists n out w',
    inputStreamRead host ctx read_size w = Ok (n, out) w'
    /\ 0 <= n <= read_size
    /\ Z.of_nat (length out) = n
    /\ heap w' !! ctx = Some (Bcontext (set_offset (wrap_size (offset c + n)) c)).
Proof.
  intros Hlive Hbound Ho Hr.
  destruct (inputStreamRead_run w ctx c read_size Hlive Hbound Ho)
    as (n & out & w' & evs & Hrun & _ & Hb & Hlen & Hh & _).
  rewrite (to_jint_small _ Hr) in Hb.
  exists n, out, w'. split; [exact Hrun|]. split; [lia|]. split; [exact Hlen|].
  rewrite Hh. apply lookup_insert_eq.
Qed.

(** X13. A non-empty request for fewer than 2^31 bytes, entered with no
    exception pending, returns with an exception pending exactly when the
    transient array could not be allocated; in that case it has read
    nothing and has not called the stream.  An exception raised by the
    stream or by the copy never outlives the call. *)
Theorem inputStreamRead_exception_only_after_failed_allocation
    (w : World JStream) (ctx : Z) (c : input_stream_context) (read_size : Z) :
  live_context_at w ctx c -> bound_context c ->
  0 <= offset c < SIZE_MODULUS -> 0 < read_size < 2 ^ 31 ->
  pending w = false ->
  exists n out w',
    inputStreamRead host ctx read_size w = Ok (n, out) w'
    /\ pending w' = java_alloc_fails host w
    /\ (java_alloc_fails host w = true -> n = 0 /\ stream w' = stream w).
Proof.
  intros Hlive Hbound Ho Hr _.
  destruct (inputStreamRead_run w ctx c read_size Hlive Hbound Ho)
    as (n & out & w' & evs & Hrun & _ & _ & _ & _ & Hp & _ & _ & _ & _ & Hn & Hs).
  rewrite (to_jint_small read_size) in * by lia.
  assert (Hz : (read_size =? 0) = false) by (apply Z.eqb_neq; lia).
  assert (Hneg : (read_size <? 0) = false) by (apply Z.ltb_ge; lia).
  rewrite Hz, Hneg in *. simpl in Hp, Hn, Hs.
  exists n, out, w'. split; [exact Hrun|]. split; [exact Hp|].
  intros Hfail. rewrite Hfail in *. split; assumption.
Qed.

(** X14. The transient array never outlives the call: in a world where
    the next local reference is unused, a request for fewer than 2^31
    bytes leaves the table of array references exactly as it found it,
    on every path, and it changes no global reference and no block of
    the native heap other than the context. *)
Theorem inputStreamRead_releases_transient_array
    (w : World JStream) (ctx : Z) (c : input_stream_context) (read_size : Z) :
  live_context_at w ctx c -> bound_context c ->
  0 <= offset c < SIZE_MODULUS -> 0 <= read_size < 2 ^ 31 ->
  arrays w !! fresh_ref w = None ->
  exists n out w',
    inputStreamRead host ctx read_size w = Ok (n, out) w'
    /\ arrays w' = arrays w
    /\ globals w' = globals w
    /\ forall p, p <> ctx -> heap w' !! p = heap w !! p.
Proof.
  intros Hlive Hbound Ho Hr Hfresh.
  destruct (inputStreamRead_run w ctx c read_size Hlive Hbound Ho)
    as (n & out & w' & evs & Hrun & _ & _ & _ & Hh & _ & Ha & Hg & _).
  exists n, out, w'. split; [exact Hrun|].
  split.
  - rewrite Ha. destruct (_ || _); [reflexivity|].
    apply delete_id. exact Hfresh.
  - split; [exact Hg|]. intros p Hp. rewrite Hh. apply lookup_insert_ne. congruence.
Qed.

(** X15. When the stream's [read] reports more bytes than it was asked
    for, the copy out of the array is refused: the adapter returns 0 and
    stores nothing, the exception is cleared and the counter stays,
    although the stream has moved on. *)
Theorem inputStreamRead_drops_overlong_count
    (w : World JStream) (ctx : Z) (c : input_stream_context) (read_size : Z) :
  live_context_at w ctx c -> bound_context c ->
  0 <= offset c < SIZE_MODULUS -> 0 < read_size < 2 ^ 31 ->
  java_alloc_fails host w = false -> pending w = false ->
  java_read_threw host (stream w) read_size 0 read_size = false ->
  read_size < java_read_result host (stream w) read_size 0 read_size ->
  exists w',
    inputStreamRead host ctx read_size w = Ok (0, []) w'
    /\ pending w' = false
    /\ heap w' = heap w
    /\ stream w' = snd (stream_read host (stream w) read_size 0 read_size).
Proof.
  intros Hlive Hbound Ho Hr Ha Hp Hthrew Hres.
  destruct (inputStreamRead_run w ctx c read_size Hlive Hbound Ho)
    as (n & out & w' & evs & Hrun & _ & _ & Hlen & Hh & Hpw & _ & _ & _ & _ & Hn & Hs).
  rewrite (to_jint_small read_size) in * by lia.
  assert (Hz : (read_size =? 0) = false) by (apply Z.eqb_neq; lia).
  assert (Hneg : (read_size <? 0) = false) by (apply Z.ltb_ge; lia).
  rewrite Hz, Hneg, Ha, ?Hp, ?Hthrew in *. simpl in Hn, Hs, Hpw.
  assert (Hover : (java_read_result host (stream w) read_size 0 read_size <=? read_size)
                  = false) by (apply Z.leb_gt; exact Hres).
  rewrite Hover, andb_false_r in Hn. subst n.
  destruct out; [|discriminate].
  exists w'. split; [exact Hrun|]. split; [exact Hpw|]. split; [|exact Hs].
  rewrite Hh, set_offset_same by exact Ho. apply insert_id. apply Hlive.
Qed.

(** X16. Over any sequence of requests, each for fewer than 2^31 bytes,
    every call returns a count within its request, and at the end the
    counter of the context is its initial value plus the sum of the
    counts returned, reduced modulo 2^64: the counter counts exactly the
    bytes delivered. *)
Theorem read_each_counts_every_byte
    (sizes : list Z) (w : World JStream) (ctx : Z) (c : input_stream_context) :
  live_context_at w ctx c -> bound_context c ->
  0 <= offset c < SIZE_MODULUS ->
  Forall (fun read_size => 0 <= read_size < 2 ^ 31) sizes ->
  exists counts w',
    read_each host ctx sizes w = Ok counts w'
    /\ Forall2 (fun n read_size => 0 <= n <= read_size) counts sizes
    /\ heap w' !! ctx
       = Some (Bcontext (set_offset (wrap_size (offset c + total counts)) c)).
Proof.
  revert w c. induction sizes as [|read_size rest IH]; intros w c Hlive Hbound Ho Hsizes.
  - exists [], w. split; [reflexivity|]. split; [constructor|].
    simpl. rewrite set_offset_same by exact Ho. apply Hlive.
  - apply Forall_cons in Hsizes as [Hr Hrest].
    destruct (inputStreamRead_run w ctx c read_size Hlive Hbound Ho)
      as (n & out & w1 & evs & Hrun & _ & Hb & _ & Hh & _).
    rewrite (to_jint_small _ Hr) in Hb.
    set (c1 := set_offset (wrap_size (offset c + n)) c) in *.
    destruct (IH w1 c1) as (counts & w' & Hrest_run & Hall & Hheap).
    + split; [apply Hlive|]. rewrite Hh. apply lookup_insert_eq.
    + exact Hbound.
    + apply wrap_size_range.
    + exact Hrest.
    + exists (n :: counts), w'. split.
      * simpl. unfold bind at 1. rewrite Hrun. unfold bind at 1. rewrite Hrest_run.
        reflexivity.
      * split; [constructor; [lia | exact Hall]|].
        rewrite Hheap. unfold c1. simpl offset at 1.
        rewrite set_offset_set_offset, wrap_size_add_l. simpl.
        rewrite Z.add_assoc. reflexivity.
Qed.

(** X17. Once the close callback has run on a context, the pointer
    dangles for the other two callbacks as well: a read or an
    end-of-stream test on it reads the released struct, which is a
    memory fault. *)
Theorem inputStreamRead_after_close_faults
    (w : World JStream) (ctx : Z) (c : input_stream_context) (read_size : Z) :
  live_context_at w ctx c ->
  exists w1,
    inputStreamClose ctx w = Ok tt w1
    /\ inputStreamRead host ctx read_size w1 = Crash UseAfterFree w1
    /\ inputStreamEof host ctx w1 = Crash UseAfterFree w1.
Proof.
  intros Hlive.
  destruct (inputStreamClose_live JStream w ctx c Hlive) as (w1 & evs & Hrun & _ & Hheap & _).
  assert (Hgone : heap w1 !! ctx = None) by (rewrite Hheap; apply lookup_delete_eq).
  destruct Hlive as [Hn _]. unfold NULL in Hn. apply Z.eqb_neq in Hn.
  exists w1. split; [exact Hrun|].
  unfold inputStreamRead, inputStreamEof. jni. rewrite Hn, Hgone. split; reflexivity.
Qed.

End Reading.

(** ** What close leaves alone *)

Section Closing.

Variable JStream : Type.

(** What [inputStreamClose] leaves alone on a live context, in every
    state of the VM binding. *)
Lemma inputStreamClose_frame (w : World JStream) (ctx : Z) (c : input_stream_context) :
  live_context_at w ctx c ->
  exists w' evs,
    inputStreamClose ctx w = Ok tt w'
    /\ trace w' = (trace w ++ evs)%list
    /\ count_events is_stream_call evs = 0%nat
    /\ count_events is_engine_call evs = 0%nat
    /\ stream w' = stream w
    /\ arrays w' = arrays w
    /\ pending w' = pending w
    /\ g_inputStreamClass w' = g_inputStreamClass w
    /\ g_midInputStreamAvailable w' = g_midInputStreamAvailable w
    /\ g_midInputStreamRead w' = g_midInputStreamRead w.
Proof.
  intros [Hn Hl]. unfold NULL in *. apply Z.eqb_neq in Hn as Hn'.
  unfold inputStreamClose, inputStreamClose_leak, inputStreamClose_release, free.
  jni. simp. rewrite Hn'. simp.
  destruct (g_vm w =? 0) eqn:Eg; simp.
  - rewrite Hl. destruct (input_stream c =? 0) eqn:Ei; simp; rewrite ?Hn', ?Hl;
      (do 2 eexists; split; [reflexivity|]; simp; rewrite <- ?app_assoc;
       split; [reflexivity|]; simp; repeat split).
  - destruct (vm w) as [b can] eqn:Ev.
    destruct b, can, (input_stream c =? 0) eqn:Ei;
      repeat (progress (simp; rewrite ?Eg, ?Ev, ?Hl, ?Ei, ?Hn', ?lookup_insert_eq));
      do 2 eexists; (split; [reflexivity|]); simp; rewrite <- ?app_assoc;
      (split; [reflexivity|]); simp; repeat split.
Qed.

(** X18. [inputStreamClose] releases the native side only.  On a live
    context, in every state of the VM binding, it calls no method of the
    Java stream, so the stream is neither read nor closed; it leaves the
    stream, the arrays and the pending exception as they were, touches
    no other block of the native heap, and removes no global reference
    other than the one that the context held. *)
Theorem inputStreamClose_leaves_stream_alone
    (w : World JStream) (ctx : Z) (c : input_stream_context) :
  live_context_at w ctx c ->
  exists w' evs,
    inputStreamClose ctx w = Ok tt w'
    /\ trace w' = (trace w ++ evs)%list
    /\ count_events is_stream_call evs = 0%nat
    /\ stream w' = stream w
    /\ arrays w' = arrays w
    /\ pending w' = pending w
    /\ (forall p, p <> ctx -> heap w' !! p = heap w !! p)
    /\ (forall r, r <> input_stream c -> r ∈ globals w' <-> r ∈ globals w).
Proof.
  intros Hlive.
  destruct (inputStreamClose_frame w ctx c Hlive)
    as (w' & evs & Hrun & Htr & Hcnt & _ & Hs & Ha & Hp & _).
  destruct (inputStreamClose_live JStream w ctx c Hlive)
    as (w'' & evs' & Hrun' & _ & Hheap & _ & _ & _ & _ & _ & _ & _ & Hglob & _).
  rewrite Hrun in Hrun'. injection Hrun' as <-.
  exists w', evs. repeat (split; [assumption|]).
  split.
  - intros p Hp'. rewrite Hheap. apply lookup_delete_ne. congruence.
  - intros r Hr. rewrite Hglob. destruct (close_releases w c); [|reflexivity].
    rewrite elem_of_difference, elem_of_singleton. tauto.
Qed.

End Closing.

(** ** The transcription call *)

Section Transcription.

Variable JStream : Type.
Variable host : Host JStream.

(** X19. [fullTranscribe] leaves the native memory as it found it: on
    every path, with a null or a valid handle, with or without the
    samples, whatever [whisper_full] and [whisper_get_timings] answer,
    the buffer of samples is given back and the timings struct is
    freed, so the native heap and the set of borrowed buffers are what
    they were, and the caller's array is unchanged. *)
Theorem fullTranscribe_leaves_native_memory_balanced
    (w : World JStream) (env context_ptr num_threads audio_data : Z) (samples : list Z) :
  env <> NULL -> float_arrays w !! audio_data = Some samples ->
  blocks_below_next w ->
  exists w',
    Java_com_whispercpp_whisper_WhisperLib_fullTranscribe
      host env context_ptr num_threads audio_data w = Ok tt w'
    /\ heap w' = heap w
    /\ borrowed w' = borrowed w
    /\ float_arrays w' = float_arrays w.
Proof.
  intros He Hs Hfresh. apply next_blocks_unused in Hfresh as (_ & Hfh & Hfb).
  unfold NULL in *. apply Z.eqb_neq in He as He'.
  unfold Java_com_whispercpp_whisper_WhisperLib_fullTranscribe,
    GetFloatArrayElements, GetArrayLength, ReleaseFloatArrayElements,
    whisper_reset_timings, call_whisper_full, whisper_get_timings,
    log_timings, free, fresh_block.
  jni. rewrite He', Hs.
  destruct (float_elements_fail host w) eqn:Ef; simp; rewrite Hs; simp;
    destruct (Z.eqb_spec context_ptr 0) as [Ec|Ec]; simp;
    repeat match goal with
      | |- context [to_jint (whisper_full host ?x) =? 0] =>
          destruct (to_jint (whisper_full host x) =? 0) eqn:?; simp
      | |- context [whisper_get_timings_fails host ?x] =>
          destruct (whisper_get_timings_fails host x) eqn:?; simp
      end;
    repeat (progress (simp; rewrite ?He', ?lookup_insert_eq));
    (eexists; split; [reflexivity|]; simp;
     rewrite ?delete_insert_eq, ?(delete_id _ _ Hfh), ?(delete_id _ _ Hfb);
     repeat split).
Qed.

(** X20. With a handle and the samples in hand, [fullTranscribe] resets
    the timings and then calls [whisper_full] once, with the handle, the
    buffer of samples, the length of the caller's array and these
    parameters: greedy sampling, the thread count of the caller, language
    [en], timestamps printed, no translation, no context kept.  The
    release of the buffer with [JNI_ABORT] is its last action. *)
Theorem fullTranscribe_calls_engine_with_samples
    (w : World JStream) (env context_ptr num_threads audio_data : Z) (samples : list Z) :
  env <> NULL -> context_ptr <> NULL ->
  float_arrays w !! audio_data = Some samples ->
  float_elements_fail host w = false ->
  exists w' rest,
    Java_com_whispercpp_whisper_WhisperLib_fullTranscribe
      host env context_ptr num_threads audio_data w = Ok tt w'
    /\ trace w'
       = (trace w ++
          [EGetFloatArrayElements audio_data (fresh_block w);
           Elog LOG_INFO
             "WhisperJNI: fullTranscribe called with: n_threads=%d, audio_length=%d, print_realtime=%d";
           Ewhisper_reset_timings context_ptr;
           Elog LOG_INFO "WhisperJNI: Preparing to call whisper_full C function. Context: %p";
           Ewhisper_full context_ptr
             (mk_whisper_full_params WHISPER_SAMPLING_GREEDY false false true false false
                "en" num_threads 0 true false)
             (fresh_block w) (Z.of_nat (length samples))]
          ++ rest)%list
    /\ count_events is_whisper_full rest = 0%nat
    /\ last rest = Some (EReleaseFloatArrayElements audio_data (fresh_block w) JNI_ABORT).
Proof.
  intros He Hc Hs Hf.
  unfold NULL in *. apply Z.eqb_neq in He as He'. apply Z.eqb_neq in Hc as Hc'.
  unfold Java_com_whispercpp_whisper_WhisperLib_fullTranscribe,
    GetFloatArrayElements, GetArrayLength, ReleaseFloatArrayElements,
    whisper_reset_timings, call_whisper_full, whisper_get_timings,
    log_timings, free, fresh_block.
  jni. rewrite He', Hs, Hf. simp. rewrite Hs. simp. rewrite Hc'. simp.
  repeat match goal with
    | |- context [to_jint (whisper_full host ?x) =? 0] =>
        destruct (to_jint (whisper_full host x) =? 0) eqn:?; simp
    | |- context [whisper_get_timings_fails host ?x] =>
        destruct (whisper_get_timings_fails host x) eqn:?; simp
    end;
    repeat (progress (simp; rewrite ?He', ?lookup_insert_eq));
    (do 2 eexists; split; [reflexivity|]; simp; rewrite <- ?app_assoc;
     split; [reflexivity|]; split; reflexivity).
Qed.

End Transcription.

(** ** The integer helpers *)

(** X21. The two integer helpers agree with the minimum and the
    maximum of the integers: [min] is never above [max], and between
    them they return both arguments. *)
Theorem min_max_order (a b : Z) :
  min a b = Z.min a b
  /\ max a b = Z.max a b
  /\ min a b <= max a b
  /\ min a b + max a b = a + b.
Proof.
  unfold min, max. rewrite Z.gtb_ltb.
  destruct (Z.ltb_spec a b), (Z.ltb_spec b a); lia.
Qed.

(** ** Strings and handles *)

Section EntryPointProperties.

Variable JStream : Type.
Variable host : Host JStream.
Variable engine : Engine JStream.

(** X22. [freeContext] ignores the null handle: it logs a warning and
    returns without reaching the engine, whatever the engine would do.
    Every other handle is passed to [whisper_free] exactly once, between
    two log lines, with no test of what the handle points to; the call
    returns when [whisper_free] does. *)
Theorem freeContext_frees_once_unless_null
    (p : Process JStream) (env context_ptr_long : Z) (w' : World JStream) :
  (context_ptr_long <> 0 ->
   whisper_free engine context_ptr_long
     (emit (Elog LOG_INFO "JNI: [REGULAR MODE] Calling whisper_free on context: %p")
        (world p)) = Ok tt w') ->
  Java_com_whispercpp_whisper_WhisperLib_freeContext engine env context_ptr_long p
  = (if context_ptr_long =? 0
     then Done tt (set_world
                     (emit (Elog LOG_WARN
                              "JNI: freeContext called with NULL pointer, doing nothing.")
                        (world p)) p)
     else Done tt (set_world
                     (emit (Elog LOG_INFO
                              "JNI: [REGULAR MODE] whisper_free completed for context: %p") w')
                     (record_call (Cwhisper_free context_ptr_long) p))).
Proof.
  intros Hfree.
  unfold Java_com_whispercpp_whisper_WhisperLib_freeContext.
  destruct (Z.eqb_spec context_ptr_long 0) as [_|Hn]; [reflexivity|].
  jstr. jni. simp. rewrite (Hfree Hn). reflexivity.
Qed.

(** The initializer reads its path where the pointer points: called on
    a buffer that has been released, it is a use after free, and nothing
    of it runs. *)
Lemma call_whisper_init_from_asset_released
    (p : Process JStream) (env assetManager asset_path : Z) :
  asset_path <> NULL -> utf_chars p !! asset_path = None ->
  call_whisper_init_from_asset host env assetManager asset_path p
  = Fault UseAfterFree (record_call (Cwhisper_init_from_asset assetManager asset_path) p).
Proof.
  intros Hn Hgone. unfold NULL in *. apply Z.eqb_neq in Hn.
  unfold call_whisper_init_from_asset. jstr. simp. rewrite Hn, Hgone. reflexivity.
Qed.

(** X23. [initContextFromAsset] pairs the acquisition of the path with
    its release.  When the path string is valid and its bytes could be
    obtained, the calls are, in this order: the acquisition, the
    initializer on the buffer obtained, the release of that buffer.  The
    call returns what [whisper_init_from_asset] returned for the bytes
    of the string, the null handle of a failed open included, and no
    buffer is outstanding afterwards. *)
Theorem initContextFromAsset_releases_path
    (p : Process JStream) (env assetManager asset_path_str : Z)
    (path : string) (handle : Z) (w' : World JStream) :
  env <> NULL ->
  jstrings p !! asset_path_str = Some path ->
  utf_chars_fail engine p = false ->
  utf_chars p !! fresh_chars p = None ->
  whisper_init_from_asset host env assetManager path (world p) = Ok handle w' ->
  exists p',
    Java_com_whispercpp_whisper_WhisperLib_initContextFromAsset
      host engine env assetManager asset_path_str p = Done handle p'
    /\ world p' = w'
    /\ calls p'
       = (calls p ++
          [CGetStringUTFChars asset_path_str (fresh_chars p);
           Cwhisper_init_from_asset assetManager (fresh_chars p);
           CReleaseStringUTFChars asset_path_str (fresh_chars p)])%list
    /\ utf_chars p' = utf_chars p
    /\ jstrings p' = jstrings p.
Proof.
  intros He Hstr Hok Hfresh Hinit. unfold NULL in *. apply Z.eqb_neq in He.
  unfold Java_com_whispercpp_whisper_WhisperLib_initContextFromAsset,
    call_whisper_init_from_asset.
  jstr. rewrite He, Hstr, Hok. cbn -[whisper_init_from_asset]. rewrite lookup_insert_eq.
  cbn -[whisper_init_from_asset]. rewrite Hinit. simp. rewrite lookup_insert_eq.
  simp. rewrite ?Z.eqb_refl, ?Pos.eqb_refl. simp.
  eexists. split; [reflexivity|]. simp. rewrite <- !app_assoc.
  split; [reflexivity|]. split; [reflexivity|].
  split; [|reflexivity].
  rewrite delete_insert_eq. apply delete_id. exact Hfresh.
Qed.

(** X24. [initContext] does the same for a file path: the engine
    receives the bytes of the Java string, its handle is returned as it
    is, and the buffer is released once, after the engine has
    returned. *)
Theorem initContext_releases_path
    (p : Process JStream) (env model_path_str : Z)
    (path : string) (handle : Z) (w' : World JStream) :
  env <> NULL ->
  jstrings p !! model_path_str = Some path ->
  utf_chars_fail engine p = false ->
  utf_chars p !! fresh_chars p = None ->
  whisper_init_from_file_with_params engine (Some path) (world p) = Ok handle w' ->
  exists p',
    Java_com_whispercpp_whisper_WhisperLib_initContext engine env model_path_str p
    = Done handle p'
    /\ world p' = w'
    /\ calls p'
       = (calls p ++
          [CGetStringUTFChars model_path_str (fresh_chars p);
           Cwhisper_init_from_file_with_params (Some path);
           CReleaseStringUTFChars model_path_str (fresh_chars p)])%list
    /\ utf_chars p' = utf_chars p
    /\ jstrings p' = jstrings p.
Proof.
  intros He Hstr Hok Hfresh Hinit. unfold NULL in *. apply Z.eqb_neq in He.
  unfold Java_com_whispercpp_whisper_WhisperLib_initContext.
  jstr. rewrite He, Hstr, Hok. simp. rewrite lookup_insert_eq. simp.
  rewrite Hinit. simp. rewrite lookup_insert_eq. simp.
  rewrite ?Z.eqb_refl, ?Pos.eqb_refl. simp.
  eexists. split; [reflexivity|]. simp. rewrite <- !app_assoc.
  split; [reflexivity|]. split; [reflexivity|].
  split; [|reflexivity].
  rewrite delete_insert_eq. apply delete_id. exact Hfresh.
Qed.

(** X25. [getSystemInfo] never hands a null pointer to [NewStringUTF]:
    it asks the engine once and builds one Java string, from the text of
    the engine when there is one and from the fixed error text
    otherwise; a reference that is not null refers to that string. *)
Theorem getSystemInfo_never_passes_null
    (p : Process JStream) (env : Z) (info : option string) (w1 : World JStream) :
  env <> NULL ->
  whisper_print_system_info engine
    (emit (Elog LOG_INFO "Java_com_whispercpp_whisper_WhisperLib_getSystemInfo CALLED")
       (world p)) = Ok info w1 ->
  exists r p',
    Java_com_whispercpp_whisper_WhisperLib_getSystemInfo host engine env p = Done r p'
    /\ calls p'
       = (calls p ++
          [Cwhisper_print_system_info;
           CNewStringUTF
             (Some (match info with
                    | Some text => text
                    | None => "Error: System info was NULL."
                    end)) r])%list
    /\ (r <> NULL ->
        jstrings p' !! r
        = Some (new_string engine
                  (match info with
                   | Some text => text
                   | None => "Error: System info was NULL."
                   end))).
Proof.
  intros He Hinfo. unfold NULL in *. apply Z.eqb_neq in He.
  unfold Java_com_whispercpp_whisper_WhisperLib_getSystemInfo.
  jstr. jni. simp. rewrite Hinfo. simp.
  destruct info as [text|]; simp; rewrite He;
    match goal with
    | |- context [java_alloc_fails host ?x] => destruct (java_alloc_fails host x)
    end; simp;
    (do 2 eexists; split; [reflexivity|]); simp; rewrite <- ?app_assoc;
    (split; [reflexivity|]); intros Hr; try congruence; apply lookup_insert_eq.
Qed.

(** X26. [getTextSegment] hands the handle and the index to the engine
    as they are, with no test of either, and wraps what the engine
    answers: when the engine has text for the segment and the VM has
    memory, the result is a new reference to the Java string built from
    that text. *)
Theorem getTextSegment_wraps_engine_text
    (p : Process JStream) (env context_ptr index : Z) (text : string) (w1 : World JStream) :
  env <> NULL ->
  whisper_full_get_segment_text engine context_ptr index (world p) = Ok (Some text) w1 ->
  java_alloc_fails host w1 = false ->
  exists p',
    Java_com_whispercpp_whisper_WhisperLib_getTextSegment host engine env context_ptr index p
    = Done (fresh_ref w1) p'
    /\ jstrings p' !! fresh_ref w1 = Some (new_string engine text)
    /\ calls p'
       = (calls p ++
          [Cwhisper_full_get_segment_text context_ptr index;
           CNewStringUTF (Some text) (fresh_ref w1)])%list
    /\ heap (world p') = heap w1
    /\ utf_chars p' = utf_chars p.
Proof.
  intros He Htext Halloc. unfold NULL in *. apply Z.eqb_neq in He.
  unfold Java_com_whispercpp_whisper_WhisperLib_getTextSegment.
  jstr. jni. simp. rewrite Htext. simp. rewrite He, Halloc. simp.
  eexists. split; [reflexivity|]. simp. rewrite <- ?app_assoc.
  split; [apply lookup_insert_eq|]. repeat split.
Qed.

End EntryPointProperties.

(** * Concrete runs *)

(** C1, counterexample. With the counter at [2 ^ 64 - 1] a read of one
    byte returns 1 and leaves the counter at 0, so the counter did not
    grow by the returned count. *)
Lemma inputStreamRead_offset_wraps :
  (exists w',
      inputStreamRead Demo.host 16 1 Demo.w_wrapping = Ok (1, [x2a]) w'
      /\ heap w' !! 16 = Some (Bcontext (Demo.live_context 0)))
  /\ ~ read_advances_offset_exactly Demo.host Demo.w_wrapping 16 1.
Proof.
  assert (Hrun : exists w',
             inputStreamRead Demo.host 16 1 Demo.w_wrapping = Ok (1, [x2a]) w'
             /\ heap w' !! 16 = Some (Bcontext (Demo.live_context 0))).
  { eexists. split; vm_compute; reflexivity. }
  split; [exact Hrun|].
  destruct Hrun as (w' & Hrun & Hheap). intros Hclaim.
  destruct (Hclaim (Demo.live_context (SIZE_MODULUS - 1)) 1 [x2a] w') as (c' & Hc' & Hoff).
  - split; [discriminate | vm_compute; reflexivity].
  - exact Hrun.
  - rewrite Hheap in Hc'. injection Hc' as <-. vm_compute in Hoff. discriminate.
Qed.

(** C2, the failing input. The VM cannot allocate the transient array:
    the adapter returns 0, and the exception raised by the failed
    [NewByteArray] is still pending, no [ExceptionClear] having been
    made. *)
Lemma inputStreamRead_alloc_failure_keeps_exception :
  exists w',
    inputStreamRead Demo.host_java_oom 16 4096 Demo.w_reading
    = Ok (0, []) w'
    /\ pending w' = true
    /\ trace w' =
         [ENewByteArray 4096 NULL;
          Elog LOG_WARN "inputStreamRead: Failed to allocate NewByteArray for reading"].
Proof.
  eexists. split; [vm_compute; reflexivity|].
  split; vm_compute; reflexivity.
Qed.

(** C3, counterexample. A process whose VM pointer is null, on a thread
    that the VM does not know and could attach: the call on the live
    context at address 16 returns after the error line, the warning
    about the leaked reference and the [free].  It makes no attempt to
    attach, the thread is as unbound afterwards as before, and the
    reference is still in the table. *)
Lemma inputStreamClose_no_vm_never_attaches :
  (exists w',
      inputStreamClose 16 Demo.w_no_vm_detached = Ok tt w'
      /\ live_context_at Demo.w_no_vm_detached 16 (Demo.live_context 0)
      /\ vm_binding (vm Demo.w_no_vm_detached) = Unbound
      /\ vm_can_attach (vm Demo.w_no_vm_detached) = true
      /\ trace w'
         = (trace Demo.w_no_vm_detached ++
            [Elog LOG_INFO "JNI: inputStreamClose called for context %p";
             Elog LOG_ERROR "JNI: inputStreamClose - g_vm is NULL. Cannot get JNIEnv.";
             Elog LOG_WARN
               "JNI: inputStreamClose - Leaking GlobalRef for input_stream %p because g_vm is NULL.";
             Efree 16])%list
      /\ count_events is_attach (trace w') = 0%nat
      /\ vm w' = vm Demo.w_no_vm_detached
      /\ globals w' = globals Demo.w_no_vm_detached)
  /\ ~ close_attaches_unbound_thread Demo.w_no_vm_detached 16.
Proof.
  assert (Hrun : exists w',
             inputStreamClose 16 Demo.w_no_vm_detached = Ok tt w'
             /\ live_context_at Demo.w_no_vm_detached 16 (Demo.live_context 0)
             /\ vm_binding (vm Demo.w_no_vm_detached) = Unbound
             /\ vm_can_attach (vm Demo.w_no_vm_detached) = true
             /\ trace w'
                = (trace Demo.w_no_vm_detached ++
                   [Elog LOG_INFO "JNI: inputStreamClose called for context %p";
                    Elog LOG_ERROR "JNI: inputStreamClose - g_vm is NULL. Cannot get JNIEnv.";
                    Elog LOG_WARN
                      "JNI: inputStreamClose - Leaking GlobalRef for input_stream %p because g_vm is NULL.";
                    Efree 16])%list
             /\ count_events is_attach (trace w') = 0%nat
             /\ vm w' = vm Demo.w_no_vm_detached
             /\ globals w' = globals Demo.w_no_vm_detached).
  { eexists. split; [vm_compute; reflexivity|]. ground. }
  split; [exact Hrun|].
  destruct Hrun as (w' & Hclose & Hlive & Hb & _ & Htr & _). intros Hclaim.
  specialize (Hclaim _ _ _ Hlive Hb Hclose Htr). vm_compute in Hclaim. lia.
Qed.

(** C7, counterexample. After one call has released the context at
    address 16, a second call on the same pointer faults on the released
    struct, and the [free] it would go on to make is a second [free] of
    the same block: calling close twice is not harmless. *)
Lemma inputStreamClose_twice_faults :
  (exists w1 w2,
      inputStreamClose 16 Demo.w_reading = Ok tt w1
      /\ inputStreamClose 16 w1 = Crash UseAfterFree w2
      /\ free 16 w1 = Crash DoubleFree w1)
  /\ ~ close_twice_is_safe Demo.w_reading 16.
Proof.
  assert (Hrun : exists w1 w2,
             inputStreamClose 16 Demo.w_reading = Ok tt w1
             /\ inputStreamClose 16 w1 = Crash UseAfterFree w2
             /\ free 16 w1 = Crash DoubleFree w1).
  { do 2 eexists. split; [vm_compute; reflexivity|]. split; vm_compute; reflexivity. }
  split; [exact Hrun|].
  destruct Hrun as (w1 & w2 & H1 & H2 & _). intros Hclaim.
  destruct (Hclaim w1 H1) as (w3 & H3). rewrite H2 in H3. discriminate.
Qed.

(** From library load to a first context: [JNI_OnLoad] succeeds on the
    fresh process, and the preparation then builds a context that is
    live and bound. *)
Example load_then_prepare_context :
  match JNI_OnLoad Demo.host 1 Demo.w_boot with
  | Ok rc w1 =>
      rc = JNI_VERSION_1_6
      /\ match initContextFromInputStream_loader Demo.host thread_env 5 w1 with
         | Ok (Some l) w2 =>
             heap w2 !! context l
             = Some (Bcontext (mk_input_stream_context 0 thread_env 12
                                 MID_InputStream_available MID_InputStream_read))
         | _ => False
         end
  | _ => False
  end.
Proof. vm_compute. split; reflexivity. Qed.

(** After [JNI_OnUnload] the VM pointer is gone: closing a context that
    is still live frees the struct and leaves its foreign reference in
    the table of global references. *)
Example close_after_unload_leaks_reference :
  match JNI_OnLoad Demo.host 1 Demo.w_boot with
  | Ok _ w1 =>
      match initContextFromInputStream_loader Demo.host thread_env 5 w1 with
      | Ok (Some l) w2 =>
          match JNI_OnUnload w2 with
          | Ok _ w3 =>
              match inputStreamClose (context l) w3 with
              | Ok _ w4 =>
                  heap w4 !! context l = None
                  /\ globals w4 = {[ 12 ]}
                  /\ count_events is_DeleteGlobalRef (drop (length (trace w3)) (trace w4)) = 0%nat
              | _ => False
              end
          | _ => False
          end
      | _ => False
      end
  | _ => False
  end.
Proof. vm_compute. repeat split. Qed.

(** The preparation on the five byte stream does reach the probe, with
    the context at the address that [malloc] handed out. *)
Example init_prepares_loader_at_fresh_block :
  match initContextFromInputStream_loader Demo.host thread_env 5 Demo.w_reading with
  | Ok (Some l) w1 =>
      context l = fresh_block Demo.w_reading
      /\ count_events is_stream_call (trace w1) = 1%nat
  | _ => False
  end.
Proof. vm_compute. split; reflexivity. Qed.

(** The whole stream-backed path on a stream of five bytes, with an
    engine that wants a four byte header: the engine gets its handle and
    the context, still live, has counted four bytes. *)
Example init_from_stream_reads_header :
  exists w',
    Java_com_whispercpp_whisper_WhisperLib_initContextFromInputStream
      Demo.host thread_env 5 Demo.w_reading = Ok 4096 w'
    /\ heap w' !! 32
       = Some (Bcontext (mk_input_stream_context 4 thread_env 10
                           MID_InputStream_available MID_InputStream_read))
    /\ stream w' = [x2e]
    /\ count_events is_stream_call (trace w') = 2%nat.
Proof. eexists. split; [vm_compute; reflexivity|]. ground. Qed.

(** The same path on a stream of two bytes: the engine fails after a
    short read and closes the loader, so the initializer returns the
    null handle with the struct freed once and the foreign reference
    released once. *)
Example init_from_short_stream_closes_once :
  exists w',
    Java_com_whispercpp_whisper_WhisperLib_initContextFromInputStream
      Demo.host thread_env 5 (Demo.world 0 [x01; x02] Demo.attached_vm 1) = Ok NULL w'
    /\ heap w' !! 32 = None
    /\ globals w' = globals (Demo.world 0 [x01; x02] Demo.attached_vm 1)
    /\ count_events is_free (trace w') = 1%nat
    /\ count_events is_DeleteGlobalRef (trace w') = 1%nat.
Proof. eexists. split; [vm_compute; reflexivity|]. ground. Qed.

(** A read from a stream whose [read] raises: 0 bytes, the exception
    described and cleared, the counter where it was. *)
Example read_from_broken_stream :
  exists w',
    inputStreamRead Demo.host_broken_stream 16 3 Demo.w_reading = Ok (0, []) w'
    /\ pending w' = false
    /\ heap w' = heap Demo.w_reading
    /\ trace w' =
         [ENewByteArray 3 10; ECallRead 7 10 0 3;
          Elog LOG_WARN "inputStreamRead: Exception occurred during Java InputStream.read()";
          EExceptionDescribe; EExceptionClear; EDeleteLocalRef 10].
Proof. eexists. split; [vm_compute; reflexivity|]. ground. Qed.

(** * The theorems at concrete inputs *)

Lemma inputStreamRead_zero_size_witness :
  live_context_at Demo.w_reading 16 (Demo.live_context 0)
  /\ inputStreamRead Demo.host 16 0 Demo.w_reading = Ok (0, []) Demo.w_reading.
Proof.
  assert (H : live_context_at Demo.w_reading 16 (Demo.live_context 0)) by ground.
  split; [exact H|].
  exact (inputStreamRead_zero_size (list byte) Demo.host Demo.w_reading 16 _ H).
Defined.

Lemma inputStreamRead_count_and_offset_witness :
  (live_context_at Demo.w_reading 16 (Demo.live_context 0)
   /\ bound_context (Demo.live_context 0)
   /\ 0 <= offset (Demo.live_context 0) < SIZE_MODULUS
   /\ 0 <= 3 < SIZE_MODULUS
   /\ java_read_result Demo.host (stream Demo.w_reading) (to_jint 3) 0 (to_jint 3)
      <= to_jint 3)
  /\ exists n out w',
       inputStreamRead Demo.host 16 3 Demo.w_reading = Ok (n, out) w'
       /\ 0 <= n <= 3
       /\ Z.of_nat (length out) = n
       /\ heap w' !! 16
          = Some (Bcontext (set_offset (wrap_size (offset (Demo.live_context 0) + n))
                              (Demo.live_context 0)))
       /\ (forall p, p <> 16 -> heap w' !! p = heap Demo.w_reading !! p)
       /\ (offset (Demo.live_context 0) + n < SIZE_MODULUS ->
           heap w' !! 16
           = Some (Bcontext (set_offset (offset (Demo.live_context 0) + n)
                               (Demo.live_context 0)))).
Proof.
  assert (H1 : live_context_at Demo.w_reading 16 (Demo.live_context 0)) by ground.
  assert (H2 : bound_context (Demo.live_context 0)) by ground.
  assert (H3 : 0 <= offset (Demo.live_context 0) < SIZE_MODULUS) by ground.
  assert (H4 : 0 <= 3 < SIZE_MODULUS) by ground.
  assert (H5 : java_read_result Demo.host (stream Demo.w_reading) (to_jint 3) 0 (to_jint 3)
               <= to_jint 3) by ground.
  split; [auto|].
  exact (inputStreamRead_count_and_offset (list byte) Demo.host
           Demo.w_reading 16 (Demo.live_context 0) 3 H1 H2 H3 H4 H5).
Defined.

Lemma inputStreamEof_iff_nothing_available_witness :
  (live_context_at Demo.w_reading 16 (Demo.live_context 0)
   /\ bound_context (Demo.live_context 0))
  /\ exists b w',
       inputStreamEof Demo.host 16 Demo.w_reading = Ok b w'
       /\ (b = true <-> java_available_result Demo.host (stream Demo.w_reading) <= 0)
       /\ heap w' = heap Demo.w_reading
       /\ heap w' !! 16 = Some (Bcontext (Demo.live_context 0))
       /\ arrays w' = arrays Demo.w_reading
       /\ trace w' = (trace Demo.w_reading
                        ++ [ECallAvailable (input_stream (Demo.live_context 0))])%list
       /\ stream w' = snd (stream_available Demo.host (stream Demo.w_reading))
       /\ (forall (X : Type) (position : list byte -> X),
             position (snd (stream_available Demo.host (stream Demo.w_reading)))
             = position (stream Demo.w_reading) ->
             position (stream w') = position (stream Demo.w_reading)).
Proof.
  assert (H1 : live_context_at Demo.w_reading 16 (Demo.live_context 0)) by ground.
  assert (H2 : bound_context (Demo.live_context 0)) by ground.
  split; [auto|].
  exact (inputStreamEof_iff_nothing_available (list byte) Demo.host
           Demo.w_reading 16 (Demo.live_context 0) H1 H2).
Defined.

Lemma inputStreamClose_binding_protocol_witness :
  live_context_at Demo.w_detached 16 (Demo.live_context 0)
  /\ exists w' evs,
       inputStreamClose 16 Demo.w_detached = Ok tt w'
       /\ trace w' = (trace Demo.w_detached ++ evs)%list
       /\ count_events is_attach evs
          = (if negb (g_vm Demo.w_detached =? NULL)%Z
                && is_unbound (vm Demo.w_detached) then 1 else 0)%nat
       /\ count_events is_attach_ok evs
          = (if negb (g_vm Demo.w_detached =? NULL)%Z
                && is_unbound (vm Demo.w_detached)
                && vm_can_attach (vm Demo.w_detached) then 1 else 0)%nat
       /\ (g_vm Demo.w_detached = NULL
           \/ (vm_binding (vm Demo.w_detached) = Unbound
               /\ vm_can_attach (vm Demo.w_detached) = false) ->
           count_events is_DeleteGlobalRef evs = 0%nat
           /\ globals w' = globals Demo.w_detached
           /\ count_events is_free evs = 1%nat
           /\ heap w' = delete 16 (heap Demo.w_detached))
       /\ count_events is_detach evs = count_events is_attach_ok evs
       /\ (count_events is_detach evs = 1%nat -> last evs = Some EDetachCurrentThread)
       /\ vm w' = vm Demo.w_detached.
Proof.
  assert (H1 : live_context_at Demo.w_detached 16 (Demo.live_context 0)) by ground.
  split; [exact H1|].
  exact (inputStreamClose_binding_protocol (list byte)
           Demo.w_detached 16 (Demo.live_context 0) H1).
Defined.

Lemma inputStreamClose_null_context_or_no_vm_witness :
  (live_context_at Demo.w_no_vm 16 (Demo.live_context 0)
   /\ g_vm Demo.w_no_vm = NULL)
  /\ exists w' evs,
       inputStreamClose 16 Demo.w_no_vm = Ok tt w'
       /\ trace w' = (trace Demo.w_no_vm ++ evs)%list
       /\ heap w' = delete 16 (heap Demo.w_no_vm)
       /\ count_events (is_free_of 16) evs = 1%nat
       /\ count_events is_DeleteGlobalRef evs = 0%nat
       /\ globals w' = globals Demo.w_no_vm
       /\ count_events is_attach evs = 0%nat
       /\ vm w' = vm Demo.w_no_vm.
Proof.
  assert (H1 : live_context_at Demo.w_no_vm 16 (Demo.live_context 0)) by ground.
  assert (H2 : g_vm Demo.w_no_vm = NULL) by ground.
  split; [auto|].
  exact (proj2 (inputStreamClose_null_context_or_no_vm (list byte))
           Demo.w_no_vm 16 (Demo.live_context 0) H1 H2).
Defined.

Lemma inputStreamClose_frees_once_then_dangles_witness :
  live_context_at Demo.w_unattachable 16 (Demo.live_context 0)
  /\ exists w1 evs,
       inputStreamClose 16 Demo.w_unattachable = Ok tt w1
       /\ trace w1 = (trace Demo.w_unattachable ++ evs)%list
       /\ count_events is_free evs = 1%nat
       /\ count_events (is_free_of 16) evs = 1%nat
       /\ (count_events is_DeleteGlobalRef evs <= 1)%nat
       /\ heap w1 !! 16 = None
       /\ exists w2, inputStreamClose 16 w1 = Crash UseAfterFree w2.
Proof.
  assert (H1 : live_context_at Demo.w_unattachable 16 (Demo.live_context 0)) by ground.
  split; [exact H1|].
  exact (inputStreamClose_frees_once_then_dangles (list byte)
           Demo.w_unattachable 16 (Demo.live_context 0) H1).
Defined.

Lemma initContextFromInputStream_null_context_skips_probe_witness :
  (g_inputStreamClass Demo.w_reading <> NULL
   /\ g_midInputStreamAvailable Demo.w_reading <> MID_NULL
   /\ g_midInputStreamRead Demo.w_reading <> MID_NULL
   /\ malloc_fails Demo.host_native_oom Demo.w_reading = true)
  /\ exists w',
       Java_com_whispercpp_whisper_WhisperLib_initContextFromInputStream
         Demo.host_native_oom thread_env 5 Demo.w_reading = Ok NULL w'
       /\ w' = emit (Elog LOG_WARN "Failed to allocate memory for input_stream_context")
                 (emit (Emalloc NULL) Demo.w_reading)
       /\ count_events is_warning
            (drop (length (trace Demo.w_reading)) (trace w')) = 1%nat
       /\ count_events is_stream_call
            (drop (length (trace Demo.w_reading)) (trace w')) = 0%nat
       /\ count_events is_engine_call
            (drop (length (trace Demo.w_reading)) (trace w')) = 0%nat
       /\ heap w' = heap Demo.w_reading.
Proof.
  assert (H1 : g_inputStreamClass Demo.w_reading <> NULL) by ground.
  assert (H2 : g_midInputStreamAvailable Demo.w_reading <> MID_NULL) by ground.
  assert (H3 : g_midInputStreamRead Demo.w_reading <> MID_NULL) by ground.
  assert (H4 : malloc_fails Demo.host_native_oom Demo.w_reading = true) by ground.
  split; [auto|].
  exact (initContextFromInputStream_null_context_skips_probe (list byte)
           Demo.host_native_oom Demo.w_reading thread_env 5 H1 H2 H3 H4).
Defined.

Lemma whisper_init_from_asset_open_failure_witness :
  asset_open Demo.host "model.bin"
    (emit (Elog LOG_INFO "Loading model from asset '%s'\n") Demo.w_reading) = None
  /\ exists w',
       whisper_init_from_asset Demo.host thread_env 11 "model.bin" Demo.w_reading
       = Ok NULL w'
       /\ trace w' = (trace Demo.w_reading ++
            [Elog LOG_INFO "Loading model from asset '%s'\n";
             EAssetOpen "model.bin" NULL;
             Elog LOG_WARN "Failed to open '%s'\n"])%list
       /\ count_events is_engine_call
            (drop (length (trace Demo.w_reading)) (trace w')) = 0%nat
       /\ assets w' = assets Demo.w_reading
       /\ heap w' = heap Demo.w_reading.
Proof.
  assert (H1 : asset_open Demo.host "model.bin"
                 (emit (Elog LOG_INFO "Loading model from asset '%s'\n") Demo.w_reading)
               = None) by ground.
  split; [exact H1|].
  exact (whisper_init_from_asset_open_failure (list byte) Demo.host
           Demo.w_reading thread_env 11 "model.bin" H1).
Defined.

Lemma fullTranscribe_releases_samples_witness :
  (thread_env <> NULL
   /\ float_arrays Demo.w_reading !! 9 = Some [100; 200; 300])
  /\ exists w' evs,
       Java_com_whispercpp_whisper_WhisperLib_fullTranscribe
         Demo.host thread_env NULL 4 9 Demo.w_reading = Ok tt w'
       /\ trace w' = (trace Demo.w_reading ++ evs)%list
       /\ (NULL = NULL \/ float_elements_fail Demo.host Demo.w_reading = true ->
           count_events is_engine_call evs = 0%nat)
       /\ (NULL <> NULL -> float_elements_fail Demo.host Demo.w_reading = false ->
           count_events is_whisper_full evs = 1%nat)
       /\ (float_elements_fail Demo.host Demo.w_reading = false ->
           count_events is_release evs = 1%nat
           /\ last evs = Some (EReleaseFloatArrayElements 9
                                 (fresh_block Demo.w_reading) JNI_ABORT)
           /\ borrowed w' !! fresh_block Demo.w_reading = None)
       /\ (float_elements_fail Demo.host Demo.w_reading = true ->
           count_events is_release evs = 0%nat)
       /\ count_events (is_release_with JNI_ABORT) evs = count_events is_release evs
       /\ float_arrays w' = float_arrays Demo.w_reading.
Proof.
  assert (H1 : thread_env <> NULL) by ground.
  assert (H2 : float_arrays Demo.w_reading !! 9 = Some [100; 200; 300]) by ground.
  split; [auto|].
  exact (fullTranscribe_releases_samples (list byte) Demo.host
           Demo.w_reading thread_env NULL 4 9 [100; 200; 300] H1 H2).
Defined.

(** ** The further properties at concrete inputs *)

(** The worlds of the runs keep their references and their blocks below
    the next ones. *)
Lemma w_reading_refs_below_next : refs_below_next Demo.w_reading.
Proof.
  intros r Hr. unfold Demo.w_reading, Demo.world in Hr. simpl in Hr.
  apply elem_of_union in Hr as [Hr|Hr]; apply elem_of_singleton in Hr; subst r; reflexivity.
Qed.

Lemma w_reading_blocks_below_next : blocks_below_next Demo.w_reading.
Proof.
  split; intros p [x Hx]; unfold Demo.w_reading, Demo.world in Hx; simpl in Hx.
  - apply lookup_singleton_Some in Hx as [<- _]. reflexivity.
  - rewrite lookup_empty in Hx. discriminate.
Qed.

Lemma w_boot_refs_below_next : refs_below_next Demo.w_boot.
Proof.
  intros r Hr. unfold Demo.w_boot in Hr. simpl in Hr.
  apply not_elem_of_empty in Hr. contradiction.
Qed.

Lemma JNI_OnLoad_returns_witness :
  (1 <> NULL)
  /\ exists rc w',
      JNI_OnLoad Demo.host 1 Demo.w_boot = Ok rc w'
      /\ g_vm w' = 1
      /\ (rc = JNI_ERR
          \/ rc = JNI_VERSION_1_6
             /\ g_inputStreamClass w' <> NULL
             /\ g_inputStreamClass w' ∈ globals w'
             /\ g_midInputStreamAvailable w' = MID_InputStream_available
             /\ g_midInputStreamRead w' = MID_InputStream_read).
Proof.
  match goal with |- ?hyps /\ _ => assert (Hyps : hyps) end.
  { ground. }
  split; [exact Hyps|].
  exact (JNI_OnLoad_returns (list byte) Demo.host Demo.w_boot 1 Hyps).
Defined.

Lemma JNI_OnUnload_clears_globals_witness :
  (g_vm Demo.w_reading <> NULL
   /\ vm_binding (vm Demo.w_reading) = Bound)
  /\ exists w',
      JNI_OnUnload Demo.w_reading = Ok tt w'
      /\ g_vm w' = NULL
      /\ g_inputStreamClass w' = NULL
      /\ g_midInputStreamAvailable w' = MID_NULL
      /\ g_midInputStreamRead w' = MID_NULL
      /\ heap w' = heap Demo.w_reading
      /\ (g_inputStreamClass Demo.w_reading <> NULL ->
          globals w' = globals Demo.w_reading ∖ {[g_inputStreamClass Demo.w_reading]}).
Proof.
  match goal with |- ?hyps /\ _ => assert (Hyps : hyps) end.
  { split.
    - ground.
    - ground. }
  split; [exact Hyps|].
  destruct Hyps as (H1 & H2).
  exact (JNI_OnUnload_clears_globals (list byte) Demo.w_reading H1 H2).
Defined.

Lemma JNI_OnLoad_failure_caches_nothing_witness :
  (g_inputStreamClass Demo.w_boot_detached = NULL
   /\ JNI_OnLoad Demo.host 1 Demo.w_boot_detached = Ok JNI_ERR Demo.w_load_failed)
  /\ g_vm Demo.w_load_failed = 1
    /\ g_inputStreamClass Demo.w_load_failed = NULL
    /\ globals Demo.w_load_failed ⊆ globals Demo.w_boot_detached
    /\ heap Demo.w_load_failed = heap Demo.w_boot_detached
    /\ forall jenv input_stream_param,
         exists w'',
           Java_com_whispercpp_whisper_WhisperLib_initContextFromInputStream
             Demo.host jenv input_stream_param Demo.w_load_failed = Ok NULL w''
           /\ heap w'' = heap Demo.w_load_failed
           /\ globals w'' = globals Demo.w_load_failed
           /\ count_events is_warning (drop (length (trace Demo.w_load_failed)) (trace w'')) =
               1%nat.
Proof.
  match goal with |- ?hyps /\ _ => assert (Hyps : hyps) end.
  { split.
    - ground.
    - vm_compute. reflexivity. }
  split; [exact Hyps|].
  destruct Hyps as (H1 & H2).
  exact (JNI_OnLoad_failure_caches_nothing (list byte) Demo.host Demo.w_boot_detached
      Demo.w_load_failed 1 H1 H2).
Defined.

Lemma JNI_OnLoad_then_OnUnload_restores_witness :
  (refs_below_next Demo.w_boot
   /\ JNI_OnLoad Demo.host 1 Demo.w_boot = Ok JNI_VERSION_1_6 Demo.w_loaded)
  /\ exists w2,
      JNI_OnUnload Demo.w_loaded = Ok tt w2
      /\ g_vm w2 = NULL
      /\ g_inputStreamClass w2 = NULL
      /\ g_midInputStreamAvailable w2 = MID_NULL
      /\ g_midInputStreamRead w2 = MID_NULL
      /\ globals w2 = globals Demo.w_boot
      /\ heap w2 = heap Demo.w_boot.
Proof.
  match goal with |- ?hyps /\ _ => assert (Hyps : hyps) end.
  { split.
    - exact w_boot_refs_below_next.
    - vm_compute. reflexivity. }
  split; [exact Hyps|].
  destruct Hyps as (H1 & H2).
  exact (JNI_OnLoad_then_OnUnload_restores (list byte) Demo.host Demo.w_boot Demo.w_loaded 1 H1
      H2).
Defined.

Lemma JNI_OnUnload_without_env_releases_nothing_witness :
  (g_vm Demo.w_detached <> NULL
   /\ vm_binding (vm Demo.w_detached) <> Bound)
  /\ exists w',
      JNI_OnUnload Demo.w_detached = Ok tt w'
      /\ g_vm w' = g_vm Demo.w_detached
      /\ g_inputStreamClass w' = g_inputStreamClass Demo.w_detached
      /\ g_midInputStreamAvailable w' = g_midInputStreamAvailable Demo.w_detached
      /\ g_midInputStreamRead w' = g_midInputStreamRead Demo.w_detached
      /\ globals w' = globals Demo.w_detached
      /\ count_events is_DeleteGlobalRef (drop (length (trace Demo.w_detached)) (trace w')) =
          0%nat.
Proof.
  match goal with |- ?hyps /\ _ => assert (Hyps : hyps) end.
  { split.
    - ground.
    - ground. }
  split; [exact Hyps|].
  destruct Hyps as (H1 & H2).
  exact (JNI_OnUnload_without_env_releases_nothing (list byte) Demo.w_detached H1 H2).
Defined.

Lemma JNI_OnUnload_twice_faults_witness :
  (g_vm Demo.w_reading <> NULL
   /\ vm_binding (vm Demo.w_reading) = Bound)
  /\ exists w1 w2,
      JNI_OnUnload Demo.w_reading = Ok tt w1
      /\ JNI_OnUnload w1 = Crash NullPointer w2
      /\ globals w2 = globals w1.
Proof.
  match goal with |- ?hyps /\ _ => assert (Hyps : hyps) end.
  { split.
    - ground.
    - ground. }
  split; [exact Hyps|].
  destruct Hyps as (H1 & H2).
  exact (JNI_OnUnload_twice_faults (list byte) Demo.w_reading H1 H2).
Defined.

Lemma initContextFromInputStream_before_load_witness :
  (g_inputStreamClass Demo.w_boot = NULL
     \/ g_midInputStreamAvailable Demo.w_boot = MID_NULL
     \/ g_midInputStreamRead Demo.w_boot = MID_NULL)
  /\ exists w',
      Java_com_whispercpp_whisper_WhisperLib_initContextFromInputStream
        Demo.host thread_env 5 Demo.w_boot = Ok NULL w'
      /\ count_events is_warning (drop (length (trace Demo.w_boot)) (trace w')) = 1%nat
      /\ length (trace w') = S (length (trace Demo.w_boot))
      /\ heap w' = heap Demo.w_boot
      /\ next_block w' = next_block Demo.w_boot
      /\ globals w' = globals Demo.w_boot
      /\ stream w' = stream Demo.w_boot.
Proof.
  match goal with |- ?hyps /\ _ => assert (Hyps : hyps) end.
  { left. reflexivity. }
  split; [exact Hyps|].
  exact (initContextFromInputStream_before_load (list byte) Demo.host Demo.w_boot thread_env 5
      Hyps).
Defined.

Lemma initContextFromInputStream_without_global_ref_witness :
  (g_inputStreamClass Demo.w_reading <> NULL
   /\ g_midInputStreamAvailable Demo.w_reading <> MID_NULL
   /\ g_midInputStreamRead Demo.w_reading <> MID_NULL
   /\ malloc_fails Demo.host Demo.w_reading = false
   /\ thread_env <> NULL
   /\ (NULL = NULL \/ (forall w0, java_alloc_fails Demo.host w0 = true))
   /\ blocks_below_next Demo.w_reading)
  /\ exists w',
      Java_com_whispercpp_whisper_WhisperLib_initContextFromInputStream
        Demo.host thread_env NULL Demo.w_reading = Ok NULL w'
      /\ heap w' = heap Demo.w_reading
      /\ globals w' = globals Demo.w_reading
      /\ count_events (is_free_of (fresh_block Demo.w_reading))
          (drop (length (trace Demo.w_reading)) (trace w')) = 1%nat
      /\ count_events is_stream_call (drop (length (trace Demo.w_reading)) (trace w')) = 0%nat
      /\ count_events is_engine_call (drop (length (trace Demo.w_reading)) (trace w')) = 0%nat.
Proof.
  match goal with |- ?hyps /\ _ => assert (Hyps : hyps) end.
  { split; [|split; [|split; [|split; [|split; [|split]]]]].
    - ground.
    - ground.
    - ground.
    - ground.
    - ground.
    - left. reflexivity.
    - exact w_reading_blocks_below_next. }
  split; [exact Hyps|].
  destruct Hyps as (H1 & H2 & H3 & H4 & H5 & H6 & H7).
  exact (initContextFromInputStream_without_global_ref (list byte) Demo.host Demo.w_reading
      thread_env NULL H1 H2 H3 H4 H5 H6 H7).
Defined.

Lemma initContextFromInputStream_returns_engine_handle_witness :
  (initContextFromInputStream_loader Demo.host thread_env 5 Demo.w_reading = Ok
      (Some Demo.prepared_loader) Demo.w_prepared
   /\ whisper_init_with_params Demo.host Demo.prepared_loader
       (emit (Ewhisper_init_with_params (context Demo.prepared_loader)) Demo.w_prepared) = Ok
           4096 Demo.w_initialized)
  /\ exists w' logs,
      Java_com_whispercpp_whisper_WhisperLib_initContextFromInputStream
        Demo.host thread_env 5 Demo.w_reading = Ok 4096 w'
      /\ trace w' = (trace Demo.w_initialized ++ logs)%list
      /\ forallb is_log logs = true
      /\ heap w' = heap Demo.w_initialized
      /\ globals w' = globals Demo.w_initialized.
Proof.
  match goal with |- ?hyps /\ _ => assert (Hyps : hyps) end.
  { split.
    - apply (initContextFromInputStream_loader_from_run (list byte) Demo.host Demo.w_reading).
        vm_compute. reflexivity.
    - vm_compute. reflexivity. }
  split; [exact Hyps|].
  destruct Hyps as (H1 & H2).
  exact (initContextFromInputStream_returns_engine_handle (list byte) Demo.host Demo.w_reading
      Demo.w_prepared Demo.w_initialized thread_env 5 Demo.prepared_loader 4096 H1 H2).
Defined.

Lemma initContextFromInputStream_builds_bound_context_witness :
  (g_midInputStreamRead Demo.w_reading = MID_InputStream_read
   /\ initContextFromInputStream_loader Demo.host thread_env 5 Demo.w_reading = Ok
       (Some Demo.prepared_loader) Demo.w_prepared)
  /\ read Demo.prepared_loader = Some (inputStreamRead Demo.host)
    /\ eof Demo.prepared_loader = Some (inputStreamEof Demo.host)
    /\ close Demo.prepared_loader = Some inputStreamClose
    /\ exists c,
         live_context_at Demo.w_prepared (context Demo.prepared_loader) c
         /\ bound_context c
         /\ offset c = 0
         /\ input_stream c = fresh_ref Demo.w_reading
         /\ globals Demo.w_prepared = {[input_stream c]} ∪ globals Demo.w_reading.
Proof.
  match goal with |- ?hyps /\ _ => assert (Hyps : hyps) end.
  { split.
    - ground.
    - apply (initContextFromInputStream_loader_from_run (list byte) Demo.host Demo.w_reading).
        vm_compute. reflexivity. }
  split; [exact Hyps|].
  destruct Hyps as (H1 & H2).
  exact (initContextFromInputStream_builds_bound_context (list byte) Demo.host Demo.w_reading
      Demo.w_prepared thread_env 5 Demo.prepared_loader H1 H2).
Defined.

Lemma initContextFromInputStream_then_close_restores_witness :
  (refs_below_next Demo.w_reading
   /\ blocks_below_next Demo.w_reading
   /\ g_vm Demo.w_reading <> NULL
   /\ vm_binding (vm Demo.w_reading) <> UnsupportedVersion
   /\ vm_can_attach (vm Demo.w_reading) = true
   /\ initContextFromInputStream_loader Demo.host thread_env 5 Demo.w_reading = Ok
       (Some Demo.prepared_loader) Demo.w_prepared)
  /\ exists w2,
      inputStreamClose (context Demo.prepared_loader) Demo.w_prepared = Ok tt w2
      /\ heap w2 = heap Demo.w_reading
      /\ globals w2 = globals Demo.w_reading
      /\ vm w2 = vm Demo.w_reading.
Proof.
  match goal with |- ?hyps /\ _ => assert (Hyps : hyps) end.
  { split; [|split; [|split; [|split; [|split]]]].
    - exact w_reading_refs_below_next.
    - exact w_reading_blocks_below_next.
    - ground.
    - ground.
    - ground.
    - apply (initContextFromInputStream_loader_from_run (list byte) Demo.host Demo.w_reading).
        vm_compute. reflexivity. }
  split; [exact Hyps|].
  destruct Hyps as (H1 & H2 & H3 & H4 & H5 & H6).
  exact (initContextFromInputStream_then_close_restores (list byte) Demo.host Demo.w_reading
      Demo.w_prepared thread_env 5 Demo.prepared_loader H1 H2 H3 H4 H5 H6).
Defined.

Lemma inputStreamRead_count_within_request_witness :
  (live_context_at Demo.w_reading 16 (Demo.live_context 0)
   /\ bound_context (Demo.live_context 0)
   /\ 0 <= offset (Demo.live_context 0) < SIZE_MODULUS
   /\ 0 <= 3 < 2 ^ 31)
  /\ exists n out w',
      inputStreamRead Demo.host 16 3 Demo.w_reading = Ok (n, out) w'
      /\ 0 <= n <= 3
      /\ Z.of_nat (length out) = n
      /\ heap w' !! 16 = Some
          (Bcontext (set_offset (wrap_size (offset (Demo.live_context 0) + n))
              (Demo.live_context 0))).
Proof.
  match goal with |- ?hyps /\ _ => assert (Hyps : hyps) end.
  { split; [|split; [|split]].
    - ground.
    - ground.
    - ground.
    - ground. }
  split; [exact Hyps|].
  destruct Hyps as (H1 & H2 & H3 & H4).
  exact (inputStreamRead_count_within_request (list byte) Demo.host Demo.w_reading 16
      (Demo.live_context 0) 3 H1 H2 H3 H4).
Defined.

Lemma inputStreamRead_exception_only_after_failed_allocation_witness :
  (live_context_at Demo.w_reading 16 (Demo.live_context 0)
   /\ bound_context (Demo.live_context 0)
   /\ 0 <= offset (Demo.live_context 0) < SIZE_MODULUS
   /\ 0 < 3 < 2 ^ 31
   /\ pending Demo.w_reading = false)
  /\ exists n out w',
      inputStreamRead Demo.host_java_oom 16 3 Demo.w_reading = Ok (n, out) w'
      /\ pending w' = java_alloc_fails Demo.host_java_oom Demo.w_reading
      /\ (java_alloc_fails Demo.host_java_oom Demo.w_reading = true -> n = 0 /\ stream w' =
          stream Demo.w_reading).
Proof.
  match goal with |- ?hyps /\ _ => assert (Hyps : hyps) end.
  { split; [|split; [|split; [|split]]].
    - ground.
    - ground.
    - ground.
    - ground.
    - ground. }
  split; [exact Hyps|].
  destruct Hyps as (H1 & H2 & H3 & H4 & H5).
  exact (inputStreamRead_exception_only_after_failed_allocation (list byte) Demo.host_java_oom
      Demo.w_reading 16 (Demo.live_context 0) 3 H1 H2 H3 H4 H5).
Defined.

Lemma inputStreamRead_releases_transient_array_witness :
  (live_context_at Demo.w_reading 16 (Demo.live_context 0)
   /\ bound_context (Demo.live_context 0)
   /\ 0 <= offset (Demo.live_context 0) < SIZE_MODULUS
   /\ 0 <= 3 < 2 ^ 31
   /\ arrays Demo.w_reading !! fresh_ref Demo.w_reading = None)
  /\ exists n out w',
      inputStreamRead Demo.host 16 3 Demo.w_reading = Ok (n, out) w'
      /\ arrays w' = arrays Demo.w_reading
      /\ globals w' = globals Demo.w_reading
      /\ forall p, p <> 16 -> heap w' !! p = heap Demo.w_reading !! p.
Proof.
  match goal with |- ?hyps /\ _ => assert (Hyps : hyps) end.
  { split; [|split; [|split; [|split]]].
    - ground.
    - ground.
    - ground.
    - ground.
    - ground. }
  split; [exact Hyps|].
  destruct Hyps as (H1 & H2 & H3 & H4 & H5).
  exact (inputStreamRead_releases_transient_array (list byte) Demo.host Demo.w_reading 16
      (Demo.live_context 0) 3 H1 H2 H3 H4 H5).
Defined.

Lemma inputStreamRead_drops_overlong_count_witness :
  (live_context_at Demo.w_reading 16 (Demo.live_context 0)
   /\ bound_context (Demo.live_context 0)
   /\ 0 <= offset (Demo.live_context 0) < SIZE_MODULUS
   /\ 0 < 3 < 2 ^ 31
   /\ java_alloc_fails Demo.host_overlong_stream Demo.w_reading = false
   /\ pending Demo.w_reading = false
   /\ java_read_threw Demo.host_overlong_stream (stream Demo.w_reading) 3 0 3 = false
   /\ 3 < java_read_result Demo.host_overlong_stream (stream Demo.w_reading) 3 0 3)
  /\ exists w',
      inputStreamRead Demo.host_overlong_stream 16 3 Demo.w_reading = Ok (0, []) w'
      /\ pending w' = false
      /\ heap w' = heap Demo.w_reading
      /\ stream w' = snd (stream_read Demo.host_overlong_stream (stream Demo.w_reading) 3 0 3).
Proof.
  match goal with |- ?hyps /\ _ => assert (Hyps : hyps) end.
  { split; [|split; [|split; [|split; [|split; [|split; [|split]]]]]].
    - ground.
    - ground.
    - ground.
    - ground.
    - ground.
    - ground.
    - ground.
    - ground. }
  split; [exact Hyps|].
  destruct Hyps as (H1 & H2 & H3 & H4 & H5 & H6 & H7 & H8).
  exact (inputStreamRead_drops_overlong_count (list byte) Demo.host_overlong_stream
      Demo.w_reading 16 (Demo.live_context 0) 3 H1 H2 H3 H4 H5 H6 H7 H8).
Defined.

Lemma read_each_counts_every_byte_witness :
  (live_context_at Demo.w_reading 16 (Demo.live_context 0)
   /\ bound_context (Demo.live_context 0)
   /\ 0 <= offset (Demo.live_context 0) < SIZE_MODULUS
   /\ Forall (fun read_size => 0 <= read_size < 2 ^ 31) [2; 2; 2])
  /\ exists counts w',
      read_each Demo.host 16 [2; 2; 2] Demo.w_reading = Ok counts w'
      /\ Forall2 (fun n read_size => 0 <= n <= read_size) counts [2; 2; 2]
      /\ heap w' !! 16
         = Some (Bcontext
             (set_offset (wrap_size (offset (Demo.live_context 0) + total counts))
                 (Demo.live_context 0))).
Proof.
  match goal with |- ?hyps /\ _ => assert (Hyps : hyps) end.
  { split; [|split; [|split]].
    - ground.
    - ground.
    - ground.
    - repeat (constructor; [lia|]). constructor. }
  split; [exact Hyps|].
  destruct Hyps as (H1 & H2 & H3 & H4).
  exact (read_each_counts_every_byte (list byte) Demo.host [2; 2; 2] Demo.w_reading 16
      (Demo.live_context 0) H1 H2 H3 H4).
Defined.

Lemma inputStreamRead_after_close_faults_witness :
  (live_context_at Demo.w_reading 16 (Demo.live_context 0))
  /\ exists w1,
      inputStreamClose 16 Demo.w_reading = Ok tt w1
      /\ inputStreamRead Demo.host 16 3 w1 = Crash UseAfterFree w1
      /\ inputStreamEof Demo.host 16 w1 = Crash UseAfterFree w1.
Proof.
  match goal with |- ?hyps /\ _ => assert (Hyps : hyps) end.
  { ground. }
  split; [exact Hyps|].
  exact (inputStreamRead_after_close_faults (list byte) Demo.host Demo.w_reading 16
      (Demo.live_context 0) 3 Hyps).
Defined.

Lemma inputStreamClose_leaves_stream_alone_witness :
  (live_context_at Demo.w_detached 16 (Demo.live_context 0))
  /\ exists w' evs,
      inputStreamClose 16 Demo.w_detached = Ok tt w'
      /\ trace w' = (trace Demo.w_detached ++ evs)%list
      /\ count_events is_stream_call evs = 0%nat
      /\ stream w' = stream Demo.w_detached
      /\ arrays w' = arrays Demo.w_detached
      /\ pending w' = pending Demo.w_detached
      /\ (forall p, p <> 16 -> heap w' !! p = heap Demo.w_detached !! p)
      /\ (forall r, r <> input_stream (Demo.live_context 0) -> r ∈ globals w' <-> r ∈ globals
          Demo.w_detached).
Proof.
  match goal with |- ?hyps /\ _ => assert (Hyps : hyps) end.
  { ground. }
  split; [exact Hyps|].
  exact (inputStreamClose_leaves_stream_alone (list byte) Demo.w_detached 16
      (Demo.live_context 0) Hyps).
Defined.

Lemma fullTranscribe_leaves_native_memory_balanced_witness :
  (thread_env <> NULL
   /\ float_arrays Demo.w_reading !! 9 = Some [100; 200; 300]
   /\ blocks_below_next Demo.w_reading)
  /\ exists w',
      Java_com_whispercpp_whisper_WhisperLib_fullTranscribe
        Demo.host thread_env 4096 4 9 Demo.w_reading = Ok tt w'
      /\ heap w' = heap Demo.w_reading
      /\ borrowed w' = borrowed Demo.w_reading
      /\ float_arrays w' = float_arrays Demo.w_reading.
Proof.
  match goal with |- ?hyps /\ _ => assert (Hyps : hyps) end.
  { split; [|split].
    - ground.
    - ground.
    - exact w_reading_blocks_below_next. }
  split; [exact Hyps|].
  destruct Hyps as (H1 & H2 & H3).
  exact (fullTranscribe_leaves_native_memory_balanced (list byte) Demo.host Demo.w_reading
      thread_env 4096 4 9 [100; 200; 300] H1 H2 H3).
Defined.

Lemma fullTranscribe_calls_engine_with_samples_witness :
  (thread_env <> NULL
   /\ 4096 <> NULL
   /\ float_arrays Demo.w_reading !! 9 = Some [100; 200; 300]
   /\ float_elements_fail Demo.host Demo.w_reading = false)
  /\ exists w' rest,
      Java_com_whispercpp_whisper_WhisperLib_fullTranscribe
        Demo.host thread_env 4096 4 9 Demo.w_reading = Ok tt w'
      /\ trace w'
         = (trace Demo.w_reading ++
            [EGetFloatArrayElements 9 (fresh_block Demo.w_reading);
             Elog LOG_INFO
               "WhisperJNI: fullTranscribe called with: n_threads=%d, audio_length=%d, print_realtime=%d";
             Ewhisper_reset_timings 4096;
             Elog LOG_INFO "WhisperJNI: Preparing to call whisper_full C function. Context: %p";
             Ewhisper_full 4096
               (mk_whisper_full_params WHISPER_SAMPLING_GREEDY false false true false false
                  "en" 4 0 true false)
               (fresh_block Demo.w_reading) (Z.of_nat (length [100; 200; 300]))]
            ++ rest)%list
      /\ count_events is_whisper_full rest = 0%nat
      /\ last rest = Some (EReleaseFloatArrayElements 9 (fresh_block Demo.w_reading) JNI_ABORT).
Proof.
  match goal with |- ?hyps /\ _ => assert (Hyps : hyps) end.
  { split; [|split; [|split]].
    - ground.
    - ground.
    - ground.
    - ground. }
  split; [exact Hyps|].
  destruct Hyps as (H1 & H2 & H3 & H4).
  exact (fullTranscribe_calls_engine_with_samples (list byte) Demo.host Demo.w_reading
      thread_env 4096 4 9 [100; 200; 300] H1 H2 H3 H4).
Defined.

Lemma freeContext_frees_once_unless_null_witness :
  ((4096 <> 0 ->
      whisper_free Demo.engine 4096
        (emit (Elog LOG_INFO "JNI: [REGULAR MODE] Calling whisper_free on context: %p")
           (world Demo.process)) = Ok tt Demo.w_freeing))
  /\ Java_com_whispercpp_whisper_WhisperLib_freeContext Demo.engine thread_env 4096 Demo.process
    = (if 4096 =? 0
       then Done tt (set_world
                       (emit (Elog LOG_WARN
                                "JNI: freeContext called with NULL pointer, doing nothing.")
                          (world Demo.process)) Demo.process)
       else Done tt (set_world
                       (emit (Elog LOG_INFO
                                "JNI: [REGULAR MODE] whisper_free completed for context: %p")
                                    Demo.w_freeing)
                       (record_call (Cwhisper_free 4096) Demo.process))).
Proof.
  match goal with |- ?hyps /\ _ => assert (Hyps : hyps) end.
  { intros _. vm_compute. reflexivity. }
  split; [exact Hyps|].
  exact (freeContext_frees_once_unless_null (list byte) Demo.engine Demo.process thread_env
      4096 Demo.w_freeing Hyps).
Defined.

Lemma initContextFromAsset_releases_path_witness :
  (thread_env <> NULL
   /\ jstrings Demo.process !! 20 = Some "ggml-tiny.bin"
   /\ utf_chars_fail Demo.engine Demo.process = false
   /\ utf_chars Demo.process !! fresh_chars Demo.process = None
   /\ whisper_init_from_asset Demo.host thread_env 11 "ggml-tiny.bin" (world Demo.process) = Ok
       4096 Demo.w_asset_loaded)
  /\ exists p',
      Java_com_whispercpp_whisper_WhisperLib_initContextFromAsset
        Demo.host Demo.engine thread_env 11 20 Demo.process = Done 4096 p'
      /\ world p' = Demo.w_asset_loaded
      /\ calls p'
         = (calls Demo.process ++
            [CGetStringUTFChars 20 (fresh_chars Demo.process);
             Cwhisper_init_from_asset 11 (fresh_chars Demo.process);
             CReleaseStringUTFChars 20 (fresh_chars Demo.process)])%list
      /\ utf_chars p' = utf_chars Demo.process
      /\ jstrings p' = jstrings Demo.process.
Proof.
  match goal with |- ?hyps /\ _ => assert (Hyps : hyps) end.
  { split; [|split; [|split; [|split]]].
    - ground.
    - ground.
    - ground.
    - ground.
    - vm_compute. reflexivity. }
  split; [exact Hyps|].
  destruct Hyps as (H1 & H2 & H3 & H4 & H5).
  exact (initContextFromAsset_releases_path (list byte) Demo.host Demo.engine Demo.process
      thread_env 11 20 "ggml-tiny.bin" 4096 Demo.w_asset_loaded H1 H2 H3 H4 H5).
Defined.

Lemma initContext_releases_path_witness :
  (thread_env <> NULL
   /\ jstrings Demo.process !! 20 = Some "ggml-tiny.bin"
   /\ utf_chars_fail Demo.engine Demo.process = false
   /\ utf_chars Demo.process !! fresh_chars Demo.process = None
   /\ whisper_init_from_file_with_params Demo.engine (Some "ggml-tiny.bin")
       (world Demo.process) = Ok 4096 Demo.w_reading)
  /\ exists p',
      Java_com_whispercpp_whisper_WhisperLib_initContext Demo.engine thread_env 20 Demo.process
      = Done 4096 p'
      /\ world p' = Demo.w_reading
      /\ calls p'
         = (calls Demo.process ++
            [CGetStringUTFChars 20 (fresh_chars Demo.process);
             Cwhisper_init_from_file_with_params (Some "ggml-tiny.bin");
             CReleaseStringUTFChars 20 (fresh_chars Demo.process)])%list
      /\ utf_chars p' = utf_chars Demo.process
      /\ jstrings p' = jstrings Demo.process.
Proof.
  match goal with |- ?hyps /\ _ => assert (Hyps : hyps) end.
  { split; [|split; [|split; [|split]]].
    - ground.
    - ground.
    - ground.
    - ground.
    - vm_compute. reflexivity. }
  split; [exact Hyps|].
  destruct Hyps as (H1 & H2 & H3 & H4 & H5).
  exact (initContext_releases_path (list byte) Demo.engine Demo.process thread_env 20
      "ggml-tiny.bin" 4096 Demo.w_reading H1 H2 H3 H4 H5).
Defined.

Lemma getSystemInfo_never_passes_null_witness :
  (thread_env <> NULL
   /\ whisper_print_system_info Demo.engine_without_info
       (emit (Elog LOG_INFO "Java_com_whispercpp_whisper_WhisperLib_getSystemInfo CALLED")
          (world Demo.process)) = Ok None Demo.w_info_asked)
  /\ exists r p',
      Java_com_whispercpp_whisper_WhisperLib_getSystemInfo Demo.host Demo.engine_without_info
          thread_env Demo.process = Done r p'
      /\ calls p'
         = (calls Demo.process ++
            [Cwhisper_print_system_info;
             CNewStringUTF
               (Some (match None with
                      | Some text => text
                      | None => "Error: System info was NULL."
                      end)) r])%list
      /\ (r <> NULL ->
          jstrings p' !! r
          = Some (new_string Demo.engine_without_info
                    (match None with
                     | Some text => text
                     | None => "Error: System info was NULL."
                     end))).
Proof.
  match goal with |- ?hyps /\ _ => assert (Hyps : hyps) end.
  { split.
    - ground.
    - vm_compute. reflexivity. }
  split; [exact Hyps|].
  destruct Hyps as (H1 & H2).
  exact (getSystemInfo_never_passes_null (list byte) Demo.host Demo.engine_without_info
      Demo.process thread_env None Demo.w_info_asked H1 H2).
Defined.

Lemma getTextSegment_wraps_engine_text_witness :
  (thread_env <> NULL
   /\ whisper_full_get_segment_text Demo.engine 4096 0 (world Demo.process) = Ok
       (Some " Hello.") Demo.w_reading
   /\ java_alloc_fails Demo.host Demo.w_reading = false)
  /\ exists p',
      Java_com_whispercpp_whisper_WhisperLib_getTextSegment Demo.host Demo.engine thread_env
          4096 0 Demo.process
      = Done (fresh_ref Demo.w_reading) p'
      /\ jstrings p' !! fresh_ref Demo.w_reading = Some (new_string Demo.engine " Hello.")
      /\ calls p'
         = (calls Demo.process ++
            [Cwhisper_full_get_segment_text 4096 0;
             CNewStringUTF (Some " Hello.") (fresh_ref Demo.w_reading)])%list
      /\ heap (world p') = heap Demo.w_reading
      /\ utf_chars p' = utf_chars Demo.process.
Proof.
  match goal with |- ?hyps /\ _ => assert (Hyps : hyps) end.
  { split; [|split].
    - ground.
    - vm_compute. reflexivity.
    - ground. }
  split; [exact Hyps|].
  destruct Hyps as (H1 & H2 & H3).
  exact (getTextSegment_wraps_engine_text (list byte) Demo.host Demo.engine Demo.process
      thread_env 4096 0 " Hello." Demo.w_reading H1 H2 H3).
Defined.
